(** * Bigscity-TDMT: the traffic-speed dataset pipeline and the LINE scorer

    A shallow embedding of
    - [trafficdl/data/dataset/traffic_speed_dataset.py] (class
      [TrafficSpeedDataset]) and
    - [libcity/model/road_representation/LINE.py] (classes [LINE_FIRST],
      [LINE_SECOND], [LINE]),
    followed by the properties proved about them.

    Conventions of the embedding.
    - A Python exception is a value of [pyexc]; code that can raise returns
      [result A].
    - Python [int] is [Z]; a configured ratio (a Python [float] that is only
      subtracted, multiplied and rounded) is a binary64 [float] of the
      kernel, so that these steps evaluate bit for bit as in CPython.
    - The entries of the sample arrays and of the torch tensors are values
      of [fl]: the IEEE-754 values (finite, the two infinities, NaN) with
      every operation taken without rounding error and without a signed
      zero.
    - The adjacency matrix is a float32 array: its entries are binary32
      numbers ([f32]) and the operations on them round as IEEE 754
      prescribes, overflow and underflow included.
    - numpy arrays are nested lists, the leading axis outermost. *)

From Stdlib Require Import ZArith List String Ascii Bool Lia.
From Stdlib Require Import Reals Lra.
From Stdlib Require Import Floats Uint63.
From Stdlib Require DecimalString.
From stdpp Require Import gmap strings list fin_maps.

Set Warnings "-inexact-float,-clear-no-such-hyp".
Local Open Scope Z_scope.

(* ===================================================================== *)
(** * Part I: the embedding                                               *)
(* ===================================================================== *)

(** ** Exceptions *)

Inductive pyexc : Type :=
| ValueError
| IndexError
| KeyError
| OverflowError
| RuntimeError
| FileNotFoundError.

Inductive result (A : Type) : Type :=
| Ok (a : A)
| Raise (e : pyexc).

Arguments Ok {A} a.
Arguments Raise {A} e.

Definition bind {A B : Type} (m : result A) (k : A -> result B) : result B :=
  match m with
  | Ok a => k a
  | Raise e => Raise e
  end.

Notation "'do' x <- m ; k" := (bind m (fun x => k))
  (at level 10, x name, m at level 100, k at level 200).

Fixpoint mapM {A B : Type} (f : A -> result B) (l : list A) : result (list B) :=
  match l with
  | [] => Ok []
  | a :: l' => do b <- f a; do bs <- mapM f l'; Ok (b :: bs)
  end.

(** ** Python and numpy primitives on integers and sequences *)

(** [l[start:stop]] for a sequence, with Python's treatment of omitted,
    negative and out-of-range bounds. *)
Definition slice_bound (n : Z) (dflt : Z) (b : option Z) : Z :=
  match b with
  | None => dflt
  | Some i => let j := if i <? 0 then i + n else i in Z.max 0 (Z.min n j)
  end.

Definition py_slice {A : Type} (start stop : option Z) (l : list A) : list A :=
  let n := Z.of_nat (length l) in
  let lo := slice_bound n 0 start in
  let hi := slice_bound n n stop in
  take (Z.to_nat (hi - lo)) (drop (Z.to_nat lo) l).

(** [np.arange(start, stop, 1)] and [range(start, stop)]. *)
Definition arange (start stop : Z) : list Z := seqZ start (stop - start).

(** [np.sort] of a one-dimensional integer array. *)
Fixpoint sort_insert (a : Z) (l : list Z) : list Z :=
  match l with
  | [] => [a]
  | b :: l' => if a <=? b then a :: b :: l' else b :: sort_insert a l'
  end.

Definition np_sort (l : list Z) : list Z := foldr sort_insert [] l.

(** The builtins [min] and [max] over an iterable: the first element is kept
    until a strictly smaller (larger) one is met; the empty iterable raises. *)
Definition py_min (l : list Z) : result Z :=
  match l with
  | [] => Raise ValueError
  | a :: l' => Ok (fold_left (fun acc v => if v <? acc then v else acc) l' a)
  end.

Definition py_max (l : list Z) : result Z :=
  match l with
  | [] => Raise ValueError
  | a :: l' => Ok (fold_left (fun acc v => if acc <? v then v else acc) l' a)
  end.

(** [a[i]] along the leading axis of a numpy array: a negative index counts
    from the end, an index outside [-n, n) raises. *)
Definition np_index {A : Type} (a : list A) (i : Z) : result A :=
  let n := Z.of_nat (length a) in
  if (i <? - n) || (n <=? i) then Raise IndexError
  else match a !! Z.to_nat (if i <? 0 then i + n else i) with
       | Some v => Ok v
       | None => Raise IndexError
       end.

(** [a[idx, ...]] for an integer index array [idx]. *)
Definition np_take {A : Type} (a : list A) (idx : list Z) : result (list A) :=
  mapM (np_index a) idx.

(** [np.stack(arrays, axis=0)]: refuses the empty list. *)
Definition np_stack {A : Type} (arrays : list A) : result (list A) :=
  match arrays with
  | [] => Raise ValueError
  | _ => Ok arrays
  end.

(** ** [TrafficSpeedDataset._generate_input_data] *)

Section Windows.
(** One time step of the tensor: a (num_nodes x feature_dim) slab. *)
Context {A : Type}.

Definition generate_input_data (input_window output_window : Z) (df : list A)
  : result (list (list A) * list (list A)) :=
  let num_samples := Z.of_nat (length df) in
  let x_offsets := np_sort (arange (- input_window + 1) 1) in
  let y_offsets := np_sort (arange 1 (output_window + 1)) in
  do mn <- py_min x_offsets;
  let min_t := Z.abs mn in
  do mx <- py_max y_offsets;
  let max_t := Z.abs (num_samples - Z.abs mx) in
  do xy <- mapM (fun t =>
                   do x_t <- np_take df (map (Z.add t) x_offsets);
                   do y_t <- np_take df (map (Z.add t) y_offsets);
                   Ok (x_t, y_t))
                (arange min_t max_t);
  do x <- np_stack (map fst xy);
  do y <- np_stack (map snd xy);
  Ok (x, y).
End Windows.

(** ** Configured ratios: binary64 arithmetic and [round] *)

(** [float(n)] for a Python int [0 <= n < 2^63] (a sample count). *)
Definition int_to_float (n : Z) : float := PrimFloat.of_uint63 (Uint63.of_Z n).

(** The integer nearest to [m * 2^e], ties going to the even one. *)
Definition round_half_even (m : positive) (e : Z) : Z :=
  if 0 <=? e then Z.pos m * 2 ^ e
  else
    let d := 2 ^ (- e) in
    let q := Z.pos m / d in
    let r := Z.pos m mod d in
    if 2 * r <? d then q
    else if d <? 2 * r then q + 1
    else if Z.even q then q else q + 1.

(** The builtin [round(x)] of a float, one argument: an [int], half to even;
    an infinity raises OverflowError and a NaN raises ValueError. *)
Definition py_round (x : float) : result Z :=
  match Prim2SF x with
  | S754_zero _ => Ok 0
  | S754_finite s m e =>
      Ok (if s then - round_half_even m e else round_half_even m e)
  | S754_infinity _ => Raise OverflowError
  | S754_nan => Raise ValueError
  end.

(** A float that is neither an infinity nor a NaN. *)
Definition float_finite (x : float) : bool :=
  match Prim2SF x with
  | S754_zero _ | S754_finite _ _ _ => true
  | S754_infinity _ | S754_nan => false
  end.

(** ** The split of [TrafficSpeedDataset._generate_train_val_test] *)

Record partitions (X Y : Type) : Type := Partitions {
  x_train : list X;  y_train : list Y;
  x_val : list X;    y_val : list Y;
  x_test : list X;   y_test : list Y
}.

Arguments Partitions {X Y}.
Arguments x_train {X Y}.
Arguments y_train {X Y}.
Arguments x_val {X Y}.
Arguments y_val {X Y}.
Arguments x_test {X Y}.
Arguments y_test {X Y}.

Section Split.
Context {X Y : Type}.

(** Lines 216-220: the three counts. *)
Definition split_counts (train_rate eval_rate : float) (num_samples : Z)
  : result (Z * Z * Z) :=
  let test_rate := (1 - train_rate - eval_rate)%float in
  do num_test <- py_round (int_to_float num_samples * test_rate)%float;
  do num_train <- py_round (int_to_float num_samples * train_rate)%float;
  let num_val := num_samples - num_test - num_train in
  Ok (num_train, num_val, num_test).

(** Lines 216-227. *)
Definition train_val_test_split (train_rate eval_rate : float)
    (x : list X) (y : list Y) : result (partitions X Y) :=
  let num_samples := Z.of_nat (length x) in
  do c <- split_counts train_rate eval_rate num_samples;
  let '(num_train, num_val, num_test) := c in
  Ok {| x_train := py_slice None (Some num_train) x;
        y_train := py_slice None (Some num_train) y;
        x_val := py_slice (Some num_train) (Some (num_train + num_val)) x;
        y_val := py_slice (Some num_train) (Some (num_train + num_val)) y;
        x_test := py_slice (Some (- num_test)) None x;
        y_test := py_slice (Some (- num_test)) None y |}.
End Split.

(** ** Array entries: IEEE-754 values without rounding *)

Inductive fl : Type :=
| Fin (r : R)
| PInf
| NInf
| NaN.

(** The sign of a real, as a [comparison] with zero. *)
Definition Rsign (r : R) : comparison :=
  match total_order_T r 0 with
  | inleft (left _) => Lt
  | inleft (right _) => Eq
  | inright _ => Gt
  end.

Definition fl_neg (a : fl) : fl :=
  match a with
  | Fin r => Fin (- r)
  | PInf => NInf
  | NInf => PInf
  | NaN => NaN
  end.

Definition fl_add (a b : fl) : fl :=
  match a, b with
  | NaN, _ | _, NaN => NaN
  | Fin x, Fin y => Fin (x + y)
  | PInf, NInf | NInf, PInf => NaN
  | PInf, _ | _, PInf => PInf
  | NInf, _ | _, NInf => NInf
  end.

Definition fl_sub (a b : fl) : fl := fl_add a (fl_neg b).

(** An infinity times a finite value of the given sign. *)
Definition inf_times_sign (pos : bool) (s : comparison) : fl :=
  match s with
  | Gt => if pos then PInf else NInf
  | Lt => if pos then NInf else PInf
  | Eq => NaN
  end.

Definition fl_mul (a b : fl) : fl :=
  match a, b with
  | NaN, _ | _, NaN => NaN
  | Fin x, Fin y => Fin (x * y)
  | PInf, Fin y | Fin y, PInf => inf_times_sign true (Rsign y)
  | NInf, Fin y | Fin y, NInf => inf_times_sign false (Rsign y)
  | PInf, PInf | NInf, NInf => PInf
  | PInf, NInf | NInf, PInf => NaN
  end.

(** Division as numpy and torch perform it: a zero divisor raises nothing and
    yields an infinity (or NaN for 0/0). *)
Definition fl_div (a b : fl) : fl :=
  match a, b with
  | NaN, _ | _, NaN => NaN
  | Fin x, Fin y =>
      match Rsign y with
      | Eq => inf_times_sign true (Rsign x)
      | _ => Fin (x / y)
      end
  | Fin _, PInf | Fin _, NInf => Fin 0
  | PInf, Fin y => match Rsign y with Lt => NInf | _ => PInf end
  | NInf, Fin y => match Rsign y with Lt => PInf | _ => NInf end
  | PInf, PInf | PInf, NInf | NInf, PInf | NInf, NInf => NaN
  end.

Definition fl_abs (a : fl) : fl :=
  match a with
  | Fin r => Fin (Rabs r)
  | PInf | NInf => PInf
  | NaN => NaN
  end.

(** [np.square]. *)
Definition fl_square (a : fl) : fl := fl_mul a a.

Definition fl_sqrt (a : fl) : fl :=
  match a with
  | Fin r => match Rsign r with Lt => NaN | _ => Fin (R_sqrt.sqrt r) end
  | PInf => PInf
  | NInf | NaN => NaN
  end.

Definition fl_exp (a : fl) : fl :=
  match a with
  | Fin r => Fin (Rtrigo_def.exp r)
  | PInf => PInf
  | NInf => Fin 0
  | NaN => NaN
  end.

Definition fl_log (a : fl) : fl :=
  match a with
  | Fin r => match Rsign r with Gt => Fin (Rpower.ln r) | Eq => NInf | Lt => NaN end
  | PInf => PInf
  | NInf | NaN => NaN
  end.

(** [a < b]: false as soon as one side is NaN. *)
Definition fl_ltb (a b : fl) : bool :=
  match a, b with
  | NaN, _ | _, NaN => false
  | Fin x, Fin y => if Rlt_dec x y then true else false
  | NInf, NInf | PInf, _ => false
  | NInf, _ | Fin _, PInf => true
  | Fin _, NInf => false
  end.

Definition fl_isnan (a : fl) : bool :=
  match a with
  | NaN => true
  | _ => false
  end.

(** *** Reductions of a flattened numpy array *)

(** In the absence of rounding the order of summation is immaterial; the
    left-to-right accumulation is taken. *)
Definition np_sum (l : list fl) : fl := fold_left fl_add l (Fin 0).

(** [a.mean()]: the empty array yields NaN (0/0), with a warning only. *)
Definition np_mean (l : list fl) : fl :=
  fl_div (np_sum l) (Fin (INR (length l))).

(** [a.std()], the population standard deviation
    [sqrt(mean(abs(a - a.mean())**2))]. *)
Definition np_std (l : list fl) : fl :=
  let m := np_mean l in
  fl_sqrt (np_mean (map (fun v => fl_square (fl_abs (fl_sub v m))) l)).

(** [np.maximum] and [np.minimum] of two scalars: a NaN propagates. *)
Definition np_maximum (a b : fl) : fl :=
  if fl_isnan a then a else if fl_isnan b then b
  else if fl_ltb a b then b else a.

Definition np_minimum (a b : fl) : fl :=
  if fl_isnan a then a else if fl_isnan b then b
  else if fl_ltb b a then b else a.

(** [a.max()] and [a.min()]: the zero-size array raises ValueError. *)
Definition np_amax (l : list fl) : result fl :=
  match l with
  | [] => Raise ValueError
  | a :: l' => Ok (fold_left np_maximum l' a)
  end.

Definition np_amin (l : list fl) : result fl :=
  match l with
  | [] => Raise ValueError
  | a :: l' => Ok (fold_left np_minimum l' a)
  end.

(** The builtins [max(a, b, ...)] and [min(a, b, ...)] on float scalars: the
    running value is replaced only by a strictly larger (smaller) one. *)
Definition py_max_fl (a : fl) (rest : list fl) : fl :=
  fold_left (fun acc v => if fl_ltb acc v then v else acc) rest a.

Definition py_min_fl (a : fl) (rest : list fl) : fl :=
  fold_left (fun acc v => if fl_ltb v acc then v else acc) rest a.

(** ** The scaler family *)

(** Modelled from the spec: the scaler classes [NoneScaler], [NormalScaler],
    [StandardScaler], [MinMax01Scaler] and [MinMax11Scaler] are imported from
    [trafficdl.utils], which is not among the sources; the constructors carry
    the keyword arguments that [_get_scalar] passes (section 4.7: identity,
    linear-max, standardize, min-max to [0,1], min-max to [-1,1]). *)
Inductive Scaler : Type :=
| NoneScaler
| NormalScaler (max : fl)
| StandardScaler (mean std : fl)
| MinMax01Scaler (max min : fl)
| MinMax11Scaler (max min : fl).

(** Modelled from the spec: [transform] of the missing scaler classes, after
    section 4.7: identity is a no-op; linear-max divides by the maximum;
    standardize subtracts the mean and divides by the standard deviation;
    the min-max variants rescale linearly with the training min and max, to
    [0,1] and to [-1,1]. *)
Definition transform (s : Scaler) (v : fl) : fl :=
  match s with
  | NoneScaler => v
  | NormalScaler mx => fl_div v mx
  | StandardScaler mean std => fl_div (fl_sub v mean) std
  | MinMax01Scaler mx mn => fl_div (fl_sub v mn) (fl_sub mx mn)
  | MinMax11Scaler mx mn =>
      fl_sub (fl_mul (fl_div (fl_sub v mn) (fl_sub mx mn)) (Fin 2)) (Fin 1)
  end.

(** Modelled from the spec: [inverse_transform] of the missing scaler
    classes, after section 4.7 ("inverse multiplies back", "inverse
    reverses"). *)
Definition inverse_transform (s : Scaler) (v : fl) : fl :=
  match s with
  | NoneScaler => v
  | NormalScaler mx => fl_mul v mx
  | StandardScaler mean std => fl_add (fl_mul v std) mean
  | MinMax01Scaler mx mn => fl_add (fl_mul v (fl_sub mx mn)) mn
  | MinMax11Scaler mx mn =>
      fl_add (fl_mul (fl_div (fl_add v (Fin 1)) (Fin 2)) (fl_sub mx mn)) mn
  end.

(** ** [TrafficSpeedDataset._get_scalar] *)

(** A split array: (num_samples, window, num_nodes, feature_dim). *)
Abbreviation array4 := (list (list (list (list fl)))).

(** [a[..., :k]]. *)
Definition channels_to (k : Z) (a : array4) : array4 :=
  map (map (map (py_slice None (Some k)))) a.

(** The entries of an array in row-major order. *)
Definition flat (a : array4) : list fl := concat (concat (concat a)).

Definition get_scalar (scaler_type : string) (output_dim : Z)
    (x_train y_train x_val y_val x_test y_test : array4) : result Scaler :=
  let sl a := flat (channels_to output_dim a) in
  if String.eqb scaler_type "normal" then
    do m1 <- np_amax (sl x_train);
    do m2 <- np_amax (sl y_train);
    do m3 <- np_amax (sl x_val);
    do m4 <- np_amax (sl y_val);
    do m5 <- np_amax (sl x_test);
    do m6 <- np_amax (sl y_test);
    Ok (NormalScaler (py_max_fl m1 [m2; m3; m4; m5; m6]))
  else if String.eqb scaler_type "standard" then
    Ok (StandardScaler (np_mean (sl x_train)) (np_std (sl x_train)))
  else if String.eqb scaler_type "minmax01" then
    do m1 <- np_amax (sl x_train);
    do m2 <- np_amax (sl y_train);
    do n1 <- np_amin (sl x_train);
    do n2 <- np_amin (sl y_train);
    Ok (MinMax01Scaler (py_max_fl m1 [m2]) (py_min_fl n1 [n2]))
  else if String.eqb scaler_type "minmax11" then
    do m1 <- np_amax (sl x_train);
    do m2 <- np_amax (sl y_train);
    do n1 <- np_amin (sl x_train);
    do n2 <- np_amin (sl y_train);
    Ok (MinMax11Scaler (py_max_fl m1 [m2]) (py_min_fl n1 [n2]))
  else if String.eqb scaler_type "none" then
    Ok NoneScaler
  else
    Raise ValueError.

(** ** binary32: the entries of the adjacency matrix *)

(** [adj_mx] is created with [dtype=np.float32] (line 92) and every
    operation of [_calculate_adjacency_matrix] keeps that dtype.  A
    binary32 number is a [spec_float]; the operations are those of IEEE 754
    at precision 24 with the infinities at exponent 128, rounding to
    nearest, ties to even. *)
Abbreviation f32 := spec_float.

Definition f32_add : f32 -> f32 -> f32 := SFadd 24 128.
Definition f32_sub : f32 -> f32 -> f32 := SFsub 24 128.
Definition f32_mul : f32 -> f32 -> f32 := SFmul 24 128.
Definition f32_div : f32 -> f32 -> f32 := SFdiv 24 128.
Definition f32_sqrt : f32 -> f32 := SFsqrt 24 128.
Definition f32_neg : f32 -> f32 := SFopp.
Definition f32_ltb : f32 -> f32 -> bool := SFltb.

Definition f32_zero : f32 := S754_zero false.
Definition f32_one : f32 := S754_finite false 8388608 (-23).
Definition f32_inf : f32 := S754_infinity false.

Definition f32_isinf (v : f32) : bool :=
  match v with
  | S754_infinity _ => true
  | _ => false
  end.

(** A float64 stored into a float32 array, or a Python float compared
    with one: the nearest binary32, an infinity when the value is beyond
    the binary32 range. *)
Definition f32_of_f64 (x : float) : f32 :=
  match Prim2SF x with
  | S754_finite s m e => binary_round 24 128 s m e
  | v => v
  end.

(** The number of entries of an array, as a binary32. *)
Definition f32_of_nat (n : nat) : f32 :=
  binary_normalize 24 128 (Z.of_nat n) 0 false.

(** [pd.isna] of a float64. *)
Definition float_isnan (x : float) : bool :=
  match Prim2SF x with
  | S754_nan => true
  | _ => false
  end.

(** ** [TrafficSpeedDataset._calculate_adjacency_matrix] *)

Section Float32Routines.
(** Two routines of numpy whose result the source does not fix bit for
    bit: the order in which [np.add.reduce] adds three or more float32
    numbers, and the rounding of [np.exp] at a finite argument other than
    zero.  They are parameters of the embedding. *)
Variable add_reduce3 : list f32 -> f32.
Variable exp_finite : f32 -> f32.

(** [np.add.reduce] of a float32 array: with fewer than three entries
    every order of summation gives the same number (only the sign of a
    sum that is zero can differ, and the standard deviation below does not
    depend on it). *)
Definition np_sum32 (l : list f32) : f32 :=
  match l with
  | [] | [_] | [_; _] => fold_left f32_add l f32_zero
  | _ => add_reduce3 l
  end.

(** [a.std()] of a float32 array:
    [sqrt(sum(square(a - sum(a) / n)) / n)], every step in binary32 (the
    number of entries [n] is a binary32 without rounding up to 2^24
    entries). *)
Definition np_std32 (l : list f32) : f32 :=
  let n := f32_of_nat (length l) in
  let mean := f32_div (np_sum32 l) n in
  let x := map (fun v => f32_sub v mean) l in
  f32_sqrt (f32_div (np_sum32 (map (fun d => f32_mul d d) x)) n).

(** [np.exp] of a binary32: the values that IEEE 754 fixes, and the
    library routine elsewhere. *)
Definition np_exp32 (v : f32) : f32 :=
  match v with
  | S754_nan => S754_nan
  | S754_infinity true => f32_zero
  | S754_infinity false => f32_inf
  | S754_zero _ => f32_one
  | S754_finite _ _ _ => exp_finite v
  end.

(** Lines 111-112: the standard deviation of the entries that are not
    infinite. *)
Definition adj_std (adj_mx : list (list f32)) : f32 :=
  let distances := filter (fun v => f32_isinf v = false) (concat adj_mx) in
  np_std32 distances.

(** [exp(-square(v / std))] for one entry. *)
Definition gauss_weight (std v : f32) : f32 :=
  let q := f32_div v std in
  np_exp32 (f32_neg (f32_mul q q)).

(** Line 113: the matrix before the threshold is applied. *)
Definition gauss_kernel (adj_mx : list (list f32)) : list (list f32) :=
  let std := adj_std adj_mx in
  map (map (gauss_weight std)) adj_mx.

(** Line 114 for one entry: the Python float [adj_epsilon] is compared as
    a float32. *)
Definition threshold (adj_epsilon : float) (w : f32) : f32 :=
  if f32_ltb w (f32_of_f64 adj_epsilon) then f32_zero else w.

(** Lines 111-114. *)
Definition calculate_adjacency_matrix (adj_epsilon : float)
    (adj_mx : list (list f32)) : list (list f32) :=
  map (map (threshold adj_epsilon)) (gauss_kernel adj_mx).
End Float32Routines.

(** The entry [m[i, j]] of a matrix, when there is one. *)
Definition cell (m : list (list f32)) (i j : nat) : option f32 :=
  match m !! i with
  | Some row => row !! j
  | None => None
  end.

(** ** [TrafficSpeedDataset._load_geo] and [_load_rel] *)

Section Tables.
(** Entity identifiers, as pandas read them. *)
Context {K : Type} `{Countable K}.

(** The identifier that a row of [distance_df.values] holds for an
    identifier of the relation file.  [.values] is one array of one dtype:
    beside a float64 weight column, the identifiers of an integer column
    are converted to float64 ([float64_id] below), and the dictionary is
    searched for the converted number; identifiers that are strings are
    kept as they are. *)
Variable values_id : K -> K.

(** Lines 66-68: the dictionary [geo_to_ind]. *)
Definition load_geo (geo_ids : list K) : gmap K nat :=
  fold_left (fun m p => <[p.2 := p.1]> m)
            (zip (seq 0 (length geo_ids)) geo_ids) (∅ : gmap K nat).

(** [adj_mx[i, j] = v] for in-range [i], [j]. *)
Definition set_cell (i j : nat) (v : f32) (adj_mx : list (list f32))
  : list (list f32) :=
  alter (fun row => <[j := v]> row) i adj_mx.

(** One iteration of the loop of lines 94-97 on a row
    (origin_id, destination_id, weight) of the relation file: the weight, a
    float64, is stored into the float32 matrix. *)
Definition rel_row (geo_to_ind : gmap K nat) (adj_mx : list (list f32))
    (row : K * K * float) : list (list f32) :=
  let '(origin, destination, w) := row in
  match geo_to_ind !! values_id origin, geo_to_ind !! values_id destination with
  | Some i, Some j => set_cell i j (f32_of_f64 w) adj_mx
  | _, _ => adj_mx
  end.

(** Lines 92-97: the matrix filled with [np.inf], then populated. *)
Definition fill_adj_mx (geo_ids : list K) (geo_to_ind : gmap K nat)
    (distance_df : list (K * K * float)) : list (list f32) :=
  let n := length geo_ids in
  fold_left (rel_row geo_to_ind) distance_df (replicate n (replicate n f32_inf)).

(** Lines 92-101. *)
Definition load_rel (add_reduce3 : list f32 -> f32) (exp_finite : f32 -> f32)
    (geo_ids : list K) (calculate_weight : bool)
    (adj_epsilon : float) (distance_df : list (K * K * float))
  : list (list f32) :=
  let adj_mx := fill_adj_mx geo_ids (load_geo geo_ids) distance_df in
  if calculate_weight
  then calculate_adjacency_matrix add_reduce3 exp_finite adj_epsilon adj_mx
  else adj_mx.
End Tables.

(** [float(k)] for an identifier of an int64 column, as the integer it
    denotes: the nearest binary64. *)
Definition float64_id (k : Z) : Z :=
  match binary_normalize 53 1024 k 0 false with
  | S754_finite s m e => cond_Zopp s (Z.shiftl (Z.pos m) e)
  | _ => 0
  end.

(** ** The dataset object and its cache *)

(** A location of the Python heap holding a list object. *)
Abbreviation loc := positive.

(** The list objects of the heap; a list of column names is all that the
    modelled code stores in one. *)
Abbreviation heap := (gmap loc (list string)).

(** The configured value of [data_col]: a [str], or a reference to a [list]
    of column names. *)
Inductive pyval : Type :=
| PStr (s : string)
| PList (l : loc).

(** The attributes that [__init__] reads from the configuration. *)
Record TrafficSpeedDataset : Type := {
  dataset : string;
  points_per_hour : Z;
  input_window : Z;
  output_window : Z;
  output_dim : Z;
  batch_size : Z;
  num_workers : Z;
  add_time_in_day : bool;
  add_day_in_week : bool;
  pad_with_last_sample : bool;
  weight_col : string;
  data_col : pyval;
  calculate_weight : bool;
  adj_epsilon : float;
  train_rate : float;
  eval_rate : float;
  scaler_type : string;
  cache_dataset : bool
}.

(** [str] of an [int] and of a [bool]. *)
Definition str_int (z : Z) : string :=
  DecimalString.NilZero.string_of_int (Z.to_int z).

Definition str_bool (b : bool) : string :=
  if b then "True"%string else "False"%string.

(** The cache folder: file name to the six arrays stored under it. *)
Abbreviation cache_dir A := (gmap string (partitions (list A) (list A))).

Section Cache.
(** [str] of a float (CPython's shortest round-trip [repr]). *)
Variable str_float : float -> string.

Local Open Scope string_scope.

(** Lines 33-36. *)
Definition parameters_str (self : TrafficSpeedDataset) : string :=
  dataset self ++ "_" ++ str_int (input_window self) ++ "_"
    ++ str_int (output_window self) ++ "_"
    ++ str_float (train_rate self) ++ "_" ++ str_float (eval_rate self) ++ "_"
    ++ scaler_type self ++ "_"
    ++ str_int (batch_size self) ++ "_" ++ str_bool (add_time_in_day self) ++ "_"
    ++ str_bool (add_day_in_week self) ++ "_"
    ++ str_bool (pad_with_last_sample self).

(** Lines 37-38; the second component of [os.path.join] never starts
    with a slash, so the two are concatenated. *)
Definition cache_file_name (self : TrafficSpeedDataset) : string :=
  "./trafficdl/cache/dataset_cache/"
    ++ ("point_based_" ++ parameters_str self ++ ".npz").

Local Close Scope string_scope.

Context {A : Type}.

(** Lines 212-244; [df] is the tensor that
    [_add_time_meta_information(_load_dyna())] returned. *)
Definition generate_train_val_test (self : TrafficSpeedDataset)
    (fs : cache_dir A) (df : list A)
  : result (partitions (list A) (list A) * cache_dir A) :=
  do xy <- generate_input_data (input_window self) (output_window self) df;
  do p <- train_val_test_split (train_rate self) (eval_rate self) xy.1 xy.2;
  if cache_dataset self
  then Ok (p, <[cache_file_name self := p]> fs)
  else Ok (p, fs).

(** Lines 252-259. *)
Definition load_cache_train_val_test (self : TrafficSpeedDataset)
    (fs : cache_dir A) : result (partitions (list A) (list A)) :=
  match fs !! cache_file_name self with
  | Some p => Ok p
  | None => Raise FileNotFoundError
  end.

(** Lines 309-315 on an object whose [data] is still [None]. *)
Definition get_data_arrays (self : TrafficSpeedDataset)
    (fs : cache_dir A) (df : list A)
  : result (partitions (list A) (list A) * cache_dir A) :=
  if cache_dataset self && bool_decide (is_Some (fs !! cache_file_name self))
  then do p <- load_cache_train_val_test self fs; Ok (p, fs)
  else generate_train_val_test self fs df.
End Cache.

(** The ten attributes that enter [parameters_str]. *)
Definition same_fingerprint_fields (c1 c2 : TrafficSpeedDataset) : Prop :=
  dataset c1 = dataset c2 /\
  input_window c1 = input_window c2 /\
  output_window c1 = output_window c2 /\
  train_rate c1 = train_rate c2 /\
  eval_rate c1 = eval_rate c2 /\
  scaler_type c1 = scaler_type c2 /\
  batch_size c1 = batch_size c2 /\
  add_time_in_day c1 = add_time_in_day c2 /\
  add_day_in_week c1 = add_day_in_week c2 /\
  pad_with_last_sample c1 = pad_with_last_sample c2.

(** ** Column selection of [TrafficSpeedDataset._load_dyna] *)

(** [l.insert(i, x)] for [i >= 0]. *)
Definition list_insert_at {A : Type} (i : nat) (x : A) (l : list A) : list A :=
  take i l ++ x :: drop i l.

(** Lines 125-134, on the heap [h]: which columns of the table with columns
    [file_columns] are kept.  The list that the local [data_col] refers to
    is updated in the heap before the table is indexed, so the heap is
    returned also when the indexing raises. *)
Definition load_dyna_columns (self : TrafficSpeedDataset)
    (file_columns : list string) (h : heap) : heap * result (list string) :=
  let select (l : loc) (h0 : heap) :=
    let h1 := alter (list_insert_at 0 "time"%string) l h0 in
    let h2 := alter (list_insert_at 1 "entity_id"%string) l h1 in
    let cols := default [] (h2 !! l) in
    (h2, if forallb (fun c => bool_decide (c ∈ file_columns)) cols
         then Ok cols else Raise KeyError) in
  match data_col self with
  | PStr "" => (h, Ok (drop 2 file_columns))
  | PStr s =>
      let l := fresh (dom h) in
      select l (<[l := [s]]> h)
  | PList l => select l h
  end.

(** ** [LINE.py]: the embedding scorers *)

(** The weight of an [nn.Embedding]: one row per node. *)
Abbreviation table := (list (list fl)).

(** [emb(idx)] for a one-dimensional index tensor: torch refuses an index
    outside [0, num_embeddings). *)
Definition embedding (weight : table) (idx : list Z) : result (list (list fl)) :=
  mapM (fun i =>
          if (i <? 0) || (Z.of_nat (length weight) <=? i) then Raise IndexError
          else match weight !! Z.to_nat i with
               | Some row => Ok row
               | None => Raise IndexError
               end) idx.

(** An elementwise operation on the leading axis, with torch's
    broadcasting of an axis of size 1. *)
Definition broadcast {A B C : Type} (f : A -> B -> C) (a : list A) (b : list B)
  : result (list C) :=
  if Nat.eqb (length a) (length b) then Ok (zip_with f a b)
  else match a, b with
       | [x], _ => Ok (map (f x) b)
       | _, [y] => Ok (map (fun x => f x y) a)
       | _, _ => Raise RuntimeError
       end.

(** [(vi * vj).sum(dim=-1)] for two (B, D) tensors. *)
Definition mul_sum (vi vj : list (list fl)) : result (list fl) :=
  do prod <- broadcast (zip_with fl_mul) vi vj;
  Ok (map np_sum prod).

Inductive LINE_embed : Type :=
| LINE_FIRST (node_emb : table)
| LINE_SECOND (node_emb context_emb : table).

(** [LINE_FIRST.forward] and [LINE_SECOND.forward]. *)
Definition embed_forward (e : LINE_embed) (I J : list Z) : result (list fl) :=
  match e with
  | LINE_FIRST node_emb =>
      do vi <- embedding node_emb I;
      do vj <- embedding node_emb J;
      mul_sum vi vj
  | LINE_SECOND node_emb context_emb =>
      do vi <- embedding node_emb I;
      do vj <- embedding context_emb J;
      mul_sum vi vj
  end.

Record LINE : Type := {
  order : string;
  embed : LINE_embed
}.

(** [LINE.__init__]; [w1] and [w2] are the weights that the two
    [nn.Embedding] constructors draw. *)
Definition LINE_init (order : string) (w1 w2 : table) : result LINE :=
  if String.eqb order "first" then
    Ok {| order := order; embed := LINE_FIRST w1 |}
  else if String.eqb order "second" then
    Ok {| order := order; embed := LINE_SECOND w1 w2 |}
  else
    Raise ValueError.

(** [LINE.forward]. *)
Definition forward (self : LINE) (I J : list Z) : result (list fl) :=
  embed_forward (embed self) I J.

(** [F.logsigmoid], elementwise: log(1 / (1 + exp(-x))). *)
Definition logsigmoid (x : fl) : fl :=
  fl_log (fl_div (Fin 1) (fl_add (Fin 1) (fl_exp (fl_neg x)))).

(** [LINE.calculate_loss] on the batch {I, J, Neg}. *)
Definition calculate_loss (self : LINE) (I J : list Z) (Neg : list fl)
  : result fl :=
  do dot_product <- forward self I J;
  do prod <- broadcast fl_mul dot_product Neg;
  Ok (fl_neg (np_mean (map logsigmoid prod))).

(** *** The scorer and the loss as section 4.8 words them *)

(** The dot product of two vectors. *)
Fixpoint dot (u v : list fl) : fl :=
  match u, v with
  | a :: u', b :: v' => fl_add (fl_mul a b) (dot u' v')
  | _, _ => Fin 0
  end.

Definition sigmoid (x : fl) : fl :=
  fl_div (Fin 1) (fl_add (Fin 1) (fl_exp (fl_neg x))).

(** The row of a table at an index in range. *)
Definition row_at (t : table) (i : Z) : list fl := default [] (t !! Z.to_nat i).

(** The mean over the batch of -log(sigmoid(score * label)). *)
Definition mean_neg_log_sigmoid (scores labels : list fl) : fl :=
  np_mean (zip_with (fun s l => fl_neg (fl_log (sigmoid (fl_mul s l)))) scores labels).

(** ** Auxiliary predicates and example inputs of the properties *)

(** Ten samples, named by their position in time. *)
Definition ten_samples : list Z := [0; 1; 2; 3; 4; 5; 6; 7; 8; 9].

(** A hundred samples, named by their position in time. *)
Definition hundred_samples : list Z := seqZ 0 100.

(** Two configurations that differ in [data_col] only. *)
Definition cfg_speed : TrafficSpeedDataset :=
  {| dataset := "METR_LA"; points_per_hour := 12;
     input_window := 2; output_window := 1; output_dim := 0;
     batch_size := 64; num_workers := 1;
     add_time_in_day := false; add_day_in_week := false;
     pad_with_last_sample := true;
     weight_col := ""; data_col := PStr "traffic_speed";
     calculate_weight := false; adj_epsilon := 0.1;
     train_rate := 0.7; eval_rate := 0.1;
     scaler_type := "none"; cache_dataset := true |}.

Definition cfg_flow : TrafficSpeedDataset :=
  {| dataset := "METR_LA"; points_per_hour := 12;
     input_window := 2; output_window := 1; output_dim := 0;
     batch_size := 64; num_workers := 1;
     add_time_in_day := false; add_day_in_week := false;
     pad_with_last_sample := true;
     weight_col := ""; data_col := PStr "traffic_flow";
     calculate_weight := false; adj_epsilon := 0.1;
     train_rate := 0.7; eval_rate := 0.1;
     scaler_type := "none"; cache_dataset := true |}.

(** The columns of a table with two measurements. *)
Definition dyna_columns : list string :=
  ["dyna_id"; "type"; "time"; "entity_id"; "traffic_speed"; "traffic_flow"]%string.

(** The tensors that the two configurations load: six time steps of one
    node's speed, respectively flow, each time step named by its value. *)
Definition speed_series : list Z := [60; 61; 62; 63; 64; 65].
Definition flow_series : list Z := [300; 310; 320; 330; 340; 350].

(** [str] on the two ratios of the examples. *)
Definition str_float_example (x : float) : string :=
  if (x =? 0.7)%float then "0.7"%string
  else if (x =? 0.1)%float then "0.1"%string
  else "nan"%string.

(** What a generation under [cfg_speed] returns and stores. *)
Definition speed_parts : partitions (list Z) (list Z) :=
  {| x_train := [[60; 61]; [61; 62]; [62; 63]];
     y_train := [[62]; [63]; [64]];
     x_val := []; y_val := [];
     x_test := [[63; 64]]; y_test := [[65]] |}.

(** A dataset object whose [data_col] refers to the list at location 1. *)
Definition cfg_list : TrafficSpeedDataset :=
  {| dataset := "METR_LA"; points_per_hour := 12;
     input_window := 2; output_window := 1; output_dim := 0;
     batch_size := 64; num_workers := 1;
     add_time_in_day := false; add_day_in_week := false;
     pad_with_last_sample := true;
     weight_col := ""; data_col := PList 1%positive;
     calculate_weight := false; adj_epsilon := 0.1;
     train_rate := 0.7; eval_rate := 0.1;
     scaler_type := "none"; cache_dataset := true |}.

Definition heap_list : heap := {[ 1%positive := ["traffic_speed"%string] ]}.

(** Fitted statistics with which a scaler can be undone: finite, and with a
    non-zero divisor. *)
Definition scaler_regular (s : Scaler) : Prop :=
  match s with
  | NoneScaler => True
  | NormalScaler mx => exists m, mx = Fin m /\ m <> 0%R
  | StandardScaler mean std =>
      exists m sd, mean = Fin m /\ std = Fin sd /\ sd <> 0%R
  | MinMax01Scaler mx mn | MinMax11Scaler mx mn =>
      exists a b, mx = Fin a /\ mn = Fin b /\ a <> b
  end.

(** A training input that is constant: two samples of one step, one node
    and one feature, both 5. *)
Definition const_train : array4 := [[[[Fin 5]]]; [[[Fin 5]]]].

(** Two one-entry arrays. *)
Definition arr_one : array4 := [[[[Fin 1]]]].
Definition arr_nine : array4 := [[[[Fin 9]]]].


(** One order of summation: from left to right. *)
Definition sum32_left (l : list f32) : f32 := fold_left f32_add l f32_zero.

(** One routine for exp at a finite argument: the Taylor polynomial of
    degree 8 at [v / 256], squared eight times, in binary32. *)
Definition exp32_taylor (v : f32) : f32 :=
  let y := SFldexp 24 128 v (-8) in
  let step acc k := f32_add f32_one (f32_div (f32_mul y acc) (f32_of_nat k)) in
  Nat.iter 8 (fun r => f32_mul r r)
           (fold_left step [8; 7; 6; 5; 4; 3; 2; 1]%nat f32_one).


(** Two tables of two nodes with embeddings of size two. *)
Definition emb_node : table := [[Fin 1; Fin 2]; [Fin 3; Fin 4]].
Definition emb_context : table := [[Fin 5; Fin 6]; [Fin 7; Fin 8]].

(** ** Further parts of [traffic_speed_dataset.py] *)

(** *** [_load_rel], lines 80-97: the weight column and the rows kept *)

Section RelFile.
(** Entity identifiers, as pandas read them. *)
Context {K : Type} `{Countable K}.
Variable values_id : K -> K.

(** A row of the relation table: its two identifiers, and the float64 it
    holds in a column of a given name (NaN where the file has no value). *)
Record rel_record : Type := {
  origin_id : K;
  destination_id : K;
  rel_value : string -> float
}.

(** Lines 81-88: the name of the weight column.  A configured name must be
    a column of the table ([relfile[weight_col]] raises KeyError
    otherwise); without one the table must have exactly five columns, of
    which the last is taken. *)
Definition rel_weight_col (weight_col : string) (columns : list string)
  : result string :=
  if negb (String.eqb weight_col "") then
    if bool_decide (weight_col ∈ columns) then Ok weight_col
    else Raise KeyError
  else if negb (Nat.eqb (length columns) 5) then Raise ValueError
  else match last columns with
       | Some c => Ok c
       | None => Raise IndexError
       end.

(** Lines 82-83 and 89-90: the rows whose weight is not NaN, reduced to
    (origin_id, destination_id, weight). *)
Definition rel_distance_df (col : string) (rows : list rel_record)
  : list (K * K * float) :=
  map (fun r => (origin_id r, destination_id r, rel_value r col))
      (filter (fun r => float_isnan (rel_value r col) = false) rows).

(** Lines 80-101: the weight column that the object holds afterwards, and
    the adjacency matrix. *)
Definition load_rel_file (add_reduce3 : list f32 -> f32) (exp_finite : f32 -> f32)
    (weight_col : string) (calculate_weight : bool)
    (adj_epsilon : float) (geo_ids : list K)
    (columns : list string) (rows : list rel_record)
  : result (string * list (list f32)) :=
  do col <- rel_weight_col weight_col columns;
  Ok (col, load_rel values_id add_reduce3 exp_finite geo_ids calculate_weight
             adj_epsilon (rel_distance_df col rows)).

(** What [__init__] loads (lines 51-56): the entity table with its
    dictionary and, when there is a relation file, the weight column and
    the adjacency matrix. *)
Record loaded_tables : Type := {
  loaded_geo_ids : list K;
  loaded_geo_to_ind : gmap K nat;
  loaded_num_nodes : nat;
  loaded_rel : option (string * list (list f32))
}.

(** Lines 15-56.  The attributes of lines 16-32 and 41 are the record
    [self]; [geofile] is the [geo_id] column of the .geo file and
    [relfile] the columns and rows of the .rel file, [None] when the file
    does not exist. *)
Definition dataset_init (add_reduce3 : list f32 -> f32) (exp_finite : f32 -> f32)
    (self : TrafficSpeedDataset) (geofile : option (list K))
    (relfile : option (list string * list rel_record))
  : result loaded_tables :=
  match geofile with
  | None => Raise ValueError
  | Some geo_ids =>
      let tables rel :=
        {| loaded_geo_ids := geo_ids;
           loaded_geo_to_ind := load_geo geo_ids;
           loaded_num_nodes := length geo_ids;
           loaded_rel := rel |} in
      match relfile with
      | None => Ok (tables None)
      | Some (columns, rows) =>
          do rel <- load_rel_file add_reduce3 exp_finite (weight_col self)
                      (calculate_weight self) (adj_epsilon self)
                      geo_ids columns rows;
          Ok (tables (Some rel))
      end
  end.
End RelFile.

Arguments rel_record K : clear implicits.
Arguments loaded_tables K {_ _}.

(** *** [_load_dyna], lines 136-147: from the flat table to the tensor *)

(** A tensor (len_time, num_nodes, feature_dim). *)
Abbreviation tensor3 := (list (list (list fl))).

(** Lines 140-141: the columns taken as features among the selected ones,
    [columns[-feature_dim:]] with [feature_dim = len(columns) - 2]. *)
Definition dyna_feature_columns (columns : list string) : list string :=
  let feature_dim := Z.of_nat (length columns) - 2 in
  py_slice (Some (- feature_dim)) None columns.

(** Line 136: [int(nrows / len(geo_ids))]; the division by zero raises
    ZeroDivisionError, rendered as [None]. *)
Definition dyna_len_time (nrows num_nodes : nat) : option nat :=
  match num_nodes with
  | O => None
  | _ => Some (nrows / num_nodes)%nat
  end.

(** Lines 144-145: the blocks [df[i:i+len_time]] for
    [i in range(0, nrows, len_time)], with [len_time > 0]. *)
Definition dyna_blocks {A : Type} (len_time : nat) (rows : list A) : list (list A) :=
  map (fun b => take len_time (drop (b * len_time) rows))
      (seq 0 ((length rows + len_time - 1) / len_time)).

(** [a.swapaxes(0, 1)] of an array whose second axis has length [t]. *)
Definition swapaxes01 {A : Type} (t : nat) (a : list (list A)) : list (list A) :=
  map (fun i => omap (fun blk => blk !! i) a) (seq 0 t).

(** Lines 143-147 on the feature rows of the table: [range] refuses a zero
    step, and [np.array] refuses blocks of unequal lengths. *)
Definition dyna_reshape (len_time : nat) (rows : list (list fl)) : result tensor3 :=
  match len_time with
  | O => Raise ValueError
  | _ =>
      let data := dyna_blocks len_time rows in
      match data with
      | [] => Raise ValueError
      | blk :: _ =>
          if forallb (fun b => Nat.eqb (length b) (length blk)) data
          then Ok (swapaxes01 (length blk) data)
          else Raise ValueError
      end
  end.

(** Lines 136-147 for a table of feature rows and [num_nodes] entities. *)
Definition load_dyna_tensor (num_nodes : nat) (rows : list (list fl))
  : option (result tensor3) :=
  match dyna_len_time (length rows) num_nodes with
  | None => None
  | Some len_time => Some (dyna_reshape len_time rows)
  end.

(** *** [_add_time_meta_information] *)

(** A [datetime64[ns]] value: nanoseconds since 1970-01-01, or NaT. *)
Definition datetime64 : Type := option Z.

(** Nanoseconds in a day. *)
Definition day_ns : Z := 86400 * 10 ^ 9.

(** Line 161: the time elapsed since midnight as a fraction of a day;
    [astype("datetime64[D]")] rounds towards minus infinity. *)
Definition time_ind (ts : datetime64) : fl :=
  match ts with
  | Some ns => Fin (IZR (ns mod day_ns) / IZR day_ns)
  | None => NaN
  end.

(** Line 167: the weekday (Monday is 0) of the date of a time stamp;
    1970-01-01 was a Thursday.  [strptime] refuses 'NaT'. *)
Definition dayofweek (ts : datetime64) : result Z :=
  match ts with
  | Some ns => Ok ((ns / day_ns + 3) mod 7)
  | None => Raise ValueError
  end.

(** Line 169, [day_in_week[np.arange(num_samples), :, dayofweek] = 1]:
    for each sample the weekdays whose position is set to 1.  The two
    index arrays are broadcast against each other. *)
Definition day_hits (num_samples : nat) (dows : list Z) : result (list (list Z)) :=
  if Nat.eqb (length dows) num_samples then Ok (map (fun d => [d]) dows)
  else match dows, num_samples with
       | [d], _ => Ok (replicate num_samples [d])
       | _, 1%nat => Ok [dows]
       | _, _ => Raise IndexError
       end.

(** A row of seven zeros with ones at the given positions. *)
Definition one_hot7 (hits : list Z) : list fl :=
  map (fun k => if bool_decide (k ∈ hits) then Fin 1 else Fin 0) (seqZ 0 7).

(** Lines 157-173. *)
Definition add_time_meta_information (add_time_in_day add_day_in_week : bool)
    (timesolts : list datetime64) (df : tensor3) : result tensor3 :=
  let num_samples := length df in
  let tids := map time_ind timesolts in
  do hits <- (if add_day_in_week
              then do dows <- mapM dayofweek timesolts; day_hits num_samples dows
              else Ok []);
  if add_time_in_day && negb (Nat.eqb (length timesolts) num_samples)
  then Raise ValueError
  else Ok (imap (fun t step =>
                   map (fun feats =>
                          feats
                            ++ (if add_time_in_day
                                then [default NaN (tids !! t)] else [])
                            ++ (if add_day_in_week
                                then one_hot7 (default [] (hits !! t)) else []))
                       step) df).

(** *** [get_data], lines 317-330: the output dimension and the scaling *)

(** Lines 318-323. *)
Definition derive_output_dim (output_dim feature_dim : Z)
    (add_time_in_day add_day_in_week : bool) : Z :=
  if output_dim =? 0 then
    let od := feature_dim in
    let od := if add_time_in_day then od - 1 else od in
    if add_day_in_week then od - 7 else od
  else output_dim.

(** [a[..., :k] = f(a[..., :k])] for an elementwise [f]. *)
Definition assign_channels (f : fl -> fl) (k : Z) (a : array4) : array4 :=
  map (map (map (fun feats =>
    let n := Z.of_nat (length feats) in
    let hi := Z.to_nat (slice_bound n n (Some k)) in
    map f (take hi feats) ++ drop hi feats))) a.

(** Lines 325-330 for a scaler whose [transform] acts as [f] on every
    entry. *)
Definition scale_partitions (f : fl -> fl) (output_dim : Z)
    (p : partitions (list (list (list fl))) (list (list (list fl))))
  : partitions (list (list (list fl))) (list (list (list fl))) :=
  {| x_train := assign_channels f output_dim (x_train p);
     y_train := assign_channels f output_dim (y_train p);
     x_val := assign_channels f output_dim (x_val p);
     y_val := assign_channels f output_dim (y_val p);
     x_test := assign_channels f output_dim (x_test p);
     y_test := assign_channels f output_dim (y_test p) |}.

(** Lines 309-324 of [get_data] on an object whose [data] is still
    [None]: the arrays are loaded or generated, then the output dimension
    is derived and the scaler is fitted.  [feature_dim] is
    [x_train.shape[-1]].  The cache folder is returned as the call leaves
    it, also when [_get_scalar] raises. *)
Definition get_data_scaler (str_float : float -> string)
    (self : TrafficSpeedDataset) (fs : cache_dir (list (list fl)))
    (df : list (list (list fl))) (feature_dim : Z)
  : cache_dir (list (list fl))
    * result (Scaler * partitions (list (list (list fl))) (list (list (list fl)))) :=
  match get_data_arrays str_float self fs df with
  | Raise e => (fs, Raise e)
  | Ok (p, fs') =>
      let od := derive_output_dim (output_dim self) feature_dim
                  (add_time_in_day self) (add_day_in_week self) in
      (fs', do scaler <- get_scalar (scaler_type self) od
                           (x_train p) (y_train p) (x_val p) (y_val p)
                           (x_test p) (y_test p);
            Ok (scaler, p))
  end.

(** The configuration [self] with another value under the key 'scaler'. *)
Definition with_scaler_type (scaler : string) (self : TrafficSpeedDataset)
  : TrafficSpeedDataset :=
  {| dataset := dataset self; points_per_hour := points_per_hour self;
     input_window := input_window self; output_window := output_window self;
     output_dim := output_dim self;
     batch_size := batch_size self; num_workers := num_workers self;
     add_time_in_day := add_time_in_day self;
     add_day_in_week := add_day_in_week self;
     pad_with_last_sample := pad_with_last_sample self;
     weight_col := weight_col self; data_col := data_col self;
     calculate_weight := calculate_weight self;
     adj_epsilon := adj_epsilon self;
     train_rate := train_rate self; eval_rate := eval_rate self;
     scaler_type := scaler; cache_dataset := cache_dataset self |}.

(** *** Auxiliary definitions of the further properties *)

Section RelWrites.
Context {K : Type} `{Countable K}.
Variable values_id : K -> K.

(** The binary32 numbers that the rows of [distance_df] assign to the cell
    (i, j), in row order. *)
Definition cell_writes (geo_to_ind : gmap K nat) (i j : nat)
    (distance_df : list (K * K * float)) : list f32 :=
  omap (fun row : K * K * float =>
          let '(o, d, w) := row in
          if bool_decide (geo_to_ind !! values_id o = Some i /\
                          geo_to_ind !! values_id d = Some j)
          then Some (f32_of_f64 w) else None)
       distance_df.
End RelWrites.

(** A matrix of [n] rows of [n] entries. *)
Definition square (n : nat) (m : list (list f32)) : Prop :=
  length m = n /\ Forall (fun row => length row = n) m.

(** No entry of the matrix is NaN. *)
Definition nan_free (m : list (list f32)) : Prop :=
  Forall (Forall (fun v => v <> S754_nan)) m.

(** The columns of a relation table with one property column. *)
Definition rel_columns : list string :=
  ["rel_id"; "type"; "origin_id"; "destination_id"; "cost"]%string.

(** Two rows from entity 1 to entity 2, the second without a weight. *)
Definition rel_rows_example : list (rel_record Z) :=
  [ {| origin_id := 1; destination_id := 2; rel_value := fun _ => 3%float |};
    {| origin_id := 1; destination_id := 2; rel_value := fun _ => nan |} ].

(** The entry [a[i][j]] of a nested list, when there is one. *)
Definition at2 {A : Type} (a : list (list A)) (i j : nat) : option A :=
  match a !! i with
  | Some row => row !! j
  | None => None
  end.

(** Six feature rows of one feature each, numbered in table order. *)
Definition six_rows : list (list fl) :=
  [[Fin 0]; [Fin 1]; [Fin 2]; [Fin 3]; [Fin 4]; [Fin 5]].

(** The weekday (Monday is 0) of a time stamp that is not NaT. *)
Definition weekday_of (ns : Z) : Z := (ns / day_ns + 3) mod 7.

(** The channels that [_add_time_meta_information] appends at a time stamp
    that is not NaT: the time of day when enabled, then the one-hot day of
    the week when enabled. *)
Definition time_channels (add_time_in_day add_day_in_week : bool) (ns : Z)
  : list fl :=
  (if add_time_in_day then [Fin (IZR (ns mod day_ns) / IZR day_ns)] else [])
    ++ (if add_day_in_week then one_hot7 [weekday_of ns] else []).

(** 2021-03-03 (a Wednesday) at 06:00, in nanoseconds since 1970. *)
Definition wednesday_6am : Z := (18689 * 86400 + 6 * 3600) * 10 ^ 9.

(** A feature vector as [_add_time_meta_information] builds it from the
    raw features and the time stamp of its time step. *)
Definition augment (add_time_in_day add_day_in_week : bool) (p : list fl * Z)
  : list fl :=
  p.1 ++ time_channels add_time_in_day add_day_in_week p.2.

(** [cfg_speed] with caching switched off. *)
Definition cfg_nocache : TrafficSpeedDataset :=
  {| dataset := "METR_LA"; points_per_hour := 12;
     input_window := 2; output_window := 1; output_dim := 0;
     batch_size := 64; num_workers := 1;
     add_time_in_day := false; add_day_in_week := false;
     pad_with_last_sample := true;
     weight_col := ""; data_col := PStr "traffic_speed";
     calculate_weight := false; adj_epsilon := 0.1;
     train_rate := 0.7; eval_rate := 0.1;
     scaler_type := "none"; cache_dataset := false |}.

(** Lines 334-336 of [get_data]: the (input, target) pairs of the three
    parts. *)
Definition paired_data {X Y : Type} (p : partitions X Y)
  : list (X * Y) * list (X * Y) * list (X * Y) :=
  (zip (x_train p) (y_train p), zip (x_val p) (y_val p), zip (x_test p) (y_test p)).

(** [cfg_speed] with a scaler type that is not one of the five. *)
Definition cfg_robust : TrafficSpeedDataset := with_scaler_type "robust" cfg_speed.

(** Six time steps of one entity with one feature. *)
Definition six_steps : list (list (list fl)) := map (fun row => [row]) six_rows.

(** An array whose single entry is NaN. *)
Definition arr_nan : array4 := [[[[NaN]]]].


(* ===================================================================== *)
(** * Part II: properties                                                 *)
(* ===================================================================== *)

(** ** The error monad *)

Lemma mapM_ok {A B : Type} (f : A -> result B) (g : A -> B) (l : list A) :
  (forall a, a ∈ l -> f a = Ok (g a)) -> mapM f l = Ok (map g l).
Proof.
  induction l as [|a l IH]; intros Hf; [reflexivity|].
  simpl. rewrite (Hf a) by left. simpl.
  rewrite IH; [reflexivity|].
  intros b Hb. apply Hf. by right.
Qed.

(** ** Integer sequences *)

Lemma seqZ_succ (a : Z) (k : nat) :
  seqZ a (Z.of_nat (S k)) = a :: seqZ (a + 1) (Z.of_nat k).
Proof.
  rewrite seqZ_cons by lia. do 2 f_equal; lia.
Qed.

Lemma np_sort_seqZ (a : Z) (k : nat) :
  np_sort (seqZ a (Z.of_nat k)) = seqZ a (Z.of_nat k).
Proof.
  revert a. induction k as [|k IH]; intros a; [reflexivity|].
  rewrite seqZ_succ. unfold np_sort in *. simpl. rewrite IH.
  destruct k as [|k]; [reflexivity|].
  rewrite seqZ_succ. simpl.
  destruct (Z.leb_spec a (a + 1)); [reflexivity|lia].
Qed.

Lemma fold_min_seqZ (a b : Z) (k : nat) :
  a <= b ->
  fold_left (fun acc v => if v <? acc then v else acc) (seqZ b (Z.of_nat k)) a = a.
Proof.
  revert b. induction k as [|k IH]; intros b Hab; [reflexivity|].
  rewrite seqZ_succ. simpl.
  destruct (Z.ltb_spec b a); [lia|]. apply IH. lia.
Qed.

Lemma fold_max_seqZ (a : Z) (k : nat) :
  fold_left (fun acc v => if acc <? v then v else acc)
            (seqZ (a + 1) (Z.of_nat k)) a = a + Z.of_nat k.
Proof.
  revert a. induction k as [|k IH]; intros a; [simpl; lia|].
  rewrite seqZ_succ. simpl.
  destruct (Z.ltb_spec a (a + 1)); [|lia].
  rewrite IH. lia.
Qed.

Lemma py_min_seqZ (a : Z) (k : nat) :
  py_min (seqZ a (Z.of_nat (S k))) = Ok a.
Proof.
  rewrite seqZ_succ. simpl. f_equal. apply fold_min_seqZ. lia.
Qed.

Lemma py_max_seqZ (a : Z) (k : nat) :
  py_max (seqZ a (Z.of_nat (S k))) = Ok (a + Z.of_nat k).
Proof.
  rewrite seqZ_succ. simpl. f_equal. apply fold_max_seqZ.
Qed.

(** ** Indexing a numpy array with a run of consecutive indices *)

Lemma np_index_nonneg {A : Type} (df : list A) (i : nat) (v : A) :
  df !! i = Some v -> np_index df (Z.of_nat i) = Ok v.
Proof.
  intros Hi. pose proof (lookup_lt_Some _ _ _ Hi) as Hlt.
  unfold np_index.
  destruct (Z.ltb_spec (Z.of_nat i) (- Z.of_nat (length df))); [lia|].
  destruct (Z.leb_spec (Z.of_nat (length df)) (Z.of_nat i)); [lia|]. simpl.
  destruct (Z.ltb_spec (Z.of_nat i) 0); [lia|].
  by rewrite Nat2Z.id, Hi.
Qed.

Lemma np_take_run {A : Type} (df : list A) (s k : nat) :
  (s + k <= length df)%nat ->
  np_take df (seqZ (Z.of_nat s) (Z.of_nat k)) = Ok (take k (drop s df)).
Proof.
  revert s. induction k as [|k IH]; intros s Hs.
  - by rewrite take_0.
  - rewrite seqZ_succ. unfold np_take in *. simpl.
    destruct (lookup_lt_is_Some_2 df s) as [v Hv]; [lia|].
    rewrite (np_index_nonneg _ _ _ Hv). simpl.
    replace (Z.of_nat s + 1)%Z with (Z.of_nat (S s)) by lia.
    rewrite IH by lia. simpl.
    rewrite (drop_S _ _ _ Hv). by rewrite firstn_cons.
Qed.

Lemma map_add_seqZ (m m' n : Z) : map (Z.add m) (seqZ m' n) = seqZ (m + m') n.
Proof. exact (fmap_add_seqZ m m' n). Qed.

Lemma map_seqZ {B : Type} (g : Z -> B) (m n : Z) :
  map g (seqZ m n) = map (fun i => g (Z.of_nat i + m)) (seq 0 (Z.to_nat n)).
Proof.
  unfold seqZ. change (map g (?f <$> ?l)) with (map g (map f l)).
  by rewrite map_map.
Qed.

(** ** C4: the window generator *)

Section WindowProps.
Context {A : Type}.

(** The loop body of [_generate_input_data] at a time [t] whose two
    windows lie inside the tensor. *)
Lemma window_at (df : list A) (lin lout : nat) (t : Z) :
  (1 <= lin)%nat ->
  Z.of_nat lin - 1 <= t ->
  t + Z.of_nat lout < Z.of_nat (length df) ->
  (do x_t <- np_take df (map (Z.add t) (seqZ (- Z.of_nat lin + 1) (Z.of_nat lin)));
   do y_t <- np_take df (map (Z.add t) (seqZ 1 (Z.of_nat lout)));
   Ok (x_t, y_t))
  = Ok (take lin (drop (Z.to_nat (t - (Z.of_nat lin - 1))) df),
        take lout (drop (Z.to_nat (t - (Z.of_nat lin - 1)) + lin) df)).
Proof.
  intros Hlin Ht1 Ht2.
  rewrite !map_add_seqZ.
  replace (t + (- Z.of_nat lin + 1)) with (Z.of_nat (Z.to_nat (t - (Z.of_nat lin - 1)))) by lia.
  rewrite np_take_run by lia. simpl.
  replace (t + 1) with (Z.of_nat (Z.to_nat (t - (Z.of_nat lin - 1)) + lin)) by lia.
  rewrite np_take_run by lia. reflexivity.
Qed.

(** C4 (as amended): on a tensor of [T] time steps, with [L_in >= 1],
    [L_out >= 1] and [L_in + L_out <= T], [_generate_input_data] returns
    exactly [T - L_in - L_out + 1] samples, in chronological order: the
    input of sample [k] is the run of time steps [k .. k + L_in - 1] and
    its target the run [k + L_in .. k + L_in + L_out - 1], which starts
    right after the input ends. *)
Theorem generate_input_data_windows (df : list A) (L_in L_out : Z) :
  1 <= L_in -> 1 <= L_out -> L_in + L_out <= Z.of_nat (length df) ->
  let count := Z.to_nat (Z.of_nat (length df) - L_in - L_out + 1) in
  generate_input_data L_in L_out df =
    Ok (map (fun k => take (Z.to_nat L_in) (drop k df)) (seq 0 count),
        map (fun k => take (Z.to_nat L_out) (drop (k + Z.to_nat L_in) df))
            (seq 0 count)).
Proof.
  intros Hin Hout HT count.
  set (lin := Z.to_nat L_in). set (lout := Z.to_nat L_out).
  assert (HLin : L_in = Z.of_nat lin) by (unfold lin; lia).
  assert (HLout : L_out = Z.of_nat lout) by (unfold lout; lia).
  unfold generate_input_data, arange.
  replace (1 - (- L_in + 1)) with (Z.of_nat (S (lin - 1))) by lia.
  replace (L_out + 1 - 1) with (Z.of_nat (S (lout - 1))) by lia.
  rewrite !np_sort_seqZ, py_min_seqZ, py_max_seqZ. cbn [bind].
  replace (Z.abs (- L_in + 1)) with (L_in - 1) by lia.
  replace (Z.abs (Z.of_nat (length df) - Z.abs (1 + Z.of_nat (lout - 1))))
    with (Z.of_nat (length df) - L_out) by lia.
  replace (Z.of_nat (S (lin - 1))) with (Z.of_nat lin) by lia.
  replace (Z.of_nat (S (lout - 1))) with (Z.of_nat lout) by lia.
  rewrite (mapM_ok _ (fun t =>
    (take lin (drop (Z.to_nat (t - (Z.of_nat lin - 1))) df),
     take lout (drop (Z.to_nat (t - (Z.of_nat lin - 1)) + lin) df)))).
  2:{ intros t Ht. apply elem_of_seqZ in Ht.
      rewrite HLin. apply window_at; lia. }
  cbn [bind]. rewrite !map_map. cbn [fst snd].
  rewrite !map_seqZ.
  replace (Z.to_nat (Z.of_nat (length df) - L_out - (L_in - 1))) with count
    by (unfold count; lia).
  assert (Hc : (1 <= count)%nat) by (unfold count; lia).
  assert (Hidx : forall i : nat,
             Z.to_nat (Z.of_nat i + (L_in - 1) - (Z.of_nat lin - 1)) = i) by lia.
  rewrite (map_ext
    (fun i : nat =>
       take lin (drop (Z.to_nat (Z.of_nat i + (L_in - 1) - (Z.of_nat lin - 1))) df))
    (fun k => take lin (drop k df)))
    by (intros i; cbn beta; by rewrite Hidx).
  rewrite (map_ext
    (fun i : nat =>
       take lout
         (drop (Z.to_nat (Z.of_nat i + (L_in - 1) - (Z.of_nat lin - 1)) + lin) df))
    (fun k => take lout (drop (k + lin) df)))
    by (intros i; cbn beta; by rewrite Hidx).
  destruct count as [|c]; [lia|]. reflexivity.
Qed.
End WindowProps.

(** Instance of [generate_input_data_windows]: a 10-step series whose time
    steps are named 0..9, with [L_in = 3] and [L_out = 2], gives 6 samples;
    sample 0 has input steps [0;1;2] and target steps [3;4]. *)
Lemma generate_input_data_windows_witness :
  generate_input_data 3 2 [0; 1; 2; 3; 4; 5; 6; 7; 8; 9] =
    Ok ([[0; 1; 2]; [1; 2; 3]; [2; 3; 4]; [3; 4; 5]; [4; 5; 6]; [5; 6; 7]],
        [[3; 4]; [4; 5]; [5; 6]; [6; 7]; [7; 8]; [8; 9]]).
Proof.
  apply (generate_input_data_windows [0; 1; 2; 3; 4; 5; 6; 7; 8; 9] 3 2);
    simpl; lia.
Defined.

(** C4 as stated fails at its boundary [L_in + L_out = T + 1]: there the
    loop collects no sample and [np.stack] of the empty list raises, so no
    (empty) sample set is returned. *)
Lemma generate_input_data_boundary_raises :
  1 + 1 <= Z.of_nat (length [0]) + 1 /\
  generate_input_data 1 1 [0] = Raise ValueError.
Proof. split; [simpl; lia | reflexivity]. Qed.

(** ** C5 and C2: the split *)

Lemma py_slice_to {A : Type} (k : Z) (l : list A) :
  0 <= k -> py_slice None (Some k) l = take (Z.to_nat k) l.
Proof.
  intros Hk. unfold py_slice, slice_bound.
  destruct (Z.ltb_spec k 0); [lia|].
  rewrite drop_0, Z.sub_0_r.
  destruct (Z.le_ge_cases k (Z.of_nat (length l))).
  - by rewrite Z.min_r, Z.max_r by lia.
  - rewrite Z.min_l, Z.max_r, Nat2Z.id by lia.
    rewrite !take_ge; [done| lia | lia].
Qed.

Lemma py_slice_between {A : Type} (a b : Z) (l : list A) :
  0 <= a <= b -> b <= Z.of_nat (length l) ->
  py_slice (Some a) (Some b) l = take (Z.to_nat (b - a)) (drop (Z.to_nat a) l).
Proof.
  intros Ha Hb. unfold py_slice, slice_bound.
  destruct (Z.ltb_spec a 0); [lia|]. destruct (Z.ltb_spec b 0); [lia|].
  by rewrite !Z.min_r, !Z.max_r by lia.
Qed.

Lemma py_slice_last {A : Type} (k : Z) (l : list A) :
  1 <= k <= Z.of_nat (length l) ->
  py_slice (Some (- k)) None l = drop (Z.to_nat (Z.of_nat (length l) - k)) l.
Proof.
  intros Hk. unfold py_slice, slice_bound.
  destruct (Z.ltb_spec (- k) 0); [|lia].
  rewrite Z.min_r, Z.max_r by lia.
  replace (- k + Z.of_nat (length l)) with (Z.of_nat (length l) - k) by lia.
  apply take_ge. rewrite length_drop. lia.
Qed.

(** [l[-0:]] is the whole sequence. *)
Lemma py_slice_minus_zero {A : Type} (l : list A) :
  py_slice (Some (- 0)) None l = l.
Proof.
  unfold py_slice, slice_bound. simpl.
  rewrite Z.min_r, Z.max_l by lia. simpl. rewrite drop_0.
  apply take_ge. lia.
Qed.

(** Three slices [l[:a]], [l[a:a+b]] and [l[-c:]] with [a + b + c = len(l)]
    and [c >= 1] are consecutive runs that make up [l]. *)
Lemma three_slices {A : Type} (l : list A) (a b c : Z) :
  0 <= a -> 1 <= c -> a + c <= Z.of_nat (length l) ->
  b = Z.of_nat (length l) - c - a ->
  py_slice None (Some a) l ++ py_slice (Some a) (Some (a + b)) l
    ++ py_slice (Some (- c)) None l = l /\
  Z.of_nat (length (py_slice None (Some a) l)) = a /\
  Z.of_nat (length (py_slice (Some a) (Some (a + b)) l)) = b /\
  Z.of_nat (length (py_slice (Some (- c)) None l)) = c.
Proof.
  intros Ha Hc Hfit Hb.
  rewrite py_slice_to, py_slice_between, py_slice_last by lia.
  replace (Z.to_nat (a + b - a)) with (Z.to_nat b) by lia.
  replace (Z.to_nat (Z.of_nat (length l) - c))
    with (Z.to_nat a + Z.to_nat b)%nat by lia.
  rewrite <- (drop_drop l (Z.to_nat b) (Z.to_nat a)).
  rewrite !take_drop. repeat split.
  - rewrite length_take. lia.
  - rewrite length_take, length_drop. lia.
  - rewrite !length_drop. lia.
Qed.

Section SplitProps.
Context {X Y : Type}.

(** The validation count is what is left of the samples. *)
Lemma split_counts_val (tr er : float) (n num_train num_val num_test : Z) :
  split_counts tr er n = Ok (num_train, num_val, num_test) ->
  py_round (int_to_float n * tr)%float = Ok num_train /\
  py_round (int_to_float n * (1 - tr - er))%float = Ok num_test /\
  num_val = n - num_train - num_test.
Proof.
  unfold split_counts.
  destruct (py_round (int_to_float n * (1 - tr - er))%float) as [a|]; [|done].
  destruct (py_round (int_to_float n * tr)%float) as [b|]; [|done].
  simpl. intros [= <- <- <-]. repeat split. lia.
Qed.

(** C5 (as amended): the counts are [num_train = round(n * train_rate)],
    [num_test = round(n * (1 - train_rate - eval_rate))] and
    [num_val = n - num_train - num_test]; whenever these counts fit the
    sample set ([num_train >= 0], [num_test >= 1] and
    [num_train + num_test <= n], so that the remainder is not negative),
    the three parts are consecutive runs of the samples in their order -
    train first, then validation, then test - of exactly these sizes. *)
Theorem train_val_test_split_sizes (tr er : float)
    (x : list X) (y : list Y) (num_train num_val num_test : Z) :
  length y = length x ->
  split_counts tr er (Z.of_nat (length x)) = Ok (num_train, num_val, num_test) ->
  0 <= num_train -> 1 <= num_test ->
  num_train + num_test <= Z.of_nat (length x) ->
  py_round (int_to_float (Z.of_nat (length x)) * tr)%float = Ok num_train /\
  py_round (int_to_float (Z.of_nat (length x)) * (1 - tr - er))%float = Ok num_test /\
  num_val = Z.of_nat (length x) - num_train - num_test /\
  exists p, train_val_test_split tr er x y = Ok p /\
    x_train p ++ x_val p ++ x_test p = x /\
    y_train p ++ y_val p ++ y_test p = y /\
    Z.of_nat (length (x_train p)) = num_train /\
    Z.of_nat (length (x_val p)) = num_val /\
    Z.of_nat (length (x_test p)) = num_test /\
    Z.of_nat (length (y_train p)) = num_train /\
    Z.of_nat (length (y_val p)) = num_val /\
    Z.of_nat (length (y_test p)) = num_test.
Proof.
  intros Hxy Hc Htr Hte Hfit.
  pose proof (split_counts_val _ _ _ _ _ _ Hc) as (Hrt & Hre & Hval).
  split; [exact Hrt|]. split; [exact Hre|]. split; [exact Hval|].
  unfold train_val_test_split. rewrite Hc. cbn [bind].
  eexists; split; [reflexivity|].
  cbn [x_train x_val x_test y_train y_val y_test].
  destruct (three_slices x num_train num_val num_test) as (? & ? & ? & ?);
    [lia..|].
  destruct (three_slices y num_train num_val num_test) as (? & ? & ? & ?);
    [lia..|].
  done.
Qed.
End SplitProps.

Lemma py_round_finite (x : float) :
  float_finite x = true -> exists z, py_round x = Ok z.
Proof.
  unfold float_finite, py_round.
  destruct (Prim2SF x); intros Hx; try discriminate Hx; eauto.
Qed.

Section SplitErrors.
Context {X Y : Type}.

(** X1 (beside C5): whenever the test count rounds to zero, line 227 takes
    [x[-0:]], which is every sample: the test part is the whole sample set
    and not the empty tail. *)
Theorem train_val_test_split_zero_test (tr er : float)
    (x : list X) (y : list Y) (num_train num_val : Z) :
  split_counts tr er (Z.of_nat (length x)) = Ok (num_train, num_val, 0) ->
  exists p, train_val_test_split tr er x y = Ok p /\
            x_test p = x /\ y_test p = y.
Proof.
  intros Hc. unfold train_val_test_split. rewrite Hc. cbn [bind].
  eexists; split; [reflexivity|]. cbn [x_test y_test].
  by rewrite !py_slice_minus_zero.
Qed.

(** C2 (as amended): the split checks nothing about the ratios.  Whenever
    the two products it rounds are finite floats - whatever the sum of
    the ratios - it raises nothing and returns the six slices cut at the
    rounded counts. *)
Theorem train_val_test_split_total (tr er : float) (x : list X) (y : list Y) :
  let n := Z.of_nat (length x) in
  float_finite (int_to_float n * (1 - tr - er))%float = true ->
  float_finite (int_to_float n * tr)%float = true ->
  exists num_train num_test,
    py_round (int_to_float n * tr)%float = Ok num_train /\
    py_round (int_to_float n * (1 - tr - er))%float = Ok num_test /\
    train_val_test_split tr er x y =
      Ok {| x_train := py_slice None (Some num_train) x;
            y_train := py_slice None (Some num_train) y;
            x_val := py_slice (Some num_train) (Some (n - num_test)) x;
            y_val := py_slice (Some num_train) (Some (n - num_test)) y;
            x_test := py_slice (Some (- num_test)) None x;
            y_test := py_slice (Some (- num_test)) None y |}.
Proof.
  intros n Hte Htr.
  destruct (py_round_finite _ Hte) as [num_test Hnte].
  destruct (py_round_finite _ Htr) as [num_train Hntr].
  exists num_train, num_test. repeat split; [done..|].
  unfold train_val_test_split, split_counts. fold n.
  rewrite Hnte, Hntr. cbn [bind].
  by replace (num_train + (n - num_test - num_train)) with (n - num_test) by lia.
Qed.
End SplitErrors.

(** Instance of [train_val_test_split_zero_test]: ten samples with ratios
    0.7 and 0.3.  The test count is 0 and the test part holds all ten
    samples. *)
Lemma train_val_test_split_zero_test_witness :
  split_counts 0.7 0.3 10 = Ok (7, 3, 0) /\
  exists p, train_val_test_split 0.7 0.3 ten_samples ten_samples = Ok p /\
            x_test p = ten_samples /\ y_test p = ten_samples.
Proof.
  split; [vm_compute; reflexivity|].
  apply (train_val_test_split_zero_test 0.7 0.3 ten_samples ten_samples 7 3).
  vm_compute. reflexivity.
Defined.

(** Instance of [train_val_test_split_total] with ratios whose sum exceeds
    one. *)
Lemma train_val_test_split_total_witness :
  (1 <? 0.9 + 0.3)%float = true /\
  exists num_train num_test,
    py_round (int_to_float 10 * 0.9)%float = Ok num_train /\
    py_round (int_to_float 10 * (1 - 0.9 - 0.3))%float = Ok num_test /\
    train_val_test_split 0.9 0.3 ten_samples ten_samples =
      Ok {| x_train := py_slice None (Some num_train) ten_samples;
            y_train := py_slice None (Some num_train) ten_samples;
            x_val := py_slice (Some num_train) (Some (10 - num_test)) ten_samples;
            y_val := py_slice (Some num_train) (Some (10 - num_test)) ten_samples;
            x_test := py_slice (Some (- num_test)) None ten_samples;
            y_test := py_slice (Some (- num_test)) None ten_samples |}.
Proof.
  split; [vm_compute; reflexivity|].
  apply (train_val_test_split_total 0.9 0.3 ten_samples ten_samples);
    vm_compute; reflexivity.
Defined.

(** C2 as stated fails: with [train_rate + eval_rate = 1.2 > 1] the test
    count is -2, and the split returns three parts instead of raising. *)
Lemma train_val_test_split_accepts_excess_ratios :
  (1 <? 0.9 + 0.3)%float = true /\
  split_counts 0.9 0.3 10 = Ok (9, 3, -2) /\
  train_val_test_split 0.9 0.3 ten_samples ten_samples =
    Ok {| x_train := [0; 1; 2; 3; 4; 5; 6; 7; 8];
          y_train := [0; 1; 2; 3; 4; 5; 6; 7; 8];
          x_val := [9];
          y_val := [9];
          x_test := [2; 3; 4; 5; 6; 7; 8; 9];
          y_test := [2; 3; 4; 5; 6; 7; 8; 9] |}.
Proof. repeat split; vm_compute; reflexivity. Qed.

(** Instance of [train_val_test_split_sizes]: 100 samples with ratios 0.7
    and 0.1 give train = 70, test = 20 and validation = 100 - 70 - 20 = 10. *)
Lemma train_val_test_split_sizes_witness :
  split_counts 0.7 0.1 100 = Ok (70, 10, 20) /\
  exists p, train_val_test_split 0.7 0.1 hundred_samples hundred_samples = Ok p /\
    x_train p ++ x_val p ++ x_test p = hundred_samples /\
    Z.of_nat (length (x_train p)) = 70 /\
    Z.of_nat (length (x_val p)) = 10 /\
    Z.of_nat (length (x_test p)) = 20.
Proof.
  split; [vm_compute; reflexivity|].
  destruct (train_val_test_split_sizes 0.7 0.1 hundred_samples hundred_samples
              70 10 20) as (_ & _ & _ & p & Hp & Hx & _ & H1 & H2 & H3 & _);
    [reflexivity | vm_compute; reflexivity | lia | lia
     | vm_compute; discriminate |].
  exists p. repeat split; assumption.
Defined.

(** C5 as stated fails when the two rounded counts exceed the sample
    count: with 5 samples, train_rate = 0.7 and eval_rate = 0 both products
    (3.5 and 1.5) round up, the validation count is -1, and the train part
    [x[:4]] and the test part [x[-2:]] share sample 3. *)
Lemma train_val_test_split_negative_val :
  split_counts 0.7 0 5 = Ok (4, -1, 2) /\
  train_val_test_split 0.7 0 [0; 1; 2; 3; 4] [0; 1; 2; 3; 4] =
    Ok {| x_train := [0; 1; 2; 3]; y_train := [0; 1; 2; 3];
          x_val := []; y_val := [];
          x_test := [3; 4]; y_test := [3; 4] |}.
Proof. split; vm_compute; reflexivity. Qed.

(** ** C3: the cache fingerprint *)

Section CacheProps.
Variable str_float : float -> string.

Lemma cache_file_name_agree (c1 c2 : TrafficSpeedDataset) :
  same_fingerprint_fields c1 c2 ->
  cache_file_name str_float c1 = cache_file_name str_float c2.
Proof.
  intros (Hd & Hi & Ho & Ht & He & Hs & Hb & Hti & Hdw & Hp).
  unfold cache_file_name, parameters_str.
  by rewrite Hd, Hi, Ho, Ht, He, Hs, Hb, Hti, Hdw, Hp.
Qed.

Context {A : Type}.

(** A generation with caching enabled leaves its arrays under the
    fingerprinted name. *)
Lemma generate_writes_cache (c : TrafficSpeedDataset)
    (fs fs' : cache_dir A) (df : list A) p :
  cache_dataset c = true ->
  generate_train_val_test str_float c fs df = Ok (p, fs') ->
  fs' !! cache_file_name str_float c = Some p.
Proof.
  intros Hc. unfold generate_train_val_test. rewrite Hc.
  destruct (generate_input_data _ _ df) as [xy|]; [|done]. cbn [bind].
  destruct (train_val_test_split _ _ _ _) as [q|]; [|done]. cbn [bind].
  intros [= <- <-]. apply lookup_insert_eq.
Qed.

(** A run that finds a file under its fingerprinted name returns the
    arrays stored there and never looks at its own tensor. *)
Lemma get_data_arrays_hit (c : TrafficSpeedDataset)
    (fs : cache_dir A) (df : list A) p :
  cache_dataset c = true ->
  fs !! cache_file_name str_float c = Some p ->
  get_data_arrays str_float c fs df = Ok (p, fs).
Proof.
  intros Hc Hp. unfold get_data_arrays, load_cache_train_val_test.
  rewrite Hc, Hp. cbn [andb].
  rewrite bool_decide_eq_true_2 by eauto. reflexivity.
Qed.

(** C3 (as amended): the fingerprint is a function of exactly ten
    attributes (dataset, input_window, output_window, train_rate,
    eval_rate, scaler, batch_size, add_time_in_day, add_day_in_week,
    pad_with_last_sample).  Two configurations that agree on them have
    the same cache file name whatever their other attributes (data_col,
    output_dim, ...), and with caching enabled a run under the second
    returns the arrays that a run under the first generated. *)
Theorem cache_fingerprint_ten_fields (c1 c2 : TrafficSpeedDataset)
    (fs fs' : cache_dir A) (df1 df2 : list A) p :
  same_fingerprint_fields c1 c2 ->
  cache_file_name str_float c1 = cache_file_name str_float c2 /\
  (cache_dataset c1 = true -> cache_dataset c2 = true ->
   generate_train_val_test str_float c1 fs df1 = Ok (p, fs') ->
   get_data_arrays str_float c2 fs' df2 = Ok (p, fs')).
Proof.
  intros Hsame. pose proof (cache_file_name_agree _ _ Hsame) as Hname.
  split; [exact Hname|]. intros H1 H2 Hgen.
  apply get_data_arrays_hit; [exact H2|].
  rewrite <- Hname. by eapply generate_writes_cache.
Qed.
End CacheProps.

Lemma cfg_speed_flow_same_fields : same_fingerprint_fields cfg_speed cfg_flow.
Proof. repeat split. Qed.

Lemma generate_speed (str_float : float -> string) (fs : cache_dir Z) :
  generate_train_val_test str_float cfg_speed fs speed_series
  = Ok (speed_parts, <[cache_file_name str_float cfg_speed := speed_parts]> fs).
Proof.
  unfold generate_train_val_test.
  assert (Hw : generate_input_data (input_window cfg_speed)
                 (output_window cfg_speed) speed_series
               = Ok ([[60; 61]; [61; 62]; [62; 63]; [63; 64]],
                     [[62]; [63]; [64]; [65]]))
    by (vm_compute; reflexivity).
  rewrite Hw. cbn [bind fst snd].
  assert (Hs : train_val_test_split (train_rate cfg_speed) (eval_rate cfg_speed)
                 [[60; 61]; [61; 62]; [62; 63]; [63; 64]]
                 [[62]; [63]; [64]; [65]]
               = Ok speed_parts)
    by (vm_compute; reflexivity).
  rewrite Hs. reflexivity.
Qed.

(** Instance of [cache_fingerprint_ten_fields] at the two configurations. *)
Lemma cache_fingerprint_ten_fields_witness :
  cache_file_name str_float_example cfg_speed
  = "./trafficdl/cache/dataset_cache/point_based_METR_LA_2_1_0.7_0.1_none_64_False_False_True.npz"%string
  /\ cache_file_name str_float_example cfg_flow
     = cache_file_name str_float_example cfg_speed.
Proof.
  split; [vm_compute; reflexivity|]. symmetry.
  exact (proj1 (cache_fingerprint_ten_fields str_float_example
                  cfg_speed cfg_flow (∅ : cache_dir Z) ∅ [] []
                  (Partitions [] [] [] [] [] [])
                  cfg_speed_flow_same_fields)).
Defined.

(** C3 as stated fails: the two configurations differ in [data_col], so
    they load different columns and hence different tensors, yet their
    fingerprints are equal for any rendering of the floats; a run under
    [cfg_flow] after a run under [cfg_speed] is served the speed windows. *)
Lemma cache_fingerprint_ignores_data_col :
  data_col cfg_speed <> data_col cfg_flow /\
  (load_dyna_columns cfg_speed dyna_columns ∅).2
    = Ok ["time"; "entity_id"; "traffic_speed"]%string /\
  (load_dyna_columns cfg_flow dyna_columns ∅).2
    = Ok ["time"; "entity_id"; "traffic_flow"]%string /\
  forall str_float : float -> string,
    cache_file_name str_float cfg_speed = cache_file_name str_float cfg_flow /\
    exists fs' : cache_dir Z,
      generate_train_val_test str_float cfg_speed ∅ speed_series
        = Ok (speed_parts, fs') /\
      get_data_arrays str_float cfg_flow fs' flow_series = Ok (speed_parts, fs').
Proof.
  split; [discriminate|].
  split; [vm_compute; reflexivity|].
  split; [vm_compute; reflexivity|].
  intros str_float.
  pose proof (cache_file_name_agree str_float _ _ cfg_speed_flow_same_fields) as Hn.
  split; [exact Hn|].
  eexists; split; [apply generate_speed|].
  apply get_data_arrays_hit; [reflexivity|].
  rewrite <- Hn. apply lookup_insert_eq.
Qed.

(** ** C10: the column selection mutates the configured list *)

(** The heap after one selection through a reference [l]. *)
Lemma load_dyna_columns_list (self : TrafficSpeedDataset)
    (file_columns : list string) (h : heap) (l : loc) (cols : list string) :
  data_col self = PList l ->
  h !! l = Some cols ->
  (load_dyna_columns self file_columns h).1
  = <[l := "time"%string :: "entity_id"%string :: cols]> h.
Proof.
  intros Hd Hl. unfold load_dyna_columns. rewrite Hd. cbn [fst].
  apply map_eq. intros k. destruct (decide (k = l)) as [->|Hk].
  - rewrite lookup_insert_eq, !lookup_alter_eq, Hl. reflexivity.
  - by rewrite lookup_insert_ne, !lookup_alter_ne by done.
Qed.

(** C10: when [data_col] is configured as a list, [_load_dyna] inserts
    'time' and 'entity_id' at the front of that very list object: after
    one call the configured list is two names longer, after a second call
    on the same object four names longer, and no other list object of the
    heap is touched.  The lines assign no attribute of the object, whose
    [data_col] still holds the same reference. *)
Theorem load_dyna_mutates_data_col (self : TrafficSpeedDataset)
    (file_columns : list string) (h : heap) (l : loc) (cols : list string) :
  data_col self = PList l ->
  h !! l = Some cols ->
  let h1 := (load_dyna_columns self file_columns h).1 in
  let h2 := (load_dyna_columns self file_columns h1).1 in
  h1 !! l = Some ("time" :: "entity_id" :: cols)%string /\
  h2 !! l = Some ("time" :: "entity_id" :: "time" :: "entity_id" :: cols)%string /\
  (forall l', l' <> l -> h1 !! l' = h !! l' /\ h2 !! l' = h !! l').
Proof.
  intros Hd Hl h1 h2.
  assert (H1 : h1 = <[l := "time"%string :: "entity_id"%string :: cols]> h)
    by (by apply load_dyna_columns_list).
  assert (Hl1 : h1 !! l = Some ("time" :: "entity_id" :: cols)%string)
    by (rewrite H1; apply lookup_insert_eq).
  assert (H2 : h2 = <[l := "time"%string :: "entity_id"%string
                           :: "time"%string :: "entity_id"%string :: cols]> h1)
    by (by apply load_dyna_columns_list).
  split; [exact Hl1|]. split; [rewrite H2; apply lookup_insert_eq|].
  intros l' Hne.
  assert (Hf1 : h1 !! l' = h !! l') by (rewrite H1; by apply lookup_insert_ne).
  split; [exact Hf1|].
  rewrite H2, lookup_insert_ne by done. exact Hf1.
Qed.

(** A [str] value of [data_col] leaves every list object as it was. *)
Lemma load_dyna_columns_str_frame (self : TrafficSpeedDataset)
    (file_columns : list string) (h : heap) (s : string) (l : loc) :
  data_col self = PStr s ->
  is_Some (h !! l) ->
  (load_dyna_columns self file_columns h).1 !! l = h !! l.
Proof.
  intros Hd Hl. unfold load_dyna_columns. rewrite Hd.
  assert (Hfresh : fresh (dom h) <> l).
  { intros <-. apply elem_of_dom in Hl. by apply (is_fresh (dom h)). }
  destruct s as [|c s]; [reflexivity|]. cbn [fst].
  by rewrite !lookup_alter_ne, lookup_insert_ne by done.
Qed.

(** Instance of [load_dyna_mutates_data_col]: the configured list
    ['traffic_speed'] after one and after two calls. *)
Lemma load_dyna_mutates_data_col_witness :
  let h1 := (load_dyna_columns cfg_list dyna_columns heap_list).1 in
  let h2 := (load_dyna_columns cfg_list dyna_columns h1).1 in
  h1 !! 1%positive = Some ["time"; "entity_id"; "traffic_speed"]%string /\
  h2 !! 1%positive
    = Some ["time"; "entity_id"; "time"; "entity_id"; "traffic_speed"]%string /\
  (forall l', l' <> 1%positive ->
     h1 !! l' = heap_list !! l' /\ h2 !! l' = heap_list !! l').
Proof.
  apply (load_dyna_mutates_data_col cfg_list dyna_columns heap_list
           1%positive ["traffic_speed"%string]); reflexivity.
Defined.

(** ** Arithmetic of the array entries *)

Lemma Rsign_spec (r : R) :
  (r < 0 /\ Rsign r = Lt)%R \/ (r = 0 /\ Rsign r = Eq)%R \/ (0 < r /\ Rsign r = Gt)%R.
Proof.
  unfold Rsign. destruct (total_order_T r 0) as [[Hlt|Heq]|Hgt]; auto.
Qed.

Lemma Rsign_pos (r : R) : (0 < r)%R -> Rsign r = Gt.
Proof. destruct (Rsign_spec r) as [[? ?]|[[? ?]|[? ?]]]; auto; lra. Qed.

Lemma Rsign_neg (r : R) : (r < 0)%R -> Rsign r = Lt.
Proof. destruct (Rsign_spec r) as [[? ?]|[[? ?]|[? ?]]]; auto; lra. Qed.

Lemma Rsign_zero (r : R) : (r = 0)%R -> Rsign r = Eq.
Proof. destruct (Rsign_spec r) as [[? ?]|[[? ?]|[? ?]]]; auto; lra. Qed.

(** Case analysis on the sign of every real whose sign the goal inspects. *)
Ltac sign_cases :=
  cbn;
  repeat match goal with
         | |- context [Rsign ?r] =>
             let H := fresh "Hs" in
             let E := fresh "Es" in
             destruct (Rsign_spec r) as [[H E]|[[H E]|[H E]]];
             rewrite E; cbn; try lra
         end.

Lemma fl_div_fin (x y : R) : (y <> 0)%R -> fl_div (Fin x) (Fin y) = Fin (x / y).
Proof. intros Hy. unfold fl_div. by sign_cases. Qed.

Lemma fl_ltb_fin_true (x y : R) : (x < y)%R -> fl_ltb (Fin x) (Fin y) = true.
Proof. intros Hxy. unfold fl_ltb. by destruct (Rlt_dec x y). Qed.

Lemma fl_ltb_fin_false (x y : R) : (y <= x)%R -> fl_ltb (Fin x) (Fin y) = false.
Proof. intros Hxy. unfold fl_ltb. destruct (Rlt_dec x y); [lra|done]. Qed.

Lemma fl_add_comm (a b : fl) : fl_add a b = fl_add b a.
Proof. destruct a, b; simpl; try reflexivity. f_equal. lra. Qed.

Lemma fl_add_assoc (a b c : fl) : fl_add a (fl_add b c) = fl_add (fl_add a b) c.
Proof. destruct a, b, c; simpl; try reflexivity. f_equal. lra. Qed.

Lemma fl_neg_add (a b : fl) : fl_neg (fl_add a b) = fl_add (fl_neg a) (fl_neg b).
Proof. destruct a, b; simpl; try reflexivity. f_equal. lra. Qed.

Lemma fl_neg_div (a b : fl) : fl_neg (fl_div a b) = fl_div (fl_neg a) b.
Proof.
  destruct a as [x| | |], b as [y| | |]; simpl; try reflexivity.
  - destruct (Rsign_spec y) as [[Hy Ey]|[[Hy Ey]|[Hy Ey]]]; rewrite Ey.
    + cbn. f_equal. field. lra.
    + destruct (Rsign_spec x) as [[Hx Ex]|[[Hx Ex]|[Hx Ex]]]; rewrite Ex.
      * by rewrite Rsign_pos by lra.
      * by rewrite Rsign_zero by lra.
      * by rewrite Rsign_neg by lra.
    + cbn. f_equal. field. lra.
  - f_equal. lra.
  - f_equal. lra.
  - by destruct (Rsign y).
  - by destruct (Rsign y).
Qed.

(** ** C7: transform followed by inverse_transform *)

(** C7 (as amended): for every scaler variant whose statistics are finite
    and whose divisor (the maximum, the standard deviation, or max - min)
    is not zero, [inverse_transform (transform v) = v] for every value [v],
    the infinities and NaN included. *)
Theorem inverse_transform_transform (s : Scaler) (v : fl) :
  scaler_regular s -> inverse_transform s (transform s v) = v.
Proof.
  destruct s as [|mx|mean std|mx mn|mx mn]; cbn [scaler_regular].
  - reflexivity.
  - intros (m & -> & Hm).
    destruct v as [x| | |]; sign_cases; try reflexivity.
    all: f_equal; field; lra.
  - intros (m & sd & -> & -> & Hsd).
    destruct v as [x| | |]; sign_cases; try reflexivity.
    all: f_equal; field; lra.
  - intros (a & b & -> & -> & Hab).
    destruct v as [x| | |]; sign_cases; try reflexivity.
    all: f_equal; field; lra.
  - intros (a & b & -> & -> & Hab).
    destruct v as [x| | |]; sign_cases; try reflexivity.
    all: f_equal; field; lra.
Qed.

Lemma fl_sqrt_0 : fl_sqrt (Fin 0) = Fin 0.
Proof. unfold fl_sqrt. rewrite Rsign_zero by reflexivity. by rewrite sqrt_0. Qed.

(** Instance of [inverse_transform_transform]: standardizing 66 with mean
    60 and standard deviation 3, and back. *)
Lemma inverse_transform_transform_witness :
  inverse_transform (StandardScaler (Fin 60) (Fin 3))
    (transform (StandardScaler (Fin 60) (Fin 3)) (Fin 66)) = Fin 66.
Proof.
  apply (inverse_transform_transform (StandardScaler (Fin 60) (Fin 3)) (Fin 66)).
  exists 60%R, 3%R. repeat split. lra.
Defined.

(** On it the fitted mean is 5 and the fitted standard deviation 0. *)
Lemma get_scalar_const_train (y_train x_val y_val x_test y_test : array4) :
  get_scalar "standard" 1 const_train y_train x_val y_val x_test y_test
  = Ok (StandardScaler (Fin 5) (Fin 0)).
Proof.
  unfold get_scalar. cbn [String.eqb Ascii.eqb Bool.eqb].
  change (flat (channels_to 1 const_train)) with [Fin 5; Fin 5].
  assert (Hmean : np_mean [Fin 5; Fin 5] = Fin 5).
  { unfold np_mean, np_sum. cbn [fold_left length fl_add].
    rewrite fl_div_fin by (simpl; lra). f_equal. simpl. lra. }
  unfold np_std. rewrite Hmean. cbn [map fl_sub fl_neg fl_add fl_abs].
  replace (5 + - (5))%R with 0%R by lra. rewrite Rabs_R0.
  unfold np_mean, np_sum, fl_square. cbn [fold_left length fl_add fl_mul].
  rewrite fl_div_fin by (simpl; lra).
  replace ((0 + 0 * 0 + 0 * 0) / INR 2)%R with 0%R by (simpl; lra).
  by rewrite fl_sqrt_0.
Qed.

(** C7 as stated fails on degenerate statistics: the standard scaler
    fitted on the constant training input has standard deviation 0; it
    sends 7 to +inf, and the inverse sends +inf to NaN (inf * 0), not back
    to 7. *)
Lemma inverse_transform_degenerate_std :
  get_scalar "standard" 1 const_train [] [] [] [] []
    = Ok (StandardScaler (Fin 5) (Fin 0)) /\
  transform (StandardScaler (Fin 5) (Fin 0)) (Fin 7) = PInf /\
  inverse_transform (StandardScaler (Fin 5) (Fin 0))
    (transform (StandardScaler (Fin 5) (Fin 0)) (Fin 7)) = NaN /\
  inverse_transform (StandardScaler (Fin 5) (Fin 0))
    (transform (StandardScaler (Fin 5) (Fin 0)) (Fin 7)) <> Fin 7.
Proof.
  assert (Ht : transform (StandardScaler (Fin 5) (Fin 0)) (Fin 7) = PInf).
  { cbn [transform fl_sub fl_neg fl_add]. unfold fl_div.
    rewrite Rsign_zero by reflexivity. by rewrite Rsign_pos by lra. }
  assert (Hi : inverse_transform (StandardScaler (Fin 5) (Fin 0)) PInf = NaN).
  { cbn [inverse_transform fl_mul]. by rewrite Rsign_zero by reflexivity. }
  split; [apply get_scalar_const_train|].
  split; [exact Ht|]. rewrite Ht, Hi. split; [reflexivity|discriminate].
Qed.

(** ** C1: which arrays the fitted statistics read *)

Lemma string_eqb_false (s t : string) : s <> t -> String.eqb s t = false.
Proof. intros Hst. by apply String.eqb_neq. Qed.

Lemma fl_ltb_irrefl (a : fl) : fl_ltb a a = false.
Proof. destruct a; try done. unfold fl_ltb. destruct (Rlt_dec r r); [lra|done]. Qed.

Lemma fl_ltb_false_trans (a b c : fl) :
  fl_isnan a = false -> fl_isnan b = false -> fl_isnan c = false ->
  fl_ltb a b = false -> fl_ltb b c = false -> fl_ltb a c = false.
Proof.
  destruct a as [x| | |], b as [y| | |], c as [z| | |]; try done.
  unfold fl_ltb. intros _ _ _.
  destruct (Rlt_dec x y), (Rlt_dec y z), (Rlt_dec x z); try done. lra.
Qed.

Lemma fl_ltb_true_false (a b : fl) : fl_ltb a b = true -> fl_ltb b a = false.
Proof.
  destruct a as [x| | |], b as [y| | |]; try done.
  unfold fl_ltb. destruct (Rlt_dec x y), (Rlt_dec y x); try done. lra.
Qed.

Lemma py_max_fl_bound (rest : list fl) (a : fl) :
  Forall (fun v => fl_isnan v = false) (a :: rest) ->
  fl_isnan (py_max_fl a rest) = false /\
  py_max_fl a rest ∈ a :: rest /\
  Forall (fun v => fl_ltb (py_max_fl a rest) v = false) (a :: rest).
Proof.
  unfold py_max_fl. revert a.
  induction rest as [|b rest IH]; intros a Hn.
  - apply Forall_cons in Hn as [Ha _]. cbn [fold_left].
    split; [done|]. split; [apply list_elem_of_here|].
    constructor; [apply fl_ltb_irrefl | constructor].
  - apply Forall_cons in Hn as [Ha Hn]. pose proof Hn as Hn'.
    apply Forall_cons in Hn' as [Hb Hrest]. cbn [fold_left].
    destruct (fl_ltb a b) eqn:Eab.
    + destruct (IH b Hn) as (Hm & Hin & Hall). split; [done|].
      split; [by apply list_elem_of_further|].
      constructor; [|done].
      apply Forall_cons in Hall as [Hmb _].
      apply (fl_ltb_false_trans _ b a); try done.
      by apply fl_ltb_true_false.
    + assert (Hn2 : Forall (fun v => fl_isnan v = false) (a :: rest))
        by by constructor.
      destruct (IH a Hn2) as (Hm & Hin & Hall). split; [done|].
      split.
      { apply elem_of_cons in Hin as [-> | Hin];
          [apply list_elem_of_here | by do 2 apply list_elem_of_further]. }
      apply Forall_cons in Hall as [Hma Hall].
      constructor; [done|]. constructor; [|done].
      by apply (fl_ltb_false_trans _ a b).
Qed.

Lemma np_maximum_fold (rest : list fl) (a : fl) :
  Forall (fun v => fl_isnan v = false) (a :: rest) ->
  fold_left np_maximum rest a = py_max_fl a rest.
Proof.
  unfold py_max_fl. revert a.
  induction rest as [|b rest IH]; intros a Hn; [done|].
  apply Forall_cons in Hn as [Ha Hn]. pose proof Hn as Hn'.
  apply Forall_cons in Hn' as [Hb Hrest]. cbn [fold_left].
  unfold np_maximum at 2. rewrite Ha, Hb.
  destruct (fl_ltb a b); apply IH; by constructor.
Qed.

Lemma np_amax_bound (l : list fl) :
  l <> [] -> Forall (fun v => fl_isnan v = false) l ->
  exists m, np_amax l = Ok m /\ fl_isnan m = false /\ m ∈ l /\
            Forall (fun v => fl_ltb m v = false) l.
Proof.
  intros Hne Hn. destruct l as [|a rest]; [done|].
  exists (py_max_fl a rest). cbn [np_amax].
  rewrite np_maximum_fold by done. split; [done|].
  by apply py_max_fl_bound.
Qed.

Lemma py_min_fl_bound (rest : list fl) (a : fl) :
  Forall (fun v => fl_isnan v = false) (a :: rest) ->
  fl_isnan (py_min_fl a rest) = false /\
  py_min_fl a rest ∈ a :: rest /\
  Forall (fun v => fl_ltb v (py_min_fl a rest) = false) (a :: rest).
Proof.
  unfold py_min_fl. revert a.
  induction rest as [|b rest IH]; intros a Hn.
  - apply Forall_cons in Hn as [Ha _]. cbn [fold_left].
    split; [done|]. split; [apply list_elem_of_here|].
    constructor; [apply fl_ltb_irrefl | constructor].
  - apply Forall_cons in Hn as [Ha Hn]. pose proof Hn as Hn'.
    apply Forall_cons in Hn' as [Hb Hrest]. cbn [fold_left].
    destruct (fl_ltb b a) eqn:Eba.
    + destruct (IH b Hn) as (Hm & Hin & Hall). split; [done|].
      split; [by apply list_elem_of_further|].
      constructor; [|done].
      apply Forall_cons in Hall as [Hmb _].
      apply (fl_ltb_false_trans _ b _); try done.
      by apply fl_ltb_true_false.
    + assert (Hn2 : Forall (fun v => fl_isnan v = false) (a :: rest))
        by by constructor.
      destruct (IH a Hn2) as (Hm & Hin & Hall). split; [done|].
      split.
      { apply elem_of_cons in Hin as [-> | Hin];
          [apply list_elem_of_here | by do 2 apply list_elem_of_further]. }
      apply Forall_cons in Hall as [Hma Hall].
      constructor; [done|]. constructor; [|done].
      by apply (fl_ltb_false_trans _ a _).
Qed.

Lemma np_minimum_fold (rest : list fl) (a : fl) :
  Forall (fun v => fl_isnan v = false) (a :: rest) ->
  fold_left np_minimum rest a = py_min_fl a rest.
Proof.
  unfold py_min_fl. revert a.
  induction rest as [|b rest IH]; intros a Hn; [done|].
  apply Forall_cons in Hn as [Ha Hn]. pose proof Hn as Hn'.
  apply Forall_cons in Hn' as [Hb Hrest]. cbn [fold_left].
  unfold np_minimum at 2. rewrite Ha, Hb.
  destruct (fl_ltb b a); apply IH; by constructor.
Qed.

Lemma np_amin_bound (l : list fl) :
  l <> [] -> Forall (fun v => fl_isnan v = false) l ->
  exists m, np_amin l = Ok m /\ fl_isnan m = false /\ m ∈ l /\
            Forall (fun v => fl_ltb v m = false) l.
Proof.
  intros Hne Hn. destruct l as [|a rest]; [done|].
  exists (py_min_fl a rest). cbn [np_amin].
  rewrite np_minimum_fold by done. split; [done|].
  by apply py_min_fl_bound.
Qed.

(** The maximum and the minimum that the two min-max scalers are fitted
    with: entries of the two training slices that bound all their
    entries. *)
Lemma train_max_min (l1 l2 : list fl) :
  l1 <> [] -> l2 <> [] ->
  Forall (fun v => fl_isnan v = false) (l1 ++ l2) ->
  exists m1 m2 n1 n2,
    np_amax l1 = Ok m1 /\ np_amax l2 = Ok m2 /\
    np_amin l1 = Ok n1 /\ np_amin l2 = Ok n2 /\
    py_max_fl m1 [m2] ∈ l1 ++ l2 /\
    py_min_fl n1 [n2] ∈ l1 ++ l2 /\
    Forall (fun v => fl_ltb (py_max_fl m1 [m2]) v = false /\
                     fl_ltb v (py_min_fl n1 [n2]) = false) (l1 ++ l2).
Proof.
  intros Hne1 Hne2 Hnan. apply Forall_app in Hnan as [Hn1 Hn2].
  destruct (np_amax_bound l1) as (m1 & E1 & N1 & I1 & B1); [done..|].
  destruct (np_amax_bound l2) as (m2 & E2 & N2 & I2 & B2); [done..|].
  destruct (np_amin_bound l1) as (n1 & F1 & M1 & J1 & C1); [done..|].
  destruct (np_amin_bound l2) as (n2 & F2 & M2 & J2 & C2); [done..|].
  exists m1, m2, n1, n2. do 4 (split; [done|]).
  destruct (py_max_fl_bound [m2] m1) as (Nm & Im & Bm); [by repeat constructor|].
  destruct (py_min_fl_bound [n2] n1) as (Nn & In & Bn); [by repeat constructor|].
  apply Forall_cons in Bm as [Bm1 Bm]. apply Forall_cons in Bm as [Bm2 _].
  apply Forall_cons in Bn as [Bn1 Bn]. apply Forall_cons in Bn as [Bn2 _].
  split; [|split].
  - apply elem_of_app.
    apply elem_of_cons in Im as [-> | Im]; [by left|].
    apply elem_of_cons in Im as [-> | Im]; [by right|]. by apply elem_of_nil in Im.
  - apply elem_of_app.
    apply elem_of_cons in In as [-> | In]; [by left|].
    apply elem_of_cons in In as [-> | In]; [by right|]. by apply elem_of_nil in In.
  - apply Forall_app. split; apply Forall_forall; intros v Hv.
    + split.
      * apply (fl_ltb_false_trans _ m1 v); try done.
        -- by apply (proj1 (Forall_forall _ _) Hn1).
        -- by apply (proj1 (Forall_forall _ _) B1).
      * apply (fl_ltb_false_trans _ n1 _); try done.
        -- by apply (proj1 (Forall_forall _ _) Hn1).
        -- by apply (proj1 (Forall_forall _ _) C1).
    + split.
      * apply (fl_ltb_false_trans _ m2 v); try done.
        -- by apply (proj1 (Forall_forall _ _) Hn2).
        -- by apply (proj1 (Forall_forall _ _) B2).
      * apply (fl_ltb_false_trans _ n2 _); try done.
        -- by apply (proj1 (Forall_forall _ _) Hn2).
        -- by apply (proj1 (Forall_forall _ _) C2).
Qed.

(** C1 (as amended): for every scaler type other than "normal" the fitted
    scaler is the same whatever the validation and test arrays are, and it
    reads the two training arrays through their first [output_dim]
    channels only.  For "standard" it consists of the mean and the standard
    deviation of [x_train[..., :output_dim]] alone.  For "minmax01" and
    "minmax11", on training slices that have an entry and hold no NaN, it
    consists of the largest and the smallest entry of
    [x_train[..., :output_dim]] and [y_train[..., :output_dim]].  For
    "normal" the maximum is taken over the six arrays, validation and test
    included, each through its first [output_dim] channels. *)
Theorem get_scalar_reads (scaler_type : string) (output_dim : Z)
    (x_train y_train x_val y_val x_test y_test : array4)
    (x_train' y_train' x_val' y_val' x_test' y_test' : array4) :
  scaler_type <> "normal"%string ->
  get_scalar scaler_type output_dim x_train y_train x_val y_val x_test y_test
  = get_scalar scaler_type output_dim x_train y_train x_val' y_val' x_test' y_test'
  /\ (channels_to output_dim x_train = channels_to output_dim x_train' ->
      channels_to output_dim y_train = channels_to output_dim y_train' ->
      get_scalar scaler_type output_dim x_train y_train x_val y_val x_test y_test
      = get_scalar scaler_type output_dim x_train' y_train' x_val y_val x_test y_test)
  /\ (scaler_type = "standard"%string ->
      get_scalar scaler_type output_dim x_train y_train x_val y_val x_test y_test
      = Ok (StandardScaler (np_mean (flat (channels_to output_dim x_train)))
                           (np_std (flat (channels_to output_dim x_train)))))
  /\ (scaler_type = "minmax01"%string \/ scaler_type = "minmax11"%string ->
      flat (channels_to output_dim x_train) <> [] ->
      flat (channels_to output_dim y_train) <> [] ->
      Forall (fun v => fl_isnan v = false)
             (flat (channels_to output_dim x_train)
                ++ flat (channels_to output_dim y_train)) ->
      exists mx mn,
        get_scalar scaler_type output_dim x_train y_train x_val y_val x_test y_test
        = Ok (if String.eqb scaler_type "minmax01"
              then MinMax01Scaler mx mn else MinMax11Scaler mx mn) /\
        mx ∈ flat (channels_to output_dim x_train)
               ++ flat (channels_to output_dim y_train) /\
        mn ∈ flat (channels_to output_dim x_train)
               ++ flat (channels_to output_dim y_train) /\
        Forall (fun v => fl_ltb mx v = false /\ fl_ltb v mn = false)
               (flat (channels_to output_dim x_train)
                  ++ flat (channels_to output_dim y_train)))
  /\ get_scalar "normal" output_dim x_train y_train x_val y_val x_test y_test
     = (do m1 <- np_amax (flat (channels_to output_dim x_train));
        do m2 <- np_amax (flat (channels_to output_dim y_train));
        do m3 <- np_amax (flat (channels_to output_dim x_val));
        do m4 <- np_amax (flat (channels_to output_dim y_val));
        do m5 <- np_amax (flat (channels_to output_dim x_test));
        do m6 <- np_amax (flat (channels_to output_dim y_test));
        Ok (NormalScaler (py_max_fl m1 [m2; m3; m4; m5; m6])))
  /\ (Forall2 (fun a a' => channels_to output_dim a = channels_to output_dim a')
              [x_train; y_train; x_val; y_val; x_test; y_test]
              [x_train'; y_train'; x_val'; y_val'; x_test'; y_test'] ->
      get_scalar "normal" output_dim x_train y_train x_val y_val x_test y_test
      = get_scalar "normal" output_dim
          x_train' y_train' x_val' y_val' x_test' y_test').
Proof.
  intros Hn. split; [|split; [|split; [|split; [|split]]]].
  - unfold get_scalar. by rewrite (string_eqb_false _ _ Hn).
  - intros Hx Hy. unfold get_scalar. by rewrite Hx, Hy.
  - intros ->. reflexivity.
  - intros Hst Hne1 Hne2 Hnan.
    destruct (train_max_min _ _ Hne1 Hne2 Hnan)
      as (m1 & m2 & n1 & n2 & E1 & E2 & F1 & F2 & Hmx & Hmn & Hb).
    exists (py_max_fl m1 [m2]), (py_min_fl n1 [n2]).
    split; [|done].
    destruct Hst as [-> | ->]; unfold get_scalar;
      cbn [String.eqb Ascii.eqb Bool.eqb]; rewrite E1, E2, F1, F2; reflexivity.
  - reflexivity.
  - intros Hall.
    repeat match goal with
           | H : Forall2 _ (_ :: _) (_ :: _) |- _ =>
               apply Forall2_cons in H as [? H]
           end.
    unfold get_scalar. cbn [String.eqb Ascii.eqb Bool.eqb].
    repeat match goal with
           | H : channels_to _ _ = channels_to _ _ |- _ => rewrite H; clear H
           end.
    reflexivity.
Qed.

(** Instance of [get_scalar_reads] for the scaler "minmax01" on a training
    input holding 1 and a training target holding 9: the validation and
    test arrays do not matter, and the fitted statistics are entries of the
    two training arrays that bound them. *)
Lemma get_scalar_reads_witness :
  get_scalar "minmax01" 1 arr_one arr_nine [] [] [] []
  = get_scalar "minmax01" 1 arr_one arr_nine arr_nan arr_nan arr_nan arr_nan
  /\ exists mx mn,
       get_scalar "minmax01" 1 arr_one arr_nine [] [] [] []
       = Ok (MinMax01Scaler mx mn) /\
       mx ∈ flat (channels_to 1 arr_one) ++ flat (channels_to 1 arr_nine) /\
       mn ∈ flat (channels_to 1 arr_one) ++ flat (channels_to 1 arr_nine) /\
       Forall (fun v => fl_ltb mx v = false /\ fl_ltb v mn = false)
              (flat (channels_to 1 arr_one) ++ flat (channels_to 1 arr_nine)).
Proof.
  destruct (get_scalar_reads "minmax01" 1 arr_one arr_nine [] [] [] []
              arr_one arr_nine arr_nan arr_nan arr_nan arr_nan
              ltac:(discriminate))
    as (H1 & _ & _ & H4 & _).
  split; [exact H1|].
  apply H4; [by left | discriminate | discriminate | by repeat constructor].
Defined.

(** C1 as stated fails for the "normal" scaler: changing the test input
    alone changes the fitted maximum. *)
Lemma get_scalar_normal_reads_test :
  get_scalar "normal" 1 arr_one arr_one arr_one arr_one arr_one arr_one
    = Ok (NormalScaler (Fin 1)) /\
  get_scalar "normal" 1 arr_one arr_one arr_one arr_one arr_nine arr_one
    = Ok (NormalScaler (Fin 9)).
Proof.
  unfold get_scalar. cbn [String.eqb Ascii.eqb Bool.eqb].
  change (flat (channels_to 1 arr_one)) with [Fin 1].
  change (flat (channels_to 1 arr_nine)) with [Fin 9].
  cbn [np_amax fold_left bind]. unfold py_max_fl. cbn [fold_left].
  split.
  - by rewrite !(fl_ltb_fin_false 1 1) by lra.
  - rewrite !(fl_ltb_fin_false 1 1) by lra.
    rewrite (fl_ltb_fin_true 1 9) by lra.
    by rewrite (fl_ltb_fin_false 9 1) by lra.
Qed.

(** ** C9: unknown entities are skipped, unknown selectors raise *)

Section TableProps.
Context {K : Type} `{Countable K}.
Variable values_id : K -> K.

Lemma load_geo_acc_None (ids : list K) (s : nat) (m : gmap K nat) (k : K) :
  fold_left (fun m p => <[p.2 := p.1]> m) (zip (seq s (length ids)) ids) m !! k = None
  <-> m !! k = None /\ k ∉ ids.
Proof.
  revert s m. induction ids as [|a ids IH]; intros s m; simpl.
  - split; [intros Hm; split; [done|apply not_elem_of_nil] | by intros [? _]].
  - rewrite IH, not_elem_of_cons. split.
    + intros [Hm Hk]. destruct (decide (a = k)) as [->|Hne].
      * by rewrite lookup_insert_eq in Hm.
      * rewrite lookup_insert_ne in Hm by done. naive_solver.
    + intros [Hm [Hne Hk]]. by rewrite lookup_insert_ne.
Qed.

(** An identifier is missing from [geo_to_ind] exactly when it is not in
    the entity table. *)
Lemma load_geo_None (geo_ids : list K) (k : K) :
  load_geo geo_ids !! k = None <-> k ∉ geo_ids.
Proof.
  unfold load_geo. rewrite load_geo_acc_None, lookup_empty. naive_solver.
Qed.

Lemma rel_row_unknown (g : gmap K nat) (adj_mx : list (list f32))
    (origin destination : K) (w : float) :
  g !! values_id origin = None \/ g !! values_id destination = None ->
  rel_row values_id g adj_mx (origin, destination, w) = adj_mx.
Proof.
  intros [Ho|Hd]; unfold rel_row.
  - by rewrite Ho.
  - rewrite Hd. by destruct (g !! values_id origin).
Qed.
End TableProps.

Lemma get_scalar_unknown_type (scaler_type : string) (output_dim : Z)
    (x_train y_train x_val y_val x_test y_test : array4) :
  scaler_type ∉ ["normal"; "standard"; "minmax01"; "minmax11"; "none"]%string ->
  get_scalar scaler_type output_dim x_train y_train x_val y_val x_test y_test
  = Raise ValueError.
Proof.
  intros Hst. unfold get_scalar.
  rewrite !string_eqb_false; [reflexivity|..];
    intros ->; apply Hst; set_solver.
Qed.

Lemma LINE_init_unknown_order (order : string) (w1 w2 : table) :
  order ∉ ["first"; "second"]%string ->
  LINE_init order w1 w2 = Raise ValueError.
Proof.
  intros Ho. unfold LINE_init.
  rewrite !string_eqb_false; [reflexivity|..];
    intros ->; apply Ho; set_solver.
Qed.

(** With an unknown scaler type [get_data] raises ValueError once the
    arrays are there, and leaves the cache folder as the loading or the
    generation of the arrays left it. *)
Lemma get_data_scaler_unknown_type (str_float : float -> string)
    (self : TrafficSpeedDataset) (fs fs' : cache_dir (list (list fl)))
    (df : list (list (list fl))) (feature_dim : Z) p :
  scaler_type self ∉ ["normal"; "standard"; "minmax01"; "minmax11"; "none"]%string ->
  get_data_arrays str_float self fs df = Ok (p, fs') ->
  get_data_scaler str_float self fs df feature_dim = (fs', Raise ValueError).
Proof.
  intros Hst Harr. unfold get_data_scaler. rewrite Harr.
  by rewrite get_scalar_unknown_type.
Qed.

(** C9 (as amended): a relation row one of whose identifiers, as
    [distance_df.values] holds it, is not in the entity table is skipped -
    the loop raises nothing and the matrix is the one obtained without that
    row; an order other than 'first' and 'second' makes [LINE.__init__]
    raise ValueError; a scaler type outside the five known ones makes
    [_get_scalar] raise ValueError, but not at construction time:
    [__init__] does what it does with the scaler 'none', and [get_data]
    raises only after the arrays have been loaded or generated, with the
    cache folder as that step left it. *)
Theorem unknown_rows_skipped_unknown_selectors_raise
    {K : Type} `{Countable K} (values_id : K -> K)
    (geo_ids : list K) (before after : list (K * K * float))
    (origin destination : K) (w : float)
    (self : TrafficSpeedDataset)
    (order : string) (w1 w2 : table) :
  values_id origin ∉ geo_ids \/ values_id destination ∉ geo_ids ->
  scaler_type self ∉ ["normal"; "standard"; "minmax01"; "minmax11"; "none"]%string ->
  order ∉ ["first"; "second"]%string ->
  fill_adj_mx values_id geo_ids (load_geo geo_ids)
    (before ++ (origin, destination, w) :: after)
  = fill_adj_mx values_id geo_ids (load_geo geo_ids) (before ++ after)
  /\ fill_adj_mx values_id geo_ids (load_geo geo_ids) [(origin, destination, w)]
     = replicate (length geo_ids) (replicate (length geo_ids) f32_inf)
  /\ LINE_init order w1 w2 = Raise ValueError
  /\ (forall output_dim x_train y_train x_val y_val x_test y_test,
        get_scalar (scaler_type self) output_dim
          x_train y_train x_val y_val x_test y_test
        = Raise ValueError)
  /\ (forall add_reduce3 exp_finite geofile relfile,
        dataset_init values_id add_reduce3 exp_finite self geofile relfile
        = dataset_init values_id add_reduce3 exp_finite
            (with_scaler_type "none" self) geofile relfile)
  /\ (forall str_float fs df feature_dim p fs',
        get_data_arrays str_float self fs df = Ok (p, fs') ->
        get_data_scaler str_float self fs df feature_dim
        = (fs', Raise ValueError)).
Proof.
  intros Hrow Hst Ho.
  assert (Hskip : forall adj_mx,
             rel_row values_id (load_geo geo_ids) adj_mx (origin, destination, w)
             = adj_mx).
  { intros adj_mx. apply rel_row_unknown.
    destruct Hrow as [Hr|Hr]; [left|right]; by apply load_geo_None. }
  split; [|split; [|split; [|split; [|split]]]].
  - unfold fill_adj_mx. rewrite !fold_left_app. cbn [fold_left].
    by rewrite Hskip.
  - unfold fill_adj_mx. cbn [fold_left]. apply Hskip.
  - by apply LINE_init_unknown_order.
  - intros. by apply get_scalar_unknown_type.
  - reflexivity.
  - intros. by eapply get_data_scaler_unknown_type.
Qed.

(** Instance of [unknown_rows_skipped_unknown_selectors_raise]: entities 1
    and 2, a row from 1 to the unknown entity 7, the scaler type 'robust'
    and the order 'third'. *)
Lemma unknown_rows_skipped_unknown_selectors_raise_witness :
  fill_adj_mx float64_id [1; 2] (load_geo [1; 2]) ([(1, 2, 3%float)] ++ (1, 7, 4%float) :: [])
  = fill_adj_mx float64_id [1; 2] (load_geo [1; 2]) ([(1, 2, 3%float)] ++ [])
  /\ fill_adj_mx float64_id [1; 2] (load_geo [1; 2]) [(1, 7, 4%float)]
     = replicate 2 (replicate 2 f32_inf)
  /\ LINE_init "third" [] [] = Raise ValueError
  /\ get_scalar "robust" 1 arr_one arr_one arr_one arr_one arr_one arr_one
     = Raise ValueError.
Proof.
  destruct (unknown_rows_skipped_unknown_selectors_raise float64_id
              [1; 2] [(1, 2, 3%float)] [] 1 7 4%float cfg_robust "third" [] [])
    as (H1 & H2 & H3 & H4 & _).
  - right. vm_compute. set_solver.
  - vm_compute. set_solver.
  - set_solver.
  - split; [exact H1|]. split; [exact H2|]. split; [exact H3|]. apply H4.
Defined.

(** C9 as stated fails in two ways.  A scaler type that is not one of the
    five is no error at construction time: [__init__] returns, and
    [get_data] raises ValueError only after the arrays have been generated
    and written to the cache.  And a row whose identifier is not in the
    entity table is not always skipped: beside a float64 weight column the
    identifier 2^53 + 1 is looked up as the float64 2^53, and the row is
    written to the cell of the entity 2^53. *)
Lemma unknown_scaler_type_accepted_by_init :
  (forall add_reduce3 exp_finite, exists tables,
     dataset_init float64_id add_reduce3 exp_finite cfg_robust (Some [1; 2]) None
     = Ok tables) /\
  (exists p fs',
     get_data_scaler str_float_example cfg_robust ∅ six_steps 1
     = (fs', Raise ValueError) /\
     fs' !! cache_file_name str_float_example cfg_robust = Some p) /\
  (2 ^ 53 + 1 ∉ [2 ^ 53]) /\
  fill_adj_mx float64_id [2 ^ 53] (load_geo [2 ^ 53])
    [(2 ^ 53 + 1, 2 ^ 53 + 1, 3%float)]
  = [[f32_of_f64 3]].
Proof.
  split; [|split; [|split]].
  - intros. eexists. reflexivity.
  - assert (E : exists p fs',
               generate_train_val_test str_float_example cfg_robust ∅ six_steps
               = Ok (p, fs')).
    { eexists. eexists. vm_compute. reflexivity. }
    destruct E as (p & fs' & E). exists p, fs'. split.
    + apply (get_data_scaler_unknown_type _ _ _ _ _ _ p).
      * vm_compute. set_solver.
      * unfold get_data_arrays. rewrite lookup_empty.
        rewrite bool_decide_eq_false_2 by (by intros [? ?]).
        by rewrite andb_false_r.
    + by apply (generate_writes_cache str_float_example cfg_robust ∅ fs' six_steps).
  - vm_compute. set_solver.
  - vm_compute. reflexivity.
Qed.

(** ** Zero is neutral for the addition of array entries *)

Lemma fl_add_0_r (a : fl) : fl_add a (Fin 0) = a.
Proof. destruct a; simpl; try reflexivity. f_equal. lra. Qed.

Lemma fl_add_0_l (a : fl) : fl_add (Fin 0) a = a.
Proof. destruct a; simpl; try reflexivity. f_equal. lra. Qed.

(** ** C6: the Gaussian weighting *)



Lemma shr_1_nonneg (mrs : shr_record) : 0 <= shr_m mrs -> 0 <= shr_m (shr_1 mrs).
Proof.
  destruct mrs as [m r s]. cbn [shr_m]. intros Hm.
  destruct m as [|[p|p|]|p]; cbn; lia.
Qed.

Lemma iter_pos_shr_1_nonneg (p : positive) (mrs : shr_record) :
  0 <= shr_m mrs -> 0 <= shr_m (SpecFloat.iter_pos shr_1 p mrs).
Proof.
  revert mrs. induction p as [p IH|p IH|]; intros mrs Hm; cbn [SpecFloat.iter_pos].
  - apply IH, IH. by apply shr_1_nonneg.
  - by apply IH, IH.
  - by apply shr_1_nonneg.
Qed.

Lemma shr_fexp_nonneg (prec emax m e : Z) (l : location) :
  0 <= m -> 0 <= shr_m (shr_fexp prec emax m e l).1.
Proof.
  intros Hm. unfold shr_fexp, shr.
  assert (Hrec : 0 <= shr_m (shr_record_of_loc m l)).
  { by destruct l as [|[]]. }
  destruct (fexp prec emax (Zdigits2 m + e) - e) as [|p|p]; cbn [fst]; try done.
  by apply iter_pos_shr_1_nonneg.
Qed.

Lemma round_nearest_even_nonneg (m : Z) (l : location) :
  0 <= m -> 0 <= round_nearest_even m l.
Proof.
  intros Hm. destruct l as [|[]]; cbn; try done; [|lia].
  destruct (Z.even m); lia.
Qed.

(** Rounding a non-negative mantissa never gives NaN. *)
Lemma binary_round_aux_not_nan (prec emax : Z) (s : bool) (m e : Z) (l : location) :
  0 <= m -> binary_round_aux prec emax s m e l <> S754_nan.
Proof.
  intros Hm. unfold binary_round_aux.
  pose proof (shr_fexp_nonneg prec emax m e l Hm) as H1.
  destruct (shr_fexp prec emax m e l) as [mrs' e']. cbn [fst] in H1.
  pose proof (shr_fexp_nonneg prec emax
                (round_nearest_even (shr_m mrs') (loc_of_shr_record mrs')) e'
                loc_Exact (round_nearest_even_nonneg _ _ H1)) as H2.
  destruct (shr_fexp prec emax _ e' loc_Exact) as [mrs'' e'']. cbn [fst] in H2.
  destruct (shr_m mrs'') as [|p|p]; [done| |lia].
  by destruct (e'' <=? emax - prec).
Qed.

Lemma binary_round_not_nan (prec emax : Z) (s : bool) (m : positive) (e : Z) :
  binary_round prec emax s m e <> S754_nan.
Proof.
  unfold binary_round.
  destruct (shl_align m e _) as [mz ez].
  by apply binary_round_aux_not_nan.
Qed.

(** A float64 that is not NaN is stored as a binary32 that is not NaN. *)
Lemma f32_of_f64_not_nan (w : float) :
  float_isnan w = false -> f32_of_f64 w <> S754_nan.
Proof.
  unfold float_isnan, f32_of_f64.
  destruct (Prim2SF w) as [s|s| |s m e]; try done.
  intros _. apply binary_round_not_nan.
Qed.


Section GaussProps.
Variable add_reduce3 : list f32 -> f32.
Variable exp_finite : f32 -> f32.





End GaussProps.





(** ** C8: the LINE scorers and the loss *)

Lemma embedding_in_range (weight : table) (idx : list Z) :
  Forall (fun i => 0 <= i < Z.of_nat (length weight)) idx ->
  embedding weight idx = Ok (map (row_at weight) idx).
Proof.
  intros Hidx. unfold embedding. apply mapM_ok.
  intros i Hi. rewrite Forall_forall in Hidx. specialize (Hidx i Hi).
  cbn beta. destruct (Z.ltb_spec i 0); [lia|].
  destruct (Z.leb_spec (Z.of_nat (length weight)) i); [lia|]. cbn [orb].
  unfold row_at.
  destruct (lookup_lt_is_Some_2 weight (Z.to_nat i)) as [row Hrow]; [lia|].
  by rewrite Hrow.
Qed.

Lemma fold_left_mul_dot (u v : list fl) (a : fl) :
  fold_left fl_add (zip_with fl_mul u v) a = fl_add a (dot u v).
Proof.
  revert v a. induction u as [|x u IH]; intros v a.
  - simpl. by rewrite fl_add_0_r.
  - destruct v as [|y v]; simpl.
    + by rewrite fl_add_0_r.
    + by rewrite IH, fl_add_assoc.
Qed.

(** The sum of the elementwise products is the dot product. *)
Lemma np_sum_mul_dot (u v : list fl) : np_sum (zip_with fl_mul u v) = dot u v.
Proof. unfold np_sum. by rewrite fold_left_mul_dot, fl_add_0_l. Qed.

Lemma mul_sum_rows (r1 r2 : Z -> list fl) (I J : list Z) :
  length I = length J ->
  mul_sum (map r1 I) (map r2 J)
  = Ok (zip_with (fun i j => dot (r1 i) (r2 j)) I J).
Proof.
  intros Hlen. unfold mul_sum, broadcast.
  rewrite !length_map, Hlen, Nat.eqb_refl. cbn [bind]. f_equal.
  clear Hlen. revert J. induction I as [|i I IH]; intros [|j J]; try done.
  simpl. by rewrite np_sum_mul_dot, <- IH.
Qed.

Lemma fl_neg_fold_left (l : list fl) (a : fl) :
  fl_neg (fold_left fl_add l a) = fold_left fl_add (map fl_neg l) (fl_neg a).
Proof.
  revert a. induction l as [|x l IH]; intros a; [done|].
  simpl. by rewrite IH, fl_neg_add.
Qed.

(** Negation commutes with the mean. *)
Lemma fl_neg_np_mean (l : list fl) :
  fl_neg (np_mean l) = np_mean (map fl_neg l).
Proof.
  unfold np_mean, np_sum.
  rewrite fl_neg_div, fl_neg_fold_left, length_map. cbn [fl_neg].
  by rewrite Ropp_0.
Qed.

Lemma loss_of_scores (scores Neg : list fl) :
  length scores = length Neg ->
  (do prod <- broadcast fl_mul scores Neg;
   Ok (fl_neg (np_mean (map logsigmoid prod))))
  = Ok (mean_neg_log_sigmoid scores Neg).
Proof.
  intros Hlen. unfold broadcast. rewrite Hlen, Nat.eqb_refl. cbn [bind].
  f_equal. rewrite fl_neg_np_mean. unfold mean_neg_log_sigmoid. f_equal.
  clear Hlen. revert Neg.
  induction scores as [|s scores IH]; intros [|l Neg]; try done.
  simpl. by rewrite IH.
Qed.



(* ===================================================================== *)
(** * Part III: further properties of the two files                       *)
(* ===================================================================== *)

(** ** [_load_geo]: the index of an identifier *)

Section GeoIndex.
Context {K : Type} `{Countable K}.

Lemma load_geo_snoc (geo_ids : list K) (a : K) :
  load_geo (geo_ids ++ [a]) = <[a := length geo_ids]> (load_geo geo_ids).
Proof.
  unfold load_geo. rewrite length_app. cbn [length].
  rewrite seq_app. cbn [seq].
  change (zip ?l ?k) with (zip_with pair l k).
  rewrite zip_with_app by (by rewrite length_seq).
  rewrite fold_left_app. cbn [zip_with fold_left fst snd].
  by rewrite Nat.add_0_l.
Qed.

(** X2: [geo_to_ind] maps an identifier to a position at which the entity
    table holds it, namely the last one; identifiers that are not in the
    table have no index.  For a table without repeated identifiers this is
    the position of the identifier, so the indices are 0, 1, 2, ... in
    table order. *)
Theorem load_geo_lookup (geo_ids : list K) (k : K) (i : nat) :
  load_geo geo_ids !! k = Some i <->
  geo_ids !! i = Some k /\ forall j, (i < j)%nat -> geo_ids !! j <> Some k.
Proof.
  revert i. induction geo_ids as [|a ids IH] using rev_ind; intros i.
  - unfold load_geo. cbn. rewrite lookup_empty. split; [done|].
    intros [Hi _]. by rewrite lookup_nil in Hi.
  - rewrite load_geo_snoc. destruct (decide (a = k)) as [->|Hne].
    + rewrite lookup_insert_eq. split.
      * intros [= <-]. split.
        -- by rewrite lookup_app_r, Nat.sub_diag by lia.
        -- intros j Hj Hk. apply lookup_lt_Some in Hk.
           rewrite length_app in Hk. cbn in Hk. lia.
      * intros [Hi Hlast]. f_equal.
        pose proof (lookup_lt_Some _ _ _ Hi) as Hlt.
        rewrite length_app in Hlt. cbn in Hlt.
        destruct (decide (i = length ids)) as [->|Hi']; [done|].
        exfalso. apply (Hlast (length ids)); [lia|].
        by rewrite lookup_app_r, Nat.sub_diag by lia.
    + rewrite lookup_insert_ne by done. rewrite IH. split.
      * intros [Hi Hlast]. split.
        -- by apply lookup_app_l_Some.
        -- intros j Hj Hk. apply lookup_app_Some in Hk as [Hk|[_ Hk]].
           ++ by apply (Hlast j).
           ++ apply list_lookup_singleton_Some in Hk as [_ ->]. done.
      * intros [Hi Hlast].
        apply lookup_app_Some in Hi as [Hi|[_ Hi]].
        -- split; [done|]. intros j Hj Hk. apply (Hlast j Hj).
           by apply lookup_app_l_Some.
        -- apply list_lookup_singleton_Some in Hi as [_ ->]. done.
Qed.
End GeoIndex.

(** ** [_load_rel]: the cells of the adjacency matrix *)

Lemma square_set_cell (n i j : nat) (v : f32) (m : list (list f32)) :
  square n m -> square n (set_cell i j v m).
Proof.
  intros [Hlen Hrows]. unfold set_cell. split.
  - by rewrite length_alter.
  - apply Forall_alter; [done|]. intros row _ Hrow. by rewrite length_insert.
Qed.

Lemma cell_set_cell (n a b i j : nat) (v : f32) (m : list (list f32)) :
  square n m -> (i < n)%nat -> (j < n)%nat ->
  cell (set_cell a b v m) i j
  = if bool_decide (a = i /\ b = j) then Some v else cell m i j.
Proof.
  intros [Hlen Hrows] Hi Hj. unfold cell, set_cell.
  destruct (lookup_lt_is_Some_2 m i) as [row Hrow]; [lia|].
  assert (Hlrow : length row = n)
    by (rewrite Forall_forall in Hrows; eapply Hrows, list_elem_of_lookup_2, Hrow).
  destruct (decide (a = i)) as [->|Hai].
  - rewrite list_lookup_alter_eq, Hrow. cbn.
    destruct (decide (b = j)) as [->|Hbj].
    + rewrite bool_decide_eq_true_2 by done.
      apply list_lookup_insert_eq. lia.
    + rewrite bool_decide_eq_false_2 by naive_solver.
      by apply list_lookup_insert_ne.
  - rewrite list_lookup_alter_ne, Hrow by done.
    by rewrite bool_decide_eq_false_2 by naive_solver.
Qed.

Section RelCells.
Context {K : Type} `{Countable K}.
Variable values_id : K -> K.

Lemma square_rel_row (n : nat) (g : gmap K nat) (m : list (list f32))
    (row : K * K * float) :
  square n m -> square n (rel_row values_id g m row).
Proof.
  intros Hm. destruct row as [[o d] w]. unfold rel_row.
  destruct (g !! values_id o), (g !! values_id d); auto using square_set_cell.
Qed.

Lemma cell_rel_row (n i j : nat) (g : gmap K nat) (m : list (list f32))
    (row : K * K * float) :
  square n m -> (i < n)%nat -> (j < n)%nat ->
  cell (rel_row values_id g m row) i j
  = match cell_writes values_id g i j [row] with
    | [] => cell m i j
    | w :: _ => Some w
    end.
Proof.
  intros Hm Hi Hj. destruct row as [[o d] w]. unfold rel_row, cell_writes.
  cbn [omap list_omap].
  destruct (g !! values_id o) as [a|] eqn:Ho, (g !! values_id d) as [b|] eqn:Hd.
  - rewrite (cell_set_cell n) by done.
    destruct (decide (a = i /\ b = j)) as [[-> ->]|Hne].
    + by rewrite !bool_decide_eq_true_2 by done.
    + rewrite !bool_decide_eq_false_2; [done| naive_solver | done].
  - by rewrite bool_decide_eq_false_2 by naive_solver.
  - by rewrite bool_decide_eq_false_2 by naive_solver.
  - by rewrite bool_decide_eq_false_2 by naive_solver.
Qed.

Lemma fold_rel_row_cells (n : nat) (g : gmap K nat) (m : list (list f32))
    (rows : list (K * K * float)) :
  square n m ->
  square n (fold_left (rel_row values_id g) rows m) /\
  forall i j, (i < n)%nat -> (j < n)%nat ->
    cell (fold_left (rel_row values_id g) rows m) i j
    = match last (cell_writes values_id g i j rows) with
      | Some w => Some w
      | None => cell m i j
      end.
Proof.
  intros Hm. induction rows as [|row rows [IHsq IHc]] using rev_ind.
  - split; [done|]. intros i j _ _. reflexivity.
  - rewrite fold_left_app. cbn [fold_left]. split.
    + by apply square_rel_row.
    + intros i j Hi Hj. rewrite (cell_rel_row n) by done.
      unfold cell_writes at 2. rewrite omap_app.
      fold (cell_writes values_id g i j rows).
      fold (cell_writes values_id g i j [row]). rewrite last_app.
      destruct (cell_writes values_id g i j [row]) as [|w ws] eqn:Hw.
      * cbn. by apply IHc.
      * assert (ws = []) as ->.
        { destruct row as [[o d] w']. unfold cell_writes in Hw. cbn in Hw.
          by destruct (bool_decide _); simplify_eq. }
        reflexivity.
Qed.

Lemma square_replicate (n : nat) (v : f32) : square n (replicate n (replicate n v)).
Proof.
  split; [by rewrite length_replicate|].
  apply Forall_replicate. by rewrite length_replicate.
Qed.

(** X3: the matrix that [_load_rel] fills has one row and one column per
    entity of the table, and each of its cells holds the weight, rounded
    to binary32, of the last row of [distance_df] whose two identifiers,
    as [distance_df.values] holds them, have the indices of that cell - or
    the sentinel +inf when no row addresses it. *)
Theorem fill_adj_mx_cells (geo_ids : list K) (geo_to_ind : gmap K nat)
    (distance_df : list (K * K * float)) :
  let n := length geo_ids in
  let adj_mx := fill_adj_mx values_id geo_ids geo_to_ind distance_df in
  length adj_mx = n /\
  Forall (fun row => length row = n) adj_mx /\
  forall i j, (i < n)%nat -> (j < n)%nat ->
    cell adj_mx i j
    = Some (default f32_inf
              (last (cell_writes values_id geo_to_ind i j distance_df))).
Proof.
  intros n adj_mx.
  destruct (fold_rel_row_cells n geo_to_ind (replicate n (replicate n f32_inf))
              distance_df (square_replicate n f32_inf)) as [[Hlen Hrows] Hc].
  split; [exact Hlen|]. split; [exact Hrows|].
  intros i j Hi Hj. unfold adj_mx, fill_adj_mx. fold n. rewrite Hc by done.
  destruct (last _); [done|].
  unfold cell. rewrite lookup_replicate_2 by done.
  by rewrite lookup_replicate_2.
Qed.
End RelCells.

(** ** [_load_rel]: no NaN reaches the adjacency matrix *)

Section RelNaN.
Context {K : Type} `{Countable K}.
Variable values_id : K -> K.

Lemma nan_free_rel_row (g : gmap K nat) (m : list (list f32)) (o d : K) (w : float) :
  float_isnan w = false -> nan_free m ->
  nan_free (rel_row values_id g m (o, d, w)).
Proof.
  intros Hw Hm. unfold rel_row, set_cell.
  destruct (g !! values_id o) as [i|], (g !! values_id d) as [j|]; try done.
  apply Forall_alter; [done|]. intros row _ Hrow.
  apply Forall_insert; [done|]. by apply f32_of_f64_not_nan.
Qed.

Lemma nan_free_fold (g : gmap K nat) (rows : list (K * K * float))
    (m : list (list f32)) :
  Forall (fun row => float_isnan row.2 = false) rows -> nan_free m ->
  nan_free (fold_left (rel_row values_id g) rows m).
Proof.
  intros Hrows. revert m. induction Hrows as [|[[o d] w] rows Hw _ IH]; intros m Hm.
  - done.
  - cbn [fold_left]. apply IH. by apply nan_free_rel_row.
Qed.

Lemma rel_distance_df_no_nan (col : string) (rows : list (rel_record K)) :
  Forall (fun row : K * K * float => float_isnan row.2 = false)
         (rel_distance_df col rows).
Proof.
  unfold rel_distance_df. apply Forall_map, Forall_forall.
  intros r Hr. by apply list_elem_of_filter in Hr as [Hr _].
Qed.

Lemma rel_weight_col_elem (weight_col col : string) (columns : list string) :
  rel_weight_col weight_col columns = Ok col -> col ∈ columns.
Proof.
  unfold rel_weight_col. destruct (negb (String.eqb weight_col "")).
  - destruct (bool_decide_reflect (weight_col ∈ columns)); [|done].
    by intros [= <-].
  - destruct (negb (Nat.eqb (length columns) 5)); [done|].
    destruct (last columns) as [c|] eqn:Hc; [|done].
    intros [= <-]. by eapply last_Some_elem_of.
Qed.

(** X4: whenever a weight column is found, [_load_rel] without the
    Gaussian weighting returns a matrix with one row and one column per
    entity in which no cell is NaN - rows of the table whose weight is
    missing are dropped before the matrix is filled - and the weight column
    it leaves in the object is a column of the table. *)
Theorem load_rel_file_nan_free (add_reduce3 : list f32 -> f32)
    (exp_finite : f32 -> f32) (weight_col col : string) (adj_epsilon : float)
    (geo_ids : list K) (columns : list string) (rows : list (rel_record K)) :
  rel_weight_col weight_col columns = Ok col ->
  col ∈ columns /\
  exists adj_mx,
    load_rel_file values_id add_reduce3 exp_finite weight_col false adj_epsilon
      geo_ids columns rows
      = Ok (col, adj_mx) /\
    square (length geo_ids) adj_mx /\
    nan_free adj_mx.
Proof.
  intros Hcol. split; [by eapply rel_weight_col_elem|].
  unfold load_rel_file. rewrite Hcol. cbn [bind load_rel].
  eexists. split; [reflexivity|]. split.
  - unfold fill_adj_mx.
    apply (fold_rel_row_cells values_id (length geo_ids)), square_replicate.
  - unfold fill_adj_mx. apply nan_free_fold.
    + apply rel_distance_df_no_nan.
    + apply Forall_replicate, Forall_replicate. discriminate.
Qed.
End RelNaN.

(** Instance of [load_rel_file_nan_free]: a table of five columns and no
    configured weight column; the weight is read from the fifth column. *)
Lemma load_rel_file_nan_free_witness :
  "cost"%string ∈ rel_columns /\
  exists adj_mx,
    load_rel_file float64_id sum32_left exp32_taylor "" false 0.1 [1; 2]
      rel_columns rel_rows_example
      = Ok ("cost"%string, adj_mx) /\
    square 2 adj_mx /\
    nan_free adj_mx.
Proof.
  apply (load_rel_file_nan_free float64_id sum32_left exp32_taylor
           "" "cost" 0.1 [1; 2] rel_columns rel_rows_example).
  reflexivity.
Defined.

(** ** [_calculate_adjacency_matrix]: a standard deviation that is not a
    finite number other than zero *)

Section GaussDegenerate.
Variable add_reduce3 : list f32 -> f32.
Variable exp_finite : f32 -> f32.





End GaussDegenerate.


(** ** [_load_dyna]: from entity-major rows to the time-major tensor *)

Lemma omap_cons_Some {A B : Type} (f : A -> option B) (x : A) (y : B) (l : list A) :
  f x = Some y -> omap f (x :: l) = y :: omap f l.
Proof. intros Hx. cbn. by rewrite Hx. Qed.

Lemma omap_map {A B C : Type} (f : B -> option C) (h : A -> B) (l : list A) :
  omap f (map h l) = omap (fun x => f (h x)) l.
Proof. induction l as [|x l IH]; [done|]. cbn. by rewrite IH. Qed.

Lemma map_seq_lookup {A : Type} (f : nat -> A) (n t : nat) :
  (t < n)%nat -> map f (seq 0 n) !! t = Some (f t).
Proof.
  intros Ht. change (map f (seq 0 n)) with (f <$> seq 0 n).
  by rewrite list_lookup_fmap, lookup_seq_lt.
Qed.

Lemma omap_seq_lookup {A : Type} (k : nat -> option A) (s n e : nat) :
  (forall b, (b < n)%nat -> is_Some (k (s + b)%nat)) ->
  (e < n)%nat ->
  omap k (seq s n) !! e = k (s + e)%nat /\ length (omap k (seq s n)) = n.
Proof.
  revert s e. induction n as [|n IH]; intros s e Hk He; [lia|].
  cbn [seq].
  destruct (Hk 0%nat) as [x Hx]; [lia|]. rewrite Nat.add_0_r in Hx.
  rewrite (omap_cons_Some _ _ _ _ Hx).
  assert (Hk' : forall b, (b < n)%nat -> is_Some (k (S s + b)%nat)).
  { intros b Hb. replace (S s + b)%nat with (s + S b)%nat by lia. apply Hk. lia. }
  assert (Hl : length (omap k (seq (S s) n)) = n).
  { destruct n as [|n]; [done|].
    by destruct (IH (S s) 0%nat Hk') as [_ Hl]; [lia|]. }
  cbn [length]. rewrite Hl. split; [|done].
  destruct e as [|e].
  - cbn. by rewrite Nat.add_0_r, Hx.
  - cbn [lookup list_lookup]. destruct (IH (S s) e Hk') as [Hl1 _]; [lia|].
    change (omap k (seq (S s) n) !! e = k (s + S e)%nat).
    rewrite Hl1. f_equal. lia.
Qed.

Lemma dyna_blocks_count {A : Type} (T B : nat) (rows : list A) :
  (0 < T)%nat -> length rows = (B * T)%nat ->
  dyna_blocks T rows = map (fun b => take T (drop (b * T) rows)) (seq 0 B).
Proof.
  intros HT Hlen. unfold dyna_blocks. do 2 f_equal. rewrite Hlen.
  symmetry. apply (Nat.div_unique _ _ _ (T - 1)); lia.
Qed.

Lemma dyna_block_lookup {A : Type} (T B b t : nat) (rows : list A) :
  length rows = (B * T)%nat -> (b < B)%nat -> (t < T)%nat ->
  take T (drop (b * T) rows) !! t = rows !! (b * T + t)%nat /\
  is_Some (rows !! (b * T + t)%nat) /\
  length (take T (drop (b * T) rows)) = T.
Proof.
  intros Hlen Hb Ht. rewrite lookup_take_lt, lookup_drop by done.
  split; [done|]. split.
  - apply lookup_lt_is_Some_2. nia.
  - rewrite length_take, length_drop. nia.
Qed.

(** The layout after [swapaxes]: for a table of [B] blocks of [T] rows,
    the result has [T] time steps of [B] entities, and the entity [e] at
    time [t] is the row [e * T + t] of the table. *)
Lemma dyna_reshape_layout (T B : nat) (rows : list (list fl)) :
  (0 < T)%nat -> (0 < B)%nat -> length rows = (B * T)%nat ->
  exists data,
    dyna_reshape T rows = Ok data /\
    length data = T /\
    Forall (fun step => length step = B) data /\
    forall t e, (t < T)%nat -> (e < B)%nat ->
      at2 data t e = rows !! (e * T + t)%nat.
Proof.
  intros HT HB Hlen. unfold dyna_reshape.
  destruct T as [|T']; [lia|]. set (T := S T') in *.
  rewrite (dyna_blocks_count T B) by done.
  destruct B as [|B']; [lia|]. set (B := S B') in *.
  assert (Hblk : forall b, (b < B)%nat ->
            length (take T (drop (b * T) rows)) = T).
  { intros b Hb. by destruct (dyna_block_lookup T B b 0 rows) as (_ & _ & ?). }
  change (seq 0 B) with (0%nat :: seq 1 B'). cbn [map].
  change (take T (drop (0 * T) rows) :: map _ (seq 1 B'))
    with (map (fun b => take T (drop (b * T) rows)) (seq 0 B)).
  rewrite (Hblk 0%nat) by lia.
  assert (Hall : forallb (fun b => Nat.eqb (length b) T)
                   (map (fun b => take T (drop (b * T) rows)) (seq 0 B)) = true).
  { apply forallb_forall. intros blk Hin. apply in_map_iff in Hin as (b & <- & Hb).
    apply in_seq in Hb. rewrite Hblk by lia. apply Nat.eqb_refl. }
  rewrite Hall. eexists. split; [reflexivity|].
  assert (Hstep : forall t, (t < T)%nat ->
            forall e, (e < B)%nat ->
              omap (fun blk : list (list fl) => blk !! t)
                   (map (fun b => take T (drop (b * T) rows)) (seq 0 B)) !! e
              = rows !! (e * T + t)%nat /\
              length (omap (fun blk : list (list fl) => blk !! t)
                        (map (fun b => take T (drop (b * T) rows)) (seq 0 B))) = B).
  { intros t Ht e He.
    rewrite omap_map.
    destruct (omap_seq_lookup
                (fun b => take T (drop (b * T) rows) !! t) 0 B e) as [H1 H2].
    - intros b Hb. change (0 + b)%nat with b.
      destruct (dyna_block_lookup T B b t rows) as (-> & ? & _); done.
    - done.
    - split; [|exact H2]. rewrite H1. change (0 + e)%nat with e.
      by destruct (dyna_block_lookup T B e t rows) as (-> & _ & _). }
  unfold swapaxes01. split; [by rewrite length_map, length_seq|]. split.
  - apply Forall_map, Forall_forall. intros t Ht%elem_of_seq.
    destruct (Hstep t ltac:(lia) 0%nat ltac:(lia)) as [_ Hl]. exact Hl.
  - intros t e Ht He. unfold at2.
    rewrite map_seq_lookup by done. lazy beta iota.
    by destruct (Hstep t Ht e He) as [-> _].
Qed.

(** X6: when the selected table holds [B] blocks of [len_time] rows, where
    [len_time = int(nrows / num_nodes) > 0], [_load_dyna] returns a tensor
    of [len_time] time steps with [B] entities each, in which the entity
    [e] at time [t] is the row [e * len_time + t] of the table.  The
    number of blocks [B] is not compared with [num_nodes]. *)
Theorem load_dyna_tensor_layout (num_nodes B : nat) (rows : list (list fl)) :
  let len_time := (length rows / num_nodes)%nat in
  (0 < num_nodes)%nat -> (0 < len_time)%nat ->
  length rows = (B * len_time)%nat ->
  exists data,
    load_dyna_tensor num_nodes rows = Some (Ok data) /\
    length data = len_time /\
    Forall (fun step => length step = B) data /\
    forall t e, (t < len_time)%nat -> (e < B)%nat ->
      at2 data t e = rows !! (e * len_time + t)%nat.
Proof.
  intros len_time HN HT Hlen.
  assert (HB : (0 < B)%nat).
  { destruct B; [|lia]. cbn in Hlen. subst len_time. rewrite Hlen in HT.
    cbn in HT. rewrite Nat.Div0.div_0_l in HT. lia. }
  destruct (dyna_reshape_layout len_time B rows HT HB Hlen)
    as (data & Hd & H1 & H2 & H3).
  exists data. split; [|done].
  unfold load_dyna_tensor, dyna_len_time.
  destruct num_nodes; [lia|]. fold len_time. by rewrite Hd.
Qed.

(** Instance of [load_dyna_tensor_layout]: six rows loaded for four
    entities give [len_time = 1] and six blocks. *)
Lemma load_dyna_tensor_layout_witness :
  exists data,
    load_dyna_tensor 4 six_rows = Some (Ok data) /\
    length data = 1%nat /\
    Forall (fun step => length step = 6%nat) data /\
    forall t e, (t < 1)%nat -> (e < 6)%nat ->
      at2 data t e = six_rows !! (e * 1 + t)%nat.
Proof.
  apply (load_dyna_tensor_layout 4 6 six_rows); cbn; lia.
Defined.

(** X7: [_load_dyna] raises ValueError when the table has fewer rows than
    entities ([len_time] is 0 and [range] refuses the zero step) and when
    the number of rows is not a multiple of [len_time] (the last block is
    shorter than the others and [np.array] refuses the ragged list). *)
Theorem load_dyna_tensor_ragged (num_nodes : nat) (rows : list (list fl)) :
  let len_time := (length rows / num_nodes)%nat in
  (0 < num_nodes)%nat ->
  len_time = 0%nat \/ (length rows mod len_time)%nat <> 0%nat ->
  load_dyna_tensor num_nodes rows = Some (Raise ValueError).
Proof.
  intros T HN Hbad. unfold load_dyna_tensor, dyna_len_time.
  destruct num_nodes as [|N']; [lia|]. set (N := S N') in *. fold T. f_equal.
  destruct Hbad as [HT|Hr]; [by rewrite HT|].
  unfold dyna_reshape. destruct T as [|T'] eqn:ET; [done|].
  set (Tn := S T') in *. set (n := length rows) in *.
  pose proof (Nat.div_mod_eq n N) as HdN.
  pose proof (Nat.div_mod_eq n Tn) as HdT.
  pose proof (Nat.mod_upper_bound n Tn ltac:(lia)) as Hrlt.
  set (q := (n / Tn)%nat) in *. set (r := (n mod Tn)%nat) in *.
  assert (Hq : (1 <= q)%nat).
  { destruct q; [|lia]. assert (Tn <= n)%nat by (unfold T in ET; nia). lia. }
  unfold dyna_blocks. fold n.
  replace ((n + Tn - 1) / Tn)%nat with (S q)
    by (apply (Nat.div_unique _ _ _ (r - 1)); lia).
  change (seq 0 (S q)) with (0%nat :: seq 1 q). cbn [map].
  change (take Tn (drop (0 * Tn) rows) :: map _ (seq 1 q))
    with (map (fun b => take Tn (drop (b * Tn) rows)) (seq 0 (S q))).
  assert (H0 : length (take Tn (drop (0 * Tn) rows)) = Tn).
  { rewrite length_take, length_drop. fold n. lia. }
  rewrite H0.
  destruct (forallb _ _) eqn:Hall; [|done]. exfalso.
  rewrite forallb_forall in Hall.
  specialize (Hall (take Tn (drop (q * Tn) rows))).
  rewrite length_take, length_drop in Hall. fold n in Hall.
  assert (Hin : In (take Tn (drop (q * Tn) rows))
                   (map (fun b => take Tn (drop (b * Tn) rows)) (seq 0 (S q)))).
  { apply in_map_iff. exists q. split; [done|]. apply in_seq. lia. }
  specialize (Hall Hin). apply Nat.eqb_eq in Hall. lia.
Qed.

(** Instance of [load_dyna_tensor_ragged]: five rows for two entities give
    [len_time = 2], which does not divide 5. *)
Lemma load_dyna_tensor_ragged_witness :
  load_dyna_tensor 2 [[Fin 0]; [Fin 1]; [Fin 2]; [Fin 3]; [Fin 4]]
  = Some (Raise ValueError).
Proof.
  apply (load_dyna_tensor_ragged 2 [[Fin 0]; [Fin 1]; [Fin 2]; [Fin 3]; [Fin 4]]).
  - lia.
  - right. cbn. lia.
Defined.

(** ** [_add_time_meta_information]: the appended channels *)

Lemma imap_zip_with {A B C : Type} (f : nat -> B -> C) (g : A -> B -> C)
    (l : list A) (k : list B) :
  length l = length k ->
  (forall i a b, l !! i = Some a -> k !! i = Some b -> f i b = g a b) ->
  imap f k = zip_with g l k.
Proof.
  revert f l. induction k as [|b k IH]; intros f l Hlen Hfg.
  - by destruct l.
  - destruct l as [|a l]; [done|]. rewrite imap_cons. cbn [zip_with].
    rewrite (Hfg 0%nat a b) by done. f_equal.
    apply IH; [by injection Hlen|].
    intros i a' b' Ha Hb. by apply (Hfg (S i)).
Qed.

Lemma time_of_day_range (ns : Z) :
  (0 <= IZR (ns mod day_ns) / IZR day_ns < 1)%R.
Proof.
  assert (Hd : 0 < day_ns) by (by vm_compute).
  pose proof (Z.mod_pos_bound ns day_ns Hd) as [H0 H1].
  apply IZR_le in H0. apply IZR_lt in H1, Hd.
  split.
  - apply Rmult_le_pos; [done|]. left. by apply Rinv_0_lt_compat.
  - apply (Rmult_lt_reg_r (IZR day_ns)); [done|].
    unfold Rdiv. rewrite Rmult_assoc, Rinv_l by lra. lra.
Qed.

Lemma one_hot7_single (d k : Z) :
  0 <= k < 7 ->
  one_hot7 [d] !! Z.to_nat k = Some (if bool_decide (k = d) then Fin 1 else Fin 0).
Proof.
  intros Hk. unfold one_hot7.
  change (map ?f ?l) with (f <$> l). rewrite list_lookup_fmap.
  rewrite lookup_seqZ_lt by lia. cbn [fmap option_fmap option_map].
  rewrite Z.add_0_l, Z2Nat.id by lia. f_equal.
  destruct (decide (k = d)) as [->|Hne].
  - rewrite !bool_decide_eq_true_2; [done|done|set_solver].
  - rewrite !bool_decide_eq_false_2; [done|done|set_solver].
Qed.

(** X8: for time stamps that are not NaT, one per time step,
    [_add_time_meta_information] returns the tensor in which every feature
    vector is the raw one followed by the time of day (when enabled) and
    then the seven day-of-week positions (when enabled).  The time of day
    is a fraction in [0, 1), the same for all entities of a time step, and
    the day of the week holds 1 at the position of the weekday and 0 at
    the six others. *)
Theorem add_time_meta_information_channels (add_time_in_day add_day_in_week : bool)
    (stamps : list Z) (df : tensor3) :
  length stamps = length df ->
  add_time_meta_information add_time_in_day add_day_in_week (map Some stamps) df
  = Ok (zip_with (fun ns step =>
                    map (fun feats =>
                           feats ++ time_channels add_time_in_day add_day_in_week ns)
                        step)
                 stamps df) /\
  forall ns,
    length (time_channels add_time_in_day add_day_in_week ns)
    = ((if add_time_in_day then 1 else 0) + (if add_day_in_week then 7 else 0))%nat /\
    (exists x, time_channels true add_day_in_week ns !! 0%nat = Some (Fin x)
               /\ (0 <= x < 1)%R) /\
    0 <= weekday_of ns < 7 /\
    forall k, 0 <= k < 7 ->
      time_channels false true ns !! Z.to_nat k
      = Some (if bool_decide (k = weekday_of ns) then Fin 1 else Fin 0).
Proof.
  intros Hlen. split.
  - unfold add_time_meta_information.
    assert (Hhits : (if add_day_in_week
                     then do dows <- mapM dayofweek (map Some stamps);
                          day_hits (length df) dows
                     else Ok [])
                    = Ok (if add_day_in_week
                          then map (fun ns => [weekday_of ns]) stamps else [])).
    { destruct add_day_in_week; [|done].
      rewrite (mapM_ok _ (fun ts => default 0 (weekday_of <$> ts))).
      2:{ intros ts Hts. change (map Some stamps) with (Some <$> stamps) in Hts.
          apply list_elem_of_fmap in Hts as (ns & -> & _). reflexivity. }
      cbn [bind]. unfold day_hits. rewrite !length_map, Hlen, Nat.eqb_refl.
      by rewrite !map_map. }
    rewrite Hhits. cbn [bind].
    rewrite length_map, Hlen, Nat.eqb_refl, andb_false_r.
    f_equal. apply imap_zip_with; [done|].
    intros t ns step Hns Hstep. apply map_ext. intros feats.
    unfold time_channels. f_equal. f_equal.
    + destruct add_time_in_day; [|done].
      rewrite map_map. change (map ?f ?l) with (f <$> l).
      by rewrite list_lookup_fmap, Hns.
    + destruct add_day_in_week; [|done].
      change (map ?f ?l) with (f <$> l).
      by rewrite list_lookup_fmap, Hns.
  - intros ns. split; [|split; [|split]].
    + unfold time_channels. rewrite length_app.
      destruct add_time_in_day, add_day_in_week; reflexivity.
    + eexists. split; [reflexivity|]. apply time_of_day_range.
    + unfold weekday_of. apply Z.mod_pos_bound. lia.
    + intros k Hk. unfold time_channels. cbn [app]. by apply one_hot7_single.
Qed.

(** Instance of [add_time_meta_information_channels]: one time step with
    one entity of speed 60, on a Wednesday at 06:00.  The time of day is
    a quarter and the day of the week has its 1 at position 2. *)
Lemma add_time_meta_information_channels_witness :
  add_time_meta_information true true [Some wednesday_6am] [[[Fin 60]]]
  = Ok [[[Fin 60] ++ time_channels true true wednesday_6am]] /\
  weekday_of wednesday_6am = 2 /\
  (IZR (wednesday_6am mod day_ns) / IZR day_ns = 1 / 4)%R.
Proof.
  split; [|split].
  - exact (proj1 (add_time_meta_information_channels true true
                    [wednesday_6am] [[[Fin 60]]] eq_refl)).
  - by vm_compute.
  - replace (wednesday_6am mod day_ns) with 21600000000000 by (by vm_compute).
    replace day_ns with 86400000000000 by (by vm_compute). lra.
Defined.

(** ** [get_data]: the derived output dimension and the scaling *)

Lemma map3_ext {A B : Type} (P : A -> Prop) (f g : A -> B)
    (a : list (list (list A))) :
  Forall (Forall (Forall P)) a ->
  (forall x, P x -> f x = g x) ->
  map (map (map f)) a = map (map (map g)) a.
Proof.
  intros Ha Hfg. apply map_ext_Forall. eapply Forall_impl; [exact Ha|].
  intros b Hb. apply map_ext_Forall. eapply Forall_impl; [exact Hb|].
  intros c Hc. apply map_ext_Forall. eapply Forall_impl; [exact Hc|].
  exact Hfg.
Qed.

(** X9: when [output_dim] is left at 0 and the arrays were augmented
    under the same two flags, the derived output dimension is the number
    of raw features, and the scaling of lines 325-330 transforms the raw
    features only: the time-of-day and day-of-week channels keep their
    values. *)
Theorem scaling_spares_time_channels (f : fl -> fl)
    (add_time_in_day add_day_in_week : bool) (d : nat)
    (raw : list (list (list (list fl * Z)))) :
  Forall (Forall (Forall (fun p : list fl * Z => length p.1 = d))) raw ->
  let x := map (map (map (augment add_time_in_day add_day_in_week))) raw in
  let feature_dim :=
    (d + (if add_time_in_day then 1 else 0) + (if add_day_in_week then 7 else 0))%nat in
  let output_dim :=
    derive_output_dim 0 (Z.of_nat feature_dim) add_time_in_day add_day_in_week in
  output_dim = Z.of_nat d /\
  assign_channels f output_dim x
  = map (map (map (fun p : list fl * Z =>
                     map f p.1
                       ++ time_channels add_time_in_day add_day_in_week p.2))) raw.
Proof.
  intros Hraw x feature_dim output_dim.
  assert (Hod : output_dim = Z.of_nat d).
  { unfold output_dim, derive_output_dim, feature_dim. cbn [Z.eqb].
    destruct add_time_in_day, add_day_in_week; lia. }
  split; [exact Hod|]. rewrite Hod. unfold assign_channels, x.
  rewrite !map_map.
  rewrite (map_ext (fun b => map (map _) (map (map _) b))
                   (fun b => map (map (fun p =>
                      (fun feats : list fl =>
                         map f (take (Z.to_nat (slice_bound (Z.of_nat (length feats))
                                  (Z.of_nat (length feats)) (Some (Z.of_nat d)))) feats)
                         ++ drop (Z.to_nat (slice_bound (Z.of_nat (length feats))
                                  (Z.of_nat (length feats)) (Some (Z.of_nat d)))) feats)
                        (augment add_time_in_day add_day_in_week p))) b)).
  2:{ intros b. rewrite !map_map. apply map_ext. intros c. by rewrite map_map. }
  apply (map3_ext (fun p : list fl * Z => length p.1 = d)); [exact Hraw|].
  intros [r ns] Hr. cbn [fst snd] in Hr. unfold augment. cbn [fst snd].
  clear Hraw x feature_dim output_dim Hod.
  rewrite length_app. unfold slice_bound.
  destruct (Z.ltb_spec (Z.of_nat d) 0); [lia|].
  rewrite Z.min_r, Z.max_r, Nat2Z.id by lia.
  subst d. by rewrite take_app_length, drop_app_length.
Qed.

(** Instance of [scaling_spares_time_channels]: one feature vector with
    the speed 60 and the time of day, scaled by negation. *)
Lemma scaling_spares_time_channels_witness :
  derive_output_dim 0 2 true false = 1 /\
  assign_channels fl_neg (derive_output_dim 0 2 true false)
    [[[[Fin 60] ++ time_channels true false wednesday_6am]]]
  = [[[[fl_neg (Fin 60)] ++ time_channels true false wednesday_6am]]].
Proof.
  apply (scaling_spares_time_channels fl_neg true false 1
           [[[([Fin 60], wednesday_6am)]]]).
  repeat constructor.
Defined.

(** ** The cache: round trip, and caching switched off *)

Section CacheRoundTrip.
Variable str_float : float -> string.
Context {A : Type}.

(** X10: after a generation with caching enabled, the file under the
    fingerprinted name holds the six arrays just returned:
    [_load_cache_train_val_test] reads them back unchanged, a later run
    under the same configuration returns them without looking at its
    tensor, and no file under another name has changed. *)
Theorem cache_round_trip (c : TrafficSpeedDataset) (fs fs' : cache_dir A)
    (df : list A) (p : partitions (list A) (list A)) :
  cache_dataset c = true ->
  generate_train_val_test str_float c fs df = Ok (p, fs') ->
  load_cache_train_val_test str_float c fs' = Ok p /\
  (forall df', get_data_arrays str_float c fs' df' = Ok (p, fs')) /\
  (forall name, name <> cache_file_name str_float c -> fs' !! name = fs !! name).
Proof.
  intros Hc. unfold generate_train_val_test. rewrite Hc.
  destruct (generate_input_data _ _ df) as [xy|]; [|done]. cbn [bind].
  destruct (train_val_test_split _ _ _ _) as [q|]; [|done]. cbn [bind].
  intros [= <- <-].
  assert (Hl : <[cache_file_name str_float c := q]> fs
               !! cache_file_name str_float c = Some q)
    by apply lookup_insert_eq.
  split; [|split].
  - unfold load_cache_train_val_test. by rewrite Hl.
  - intros df'. unfold get_data_arrays, load_cache_train_val_test.
    rewrite Hc, Hl. cbn [andb].
    by rewrite bool_decide_eq_true_2 by eauto.
  - intros name Hne. by apply lookup_insert_ne.
Qed.

(** X11: with caching switched off, [get_data] regenerates the arrays
    whatever the cache folder holds, and a generation leaves the cache
    folder as it was. *)
Theorem cache_disabled (c : TrafficSpeedDataset) (fs : cache_dir A) (df : list A) :
  cache_dataset c = false ->
  get_data_arrays str_float c fs df = generate_train_val_test str_float c fs df /\
  forall p fs', generate_train_val_test str_float c fs df = Ok (p, fs') ->
    fs' = fs /\
    exists xy, generate_input_data (input_window c) (output_window c) df = Ok xy /\
               train_val_test_split (train_rate c) (eval_rate c) xy.1 xy.2 = Ok p.
Proof.
  intros Hc. split.
  - unfold get_data_arrays. by rewrite Hc.
  - intros p fs'. unfold generate_train_val_test. rewrite Hc.
    destruct (generate_input_data _ _ df) as [xy|]; [|done]. cbn [bind].
    destruct (train_val_test_split _ _ _ _) as [q|] eqn:Hq; [|done]. cbn [bind].
    intros [= <- <-]. split; [done|]. by exists xy.
Qed.
End CacheRoundTrip.

(** Instance of [cache_round_trip]: the generation under [cfg_speed] into
    an empty cache folder. *)
Lemma cache_round_trip_witness :
  load_cache_train_val_test str_float_example cfg_speed
    (<[cache_file_name str_float_example cfg_speed := speed_parts]> ∅)
  = Ok speed_parts.
Proof.
  exact (proj1 (cache_round_trip str_float_example cfg_speed ∅ _ speed_series
                  speed_parts eq_refl (generate_speed str_float_example ∅))).
Defined.

(** Instance of [cache_disabled]: a stale file under the fingerprinted
    name is ignored. *)
Lemma cache_disabled_witness :
  get_data_arrays str_float_example cfg_nocache
    (<[cache_file_name str_float_example cfg_nocache := speed_parts]> ∅)
    flow_series
  = generate_train_val_test str_float_example cfg_nocache
      (<[cache_file_name str_float_example cfg_nocache := speed_parts]> ∅)
      flow_series.
Proof.
  exact (proj1 (cache_disabled str_float_example cfg_nocache
                  (<[cache_file_name str_float_example cfg_nocache := speed_parts]> ∅)
                  flow_series eq_refl)).
Defined.

(** ** [_generate_input_data]: windows that do not fit *)

Lemma mapM_raise_head {A B : Type} (f : A -> result B) (a : A) (l : list A) (e : pyexc) :
  f a = Raise e -> mapM f (a :: l) = Raise e.
Proof. intros Ha. cbn. by rewrite Ha. Qed.

Lemma np_index_end {A : Type} (df : list A) :
  np_index df (Z.of_nat (length df)) = Raise IndexError.
Proof.
  unfold np_index.
  destruct (Z.ltb_spec (Z.of_nat (length df)) (- Z.of_nat (length df))); [done|].
  by destruct (Z.leb_spec (Z.of_nat (length df)) (Z.of_nat (length df))); [|lia].
Qed.

(** A run of consecutive indices that starts inside the array, or right
    at its end, and reaches beyond it. *)
Lemma np_take_overrun {A : Type} (df : list A) (s k : nat) :
  (s <= length df)%nat -> (length df < s + k)%nat ->
  np_take df (seqZ (Z.of_nat s) (Z.of_nat k)) = Raise IndexError.
Proof.
  revert s. induction k as [|k IH]; intros s Hs Hk; [lia|].
  rewrite seqZ_succ. unfold np_take in *.
  destruct (decide (s = length df)) as [->|Hne].
  - apply mapM_raise_head, np_index_end.
  - destruct (lookup_lt_is_Some_2 df s) as [v Hv]; [lia|].
    cbn [mapM]. rewrite (np_index_nonneg _ _ _ Hv). cbn [bind].
    replace (Z.of_nat s + 1) with (Z.of_nat (S s)) by lia.
    by rewrite IH by lia.
Qed.

(** X12: [_generate_input_data] returns no samples - it raises
    ValueError or IndexError - whenever a window length is not positive or
    the series is shorter than an input window followed by an output
    window. *)
Theorem generate_input_data_raises {A : Type} (df : list A) (L_in L_out : Z) :
  L_in <= 0 \/ L_out <= 0 \/ Z.of_nat (length df) < L_in + L_out ->
  exists e, generate_input_data L_in L_out df = Raise e /\
            (e = ValueError \/ e = IndexError).
Proof.
  intros Hbad. unfold generate_input_data, arange.
  destruct (Z.le_gt_cases L_in 0) as [Hin|Hin].
  { rewrite (seqZ_nil (- L_in + 1)) by lia. cbn. eauto. }
  replace (1 - (- L_in + 1)) with (Z.of_nat (S (Z.to_nat (L_in - 1)))) by lia.
  rewrite np_sort_seqZ, py_min_seqZ. cbn [bind].
  destruct (Z.le_gt_cases L_out 0) as [Hout|Hout].
  { rewrite (seqZ_nil 1) by lia. cbn. eauto. }
  replace (L_out + 1 - 1) with (Z.of_nat (S (Z.to_nat (L_out - 1)))) by lia.
  rewrite np_sort_seqZ, py_max_seqZ. cbn [bind].
  destruct Hbad as [?|[?|Hshort]]; [lia..|].
  set (T := length df) in *.
  replace (Z.abs (- L_in + 1)) with (L_in - 1) by lia.
  replace (Z.abs (1 + Z.of_nat (Z.to_nat (L_out - 1)))) with L_out by lia.
  destruct (Z.le_gt_cases (Z.abs (Z.of_nat T - L_out)) (L_in - 1)) as [Hemp|Hne].
  { rewrite (seqZ_nil (L_in - 1)) by lia. cbn. eauto. }
  (* the loop runs, so the series is shorter than the output window *)
  assert (HT : Z.of_nat T < L_out) by lia.
  rewrite (seqZ_cons (L_in - 1)) by lia.
  exists IndexError. split; [|by right].
  assert (Hbody :
    (do x_t <- np_take df (map (Z.add (L_in - 1))
                             (seqZ (- L_in + 1) (Z.of_nat (S (Z.to_nat (L_in - 1))))));
     do y_t <- np_take df (map (Z.add (L_in - 1))
                             (seqZ 1 (Z.of_nat (S (Z.to_nat (L_out - 1))))));
     Ok (x_t, y_t)) = Raise IndexError).
  { rewrite !map_add_seqZ.
    replace (L_in - 1 + (- L_in + 1)) with (Z.of_nat 0) by lia.
    replace (L_in - 1 + 1) with (Z.of_nat (Z.to_nat L_in)) by lia.
    destruct (Z.le_gt_cases L_in (Z.of_nat T)) as [Hfit|Hover].
    - rewrite np_take_run by (fold T; lia). cbn [bind].
      by rewrite np_take_overrun by (fold T; lia).
    - by rewrite np_take_overrun by (fold T; lia). }
  cbn [mapM]. by rewrite Hbody.
Qed.

(** Instance of [generate_input_data_raises]: a series of two steps, an
    input window of one and an output window of four. *)
Lemma generate_input_data_raises_witness :
  exists e, generate_input_data 1 4 [60; 61] = Raise e /\
            (e = ValueError \/ e = IndexError).
Proof.
  apply (generate_input_data_raises [60; 61] 1 4). right. right. cbn. lia.
Defined.

(** X22: when the series is exactly one step too short for a single
    sample, that is [L_in + L_out = T + 1] with both windows positive, the
    loop does not run and [np.stack] of the empty list raises ValueError,
    whatever the length [T] is. *)
Theorem generate_input_data_one_short {A : Type} (df : list A) (L_in L_out : Z) :
  1 <= L_in -> 1 <= L_out -> L_in + L_out = Z.of_nat (length df) + 1 ->
  generate_input_data L_in L_out df = Raise ValueError.
Proof.
  intros Hin Hout Hsum. unfold generate_input_data, arange.
  replace (1 - (- L_in + 1)) with (Z.of_nat (S (Z.to_nat (L_in - 1)))) by lia.
  rewrite np_sort_seqZ, py_min_seqZ. cbn [bind].
  replace (L_out + 1 - 1) with (Z.of_nat (S (Z.to_nat (L_out - 1)))) by lia.
  rewrite np_sort_seqZ, py_max_seqZ. cbn [bind].
  rewrite (seqZ_nil (Z.abs (- L_in + 1))) by lia.
  reflexivity.
Qed.

(** Instance of [generate_input_data_one_short]: four steps, an input
    window of three and an output window of two. *)
Lemma generate_input_data_one_short_witness :
  generate_input_data 3 2 [60; 61; 62; 63] = Raise ValueError.
Proof.
  apply (generate_input_data_one_short [60; 61; 62; 63] 3 2); cbn; lia.
Defined.

(** ** The split keeps inputs and targets paired *)

Lemma py_slice_zip {X Y : Type} (start stop : option Z) (x : list X) (y : list Y) :
  length x = length y ->
  zip (py_slice start stop x) (py_slice start stop y) = py_slice start stop (zip x y).
Proof.
  intros Hlen. unfold py_slice.
  rewrite length_zip, <- !Hlen, Nat.min_id.
  by rewrite zip_with_drop, zip_with_take.
Qed.

(** X13: for inputs and targets of equal number, the train, validation
    and test lists of (input, target) pairs that [get_data] builds are
    the three slices of the list of all pairs: whatever the ratios, the
    split never pairs an input with the target of another sample. *)
Theorem split_keeps_pairs {X Y : Type} (tr er : float) (x : list X) (y : list Y)
    (p : partitions X Y) :
  length x = length y ->
  train_val_test_split tr er x y = Ok p ->
  exists q, train_val_test_split tr er (zip x y) (zip x y) = Ok q /\
            paired_data p = (x_train q, x_val q, x_test q).
Proof.
  intros Hlen. unfold train_val_test_split.
  rewrite length_zip, <- Hlen, Nat.min_id.
  destruct (split_counts tr er (Z.of_nat (length x))) as [[[nt nv] nte]|]; [|done].
  cbn [bind]. intros [= <-]. eexists. split; [reflexivity|].
  unfold paired_data. cbn [x_train y_train x_val y_val x_test y_test].
  by rewrite !py_slice_zip.
Qed.

(** Instance of [split_keeps_pairs]: ten samples whose target is named
    like the input. *)
Lemma split_keeps_pairs_witness :
  exists q, train_val_test_split 0.7 0.1 (zip ten_samples ten_samples)
              (zip ten_samples ten_samples) = Ok q /\
            paired_data
              {| x_train := [0; 1; 2; 3; 4; 5; 6]; y_train := [0; 1; 2; 3; 4; 5; 6];
                 x_val := [7]; y_val := [7];
                 x_test := [8; 9]; y_test := [8; 9] |}
            = (x_train q, x_val q, x_test q).
Proof.
  apply (split_keeps_pairs 0.7 0.1 ten_samples ten_samples);
    [reflexivity | vm_compute; reflexivity].
Defined.

(** ** [_load_dyna]: a failed selection, and the feature columns *)

(** X14: when [data_col] is configured as a list that names a column the
    table does not have, [_load_dyna] raises KeyError - and the configured
    list has been lengthened by 'time' and 'entity_id' all the same. *)
Theorem load_dyna_columns_missing (self : TrafficSpeedDataset)
    (file_columns : list string) (h : heap) (l : loc) (cols : list string)
    (c : string) :
  data_col self = PList l ->
  h !! l = Some cols ->
  c ∈ cols -> c ∉ file_columns ->
  load_dyna_columns self file_columns h
  = (<[l := "time"%string :: "entity_id"%string :: cols]> h, Raise KeyError).
Proof.
  intros Hd Hl Hc Hmiss.
  pose proof (load_dyna_columns_list self file_columns h l cols Hd Hl) as Hheap.
  destruct (load_dyna_columns self file_columns h) as [h1 r] eqn:E.
  cbn [fst] in Hheap. subst h1. f_equal.
  unfold load_dyna_columns in E. rewrite Hd in E. injection E as E1 E2.
  rewrite <- E2, E1. clear E1 E2. rewrite lookup_insert_eq.
  cbv [default from_option id].
  destruct (forallb _ _) eqn:Hall; [|done]. exfalso.
  rewrite forallb_forall in Hall.
  specialize (Hall c). rewrite bool_decide_eq_true in Hall.
  apply Hmiss, Hall. apply list_elem_of_In. set_solver.
Qed.

(** Instance of [load_dyna_columns_missing]: the configured list
    ['traffic_speed'] on a table without that column. *)
Lemma load_dyna_columns_missing_witness :
  load_dyna_columns cfg_list ["dyna_id"; "type"; "time"; "entity_id"; "flow"]%string
    heap_list
  = (<[1%positive := ["time"; "entity_id"; "traffic_speed"]%string]> heap_list,
     Raise KeyError).
Proof.
  apply (load_dyna_columns_missing cfg_list _ heap_list 1%positive
           ["traffic_speed"%string] "traffic_speed");
    [reflexivity | reflexivity | set_solver | set_solver].
Defined.

(** X15: the columns that [_load_dyna] takes as features are the selected
    columns without the first two - except when exactly two columns are
    selected, where [columns[-0:]] takes both of them. *)
Theorem dyna_feature_columns_spec (columns : list string) :
  dyna_feature_columns columns
  = if Nat.eqb (length columns) 2 then columns else drop 2 columns.
Proof.
  unfold dyna_feature_columns, py_slice, slice_bound.
  destruct columns as [|c1 [|c2 [|c3 columns]]]; try reflexivity.
  cbn [length Nat.eqb].
  set (n := length columns).
  replace (Z.of_nat (S (S (S n))) - 2) with (Z.of_nat (S n)) by lia.
  destruct (Z.ltb_spec (- Z.of_nat (S n)) 0); [|lia].
  rewrite Z.min_r, Z.max_r by lia.
  replace (Z.to_nat (- Z.of_nat (S n) + Z.of_nat (S (S (S n))))) with 2%nat by lia.
  apply take_ge. rewrite length_drop. cbn [length]. fold n. lia.
Qed.

(** ** [LINE.py]: symmetry, errors and the sign of the loss *)

Lemma fl_mul_comm (a b : fl) : fl_mul a b = fl_mul b a.
Proof. destruct a, b; cbn; try reflexivity. f_equal. lra. Qed.

Lemma zip_with_comm {A B : Type} (f : A -> A -> B) (l k : list A) :
  (forall a b, f a b = f b a) -> zip_with f l k = zip_with f k l.
Proof.
  intros Hf. revert k. induction l as [|a l IH]; intros [|b k]; try done.
  cbn. by rewrite Hf, IH.
Qed.

Lemma broadcast_comm {A B : Type} (f : A -> A -> B) (a b : list A) :
  (forall x y, f x y = f y x) -> broadcast f a b = broadcast f b a.
Proof.
  intros Hf. unfold broadcast. rewrite (Nat.eqb_sym (length b) (length a)).
  destruct (Nat.eqb (length a) (length b)) eqn:Hlen.
  - by rewrite (zip_with_comm f a b).
  - assert (Hmap : forall x l, map (f x) l = map (fun y => f y x) l)
      by (intros x l; apply map_ext; intros y; apply Hf).
    destruct a as [|a1 [|a2 a]], b as [|b1 [|b2 b]]; try done;
      cbn in Hlen; try discriminate; by rewrite Hmap.
Qed.

Lemma mul_sum_comm (vi vj : list (list fl)) : mul_sum vi vj = mul_sum vj vi.
Proof.
  unfold mul_sum. rewrite (broadcast_comm (zip_with fl_mul) vi vj); [done|].
  intros x y. apply zip_with_comm, fl_mul_comm.
Qed.

(** The only exception of an embedding lookup is IndexError. *)
Lemma embedding_raises (weight : table) (idx : list Z) (e : pyexc) :
  embedding weight idx = Raise e -> e = IndexError.
Proof.
  unfold embedding. induction idx as [|i idx IH]; [done|]. cbn [mapM].
  destruct ((i <? 0) || (Z.of_nat (length weight) <=? i)).
  - by intros [= <-].
  - destruct (weight !! Z.to_nat i); [|by intros [= <-]]. cbn [bind].
    destruct (mapM _ idx) as [rows|e']; [done|]. cbn [bind].
    intros [= <-]. by apply IH.
Qed.

(** X16: the first-order scorer is symmetric: swapping the two index
    batches gives the same scores, and the same exception when it
    raises. *)
Theorem line_first_symmetric (o : string) (node_emb : table) (I J : list Z) :
  forward {| order := o; embed := LINE_FIRST node_emb |} I J
  = forward {| order := o; embed := LINE_FIRST node_emb |} J I.
Proof.
  unfold forward. cbn [embed embed_forward].
  destruct (embedding node_emb I) as [vi|e1] eqn:HI,
           (embedding node_emb J) as [vj|e2] eqn:HJ; cbn [bind]; try done.
  - apply mul_sum_comm.
  - apply embedding_raises in HI, HJ. by subst.
Qed.

Lemma mapM_raise_elem {A B : Type} (f : A -> result B) (l : list A) (e : pyexc) (a : A) :
  (forall x e', f x = Raise e' -> e' = e) ->
  a ∈ l -> f a = Raise e -> mapM f l = Raise e.
Proof.
  intros Hf Ha Hfa. induction l as [|x l IH]; [by apply elem_of_nil in Ha|].
  cbn [mapM]. destruct (f x) as [b|e'] eqn:Hx.
  - cbn [bind]. apply elem_of_cons in Ha as [->|Ha]; [congruence|].
    by rewrite (IH Ha).
  - cbn [bind]. f_equal. by eapply Hf.
Qed.

Lemma embedding_out_of_range (weight : table) (idx : list Z) (i : Z) :
  i ∈ idx -> i < 0 \/ Z.of_nat (length weight) <= i ->
  embedding weight idx = Raise IndexError.
Proof.
  intros Hi Hout. unfold embedding. apply (mapM_raise_elem _ _ _ i); [|done|].
  - intros x e'. cbn beta.
    destruct ((x <? 0) || (Z.of_nat (length weight) <=? x)); [by intros [= <-]|].
    destruct (weight !! Z.to_nat x); [done|by intros [= <-]].
  - cbn beta. destruct (Z.ltb_spec i 0); [done|].
    destruct (Z.leb_spec (Z.of_nat (length weight)) i); [done|lia].
Qed.

(** X17: as soon as one index of the batch lies outside
    [0, num_nodes), both scorers raise IndexError, whatever the rest of
    the batch is. *)
Theorem line_forward_out_of_range (node_emb context_emb : table)
    (I J : list Z) (i : Z) (num_nodes : nat) :
  length node_emb = num_nodes -> length context_emb = num_nodes ->
  i ∈ I ++ J -> i < 0 \/ Z.of_nat num_nodes <= i ->
  forward {| order := "first"; embed := LINE_FIRST node_emb |} I J
    = Raise IndexError /\
  forward {| order := "second"; embed := LINE_SECOND node_emb context_emb |} I J
    = Raise IndexError.
Proof.
  intros Hn Hc Hi Hout. unfold forward. cbn [embed embed_forward].
  apply elem_of_app in Hi as [Hi|Hi].
  - rewrite (embedding_out_of_range node_emb I i) by (rewrite ?Hn; done). done.
  - destruct (embedding node_emb I) as [vi|e] eqn:HI.
    + cbn [bind].
      rewrite (embedding_out_of_range node_emb J i) by (rewrite ?Hn; done).
      by rewrite (embedding_out_of_range context_emb J i) by (rewrite ?Hc; done).
    + apply embedding_raises in HI. by subst.
Qed.

(** Instance of [line_forward_out_of_range]: the batch ([0], [2]) on
    tables of two nodes. *)
Lemma line_forward_out_of_range_witness :
  forward {| order := "first"; embed := LINE_FIRST emb_node |} [0] [2]
    = Raise IndexError /\
  forward {| order := "second"; embed := LINE_SECOND emb_node emb_context |} [0] [2]
    = Raise IndexError.
Proof.
  apply (line_forward_out_of_range emb_node emb_context [0] [2] 2 2);
    [reflexivity | reflexivity | set_solver | right; cbn; lia].
Defined.

Lemma fl_ltb_zero_false (x : R) : fl_ltb (Fin x) (Fin 0) = false -> (0 <= x)%R.
Proof. unfold fl_ltb. destruct (Rlt_dec x 0); [done|lra]. Qed.

(** -log(sigmoid(x)) is never below zero: it is NaN, +inf or a finite
    number that is not negative. *)
Lemma neg_log_sigmoid_not_below_zero (x : fl) :
  fl_ltb (fl_neg (fl_log (sigmoid x))) (Fin 0) = false.
Proof.
  destruct x as [r| | |]; unfold sigmoid; cbn [fl_neg fl_exp fl_add].
  - pose proof (exp_pos (- r)) as He.
    assert (Hy : (0 < 1 / (1 + Rtrigo_def.exp (- r)) < 1)%R).
    { split.
      - apply Rdiv_lt_0_compat; lra.
      - apply (Rmult_lt_reg_r (1 + Rtrigo_def.exp (- r))); [lra|].
        unfold Rdiv. rewrite Rmult_assoc, Rinv_l by lra. lra. }
    rewrite fl_div_fin by lra. unfold fl_log. rewrite Rsign_pos by lra.
    cbn [fl_neg]. apply fl_ltb_fin_false.
    assert (Rpower.ln (1 / (1 + Rtrigo_def.exp (- r))) < 0)%R.
    { rewrite <- ln_1. apply ln_increasing; lra. }
    lra.
  - rewrite fl_div_fin by lra. unfold fl_log.
    replace (1 / (1 + 0))%R with 1%R by lra.
    rewrite Rsign_pos by lra. cbn [fl_neg]. apply fl_ltb_fin_false.
    rewrite ln_1. lra.
  - cbn [fl_div]. unfold fl_log. by rewrite Rsign_zero.
  - reflexivity.
Qed.

Lemma fl_add_not_below_zero (a b : fl) :
  fl_ltb a (Fin 0) = false -> fl_ltb b (Fin 0) = false ->
  fl_ltb (fl_add a b) (Fin 0) = false.
Proof.
  destruct a as [x| | |], b as [y| | |]; try done.
  intros Hx%fl_ltb_zero_false Hy%fl_ltb_zero_false.
  cbn [fl_add]. apply fl_ltb_fin_false. lra.
Qed.

Lemma np_sum_not_below_zero (l : list fl) :
  Forall (fun v => fl_ltb v (Fin 0) = false) l ->
  fl_ltb (np_sum l) (Fin 0) = false.
Proof.
  unfold np_sum.
  assert (Hgen : forall acc, fl_ltb acc (Fin 0) = false ->
            Forall (fun v => fl_ltb v (Fin 0) = false) l ->
            fl_ltb (fold_left fl_add l acc) (Fin 0) = false).
  { induction l as [|v l IH]; intros acc Hacc Hl; [done|].
    apply Forall_cons in Hl as [Hv Hl]. cbn [fold_left].
    apply IH; [|done]. by apply fl_add_not_below_zero. }
  apply Hgen. apply fl_ltb_fin_false. lra.
Qed.

Lemma np_mean_not_below_zero (l : list fl) :
  Forall (fun v => fl_ltb v (Fin 0) = false) l ->
  fl_ltb (np_mean l) (Fin 0) = false.
Proof.
  intros Hl%np_sum_not_below_zero. unfold np_mean.
  pose proof (pos_INR (length l)) as Hn.
  destruct (np_sum l) as [x| | |]; try done.
  - apply fl_ltb_zero_false in Hl. unfold fl_div.
    destruct (Rsign_spec (INR (length l))) as [[H1 E]|[[H1 E]|[H1 E]]];
      rewrite E; [lra| |].
    + destruct (Rsign_spec x) as [[H2 E2]|[[H2 E2]|[H2 E2]]];
        rewrite E2; [lra|done|done].
    + apply fl_ltb_fin_false. apply Rmult_le_pos; [done|].
      left. by apply Rinv_0_lt_compat.
  - unfold fl_div.
    destruct (Rsign_spec (INR (length l))) as [[H1 E]|[[H1 E]|[H1 E]]];
      rewrite E; [lra|done|done].
Qed.

(** X18: for a batch of index pairs inside the tables, with as many
    labels as pairs, either scorer returns a loss, and that loss is never
    below zero: it is a finite number that is not negative, +inf or NaN,
    whatever the weights and the labels are. *)
Theorem line_loss_nonneg (W1 W2 : table) (I J : list Z) (labels : list fl) :
  length I = length J -> length labels = length I ->
  Forall (fun i => 0 <= i < Z.of_nat (length W1)) I ->
  Forall (fun j => 0 <= j < Z.of_nat (length W1)) J ->
  Forall (fun j => 0 <= j < Z.of_nat (length W2)) J ->
  (exists l, calculate_loss {| order := "first"; embed := LINE_FIRST W1 |}
               I J labels = Ok l /\ fl_ltb l (Fin 0) = false) /\
  (exists l, calculate_loss {| order := "second"; embed := LINE_SECOND W1 W2 |}
               I J labels = Ok l /\ fl_ltb l (Fin 0) = false).
Proof.
  intros Hlen Hlab HI HJ1 HJ2.
  assert (Hloss : forall scores : list fl,
            length scores = length labels ->
            exists l,
              (do prod <- broadcast fl_mul scores labels;
               Ok (fl_neg (np_mean (map logsigmoid prod)))) = Ok l
              /\ fl_ltb l (Fin 0) = false).
  { intros scores Hs. rewrite loss_of_scores by done.
    eexists. split; [reflexivity|].
    unfold mean_neg_log_sigmoid. apply np_mean_not_below_zero.
    apply Forall_forall. intros v Hv.
    apply list_elem_of_lookup in Hv as [k Hv].
    apply lookup_zip_with_Some in Hv as (s & l & -> & _ & _).
    apply neg_log_sigmoid_not_below_zero. }
  split.
  - unfold calculate_loss, forward. cbn [embed embed_forward].
    rewrite !embedding_in_range by done. cbn [bind].
    rewrite mul_sum_rows by done. cbn [bind]. apply Hloss.
    rewrite length_zip_with. lia.
  - unfold calculate_loss, forward. cbn [embed embed_forward].
    rewrite !embedding_in_range by done. cbn [bind].
    rewrite mul_sum_rows by done. cbn [bind]. apply Hloss.
    rewrite length_zip_with. lia.
Qed.

(** Instance of [line_loss_nonneg]: the pair (0, 1) with label -1 on the
    two example tables. *)
Lemma line_loss_nonneg_witness :
  exists l, calculate_loss {| order := "first"; embed := LINE_FIRST emb_node |}
              [0] [1] [Fin (-1)] = Ok l /\ fl_ltb l (Fin 0) = false.
Proof.
  apply (line_loss_nonneg emb_node emb_context [0] [1] [Fin (-1)]);
    [done | done | repeat constructor; cbn; lia ..].
Defined.

(** ** [_get_scalar]: the fitted maximum, and the empty training slice *)

(** X19: with the "normal" scaler, when each of the six sliced arrays has
    an entry and none holds a NaN, the fitted maximum is an entry of one
    of the six arrays and no entry of any of them exceeds it. *)
Theorem get_scalar_normal_bound (output_dim : Z)
    (x_train y_train x_val y_val x_test y_test : array4) :
  Forall (fun a => flat (channels_to output_dim a) <> [] /\
                   Forall (fun v => fl_isnan v = false)
                          (flat (channels_to output_dim a)))
         [x_train; y_train; x_val; y_val; x_test; y_test] ->
  exists m,
    get_scalar "normal" output_dim x_train y_train x_val y_val x_test y_test
      = Ok (NormalScaler m) /\
    Exists (fun a => m ∈ flat (channels_to output_dim a))
           [x_train; y_train; x_val; y_val; x_test; y_test] /\
    Forall (fun a => Forall (fun v => fl_ltb m v = false)
                            (flat (channels_to output_dim a)))
           [x_train; y_train; x_val; y_val; x_test; y_test].
Proof.
  intros H.
  repeat (apply Forall_cons in H as [HH H]; cbv beta in HH; destruct HH as [? ?]).
  destruct (np_amax_bound (flat (channels_to output_dim x_train)))
    as (m1 & E1 & N1 & I1 & B1); [done..|].
  destruct (np_amax_bound (flat (channels_to output_dim y_train)))
    as (m2 & E2 & N2 & I2 & B2); [done..|].
  destruct (np_amax_bound (flat (channels_to output_dim x_val)))
    as (m3 & E3 & N3 & I3 & B3); [done..|].
  destruct (np_amax_bound (flat (channels_to output_dim y_val)))
    as (m4 & E4 & N4 & I4 & B4); [done..|].
  destruct (np_amax_bound (flat (channels_to output_dim x_test)))
    as (m5 & E5 & N5 & I5 & B5); [done..|].
  destruct (np_amax_bound (flat (channels_to output_dim y_test)))
    as (m6 & E6 & N6 & I6 & B6); [done..|].
  destruct (py_max_fl_bound [m2; m3; m4; m5; m6] m1) as (Nm & Im & Bm).
  { by repeat constructor. }
  exists (py_max_fl m1 [m2; m3; m4; m5; m6]).
  split.
  { unfold get_scalar. cbn [String.eqb Ascii.eqb Bool.eqb].
    rewrite E1, E2, E3, E4, E5, E6. by cbn [bind]. }
  assert (Hup : forall mi l, fl_isnan mi = false ->
            Forall (fun v => fl_isnan v = false) l ->
            fl_ltb (py_max_fl m1 [m2; m3; m4; m5; m6]) mi = false ->
            Forall (fun v => fl_ltb mi v = false) l ->
            Forall (fun v => fl_ltb (py_max_fl m1 [m2; m3; m4; m5; m6]) v = false) l).
  { intros mi l Hmi Hl Hle Hb. apply Forall_forall. intros v Hv.
    apply (fl_ltb_false_trans _ mi v); try done.
    - by apply (proj1 (Forall_forall _ _) Hl).
    - by apply (proj1 (Forall_forall _ _) Hb). }
  split.
  - repeat (apply elem_of_cons in Im as [-> | Im]);
      [ by apply Exists_cons_hd
      | by do 1 apply Exists_cons_tl; apply Exists_cons_hd
      | by do 2 apply Exists_cons_tl; apply Exists_cons_hd
      | by do 3 apply Exists_cons_tl; apply Exists_cons_hd
      | by do 4 apply Exists_cons_tl; apply Exists_cons_hd
      | by do 5 apply Exists_cons_tl; apply Exists_cons_hd
      | by apply elem_of_nil in Im ].
  - repeat (apply Forall_cons in Bm as [? Bm]).
    repeat apply Forall_cons_2; try apply Forall_nil_2;
      match goal with
      | B : Forall (fun v => fl_ltb ?mi v = false) ?l |- Forall _ ?l =>
          apply (Hup mi l); assumption
      end.
Qed.

(** Instance of [get_scalar_normal_bound]: five arrays holding 1 and one
    holding 9. *)
Lemma get_scalar_normal_bound_witness :
  exists m,
    get_scalar "normal" 1 arr_one arr_one arr_one arr_one arr_nine arr_one
      = Ok (NormalScaler m) /\
    Exists (fun a => m ∈ flat (channels_to 1 a))
           [arr_one; arr_one; arr_one; arr_one; arr_nine; arr_one] /\
    Forall (fun a => Forall (fun v => fl_ltb m v = false) (flat (channels_to 1 a)))
           [arr_one; arr_one; arr_one; arr_one; arr_nine; arr_one].
Proof.
  apply (get_scalar_normal_bound 1 arr_one arr_one arr_one arr_one arr_nine arr_one).
  repeat constructor; done.
Defined.

Lemma np_mean_nil : np_mean [] = NaN.
Proof.
  unfold np_mean, np_sum. cbn [fold_left length INR]. unfold fl_div.
  by rewrite Rsign_zero.
Qed.

(** X20: when the training slice has no entry, the "standard" scaler is
    fitted without an error and carries NaN as mean and as deviation, while
    "normal", "minmax01" and "minmax11" raise ValueError. *)
Theorem get_scalar_empty_train (output_dim : Z)
    (x_train y_train x_val y_val x_test y_test : array4) :
  flat (channels_to output_dim x_train) = [] ->
  get_scalar "standard" output_dim x_train y_train x_val y_val x_test y_test
    = Ok (StandardScaler NaN NaN) /\
  Forall (fun scaler_type =>
            get_scalar scaler_type output_dim x_train y_train x_val y_val x_test y_test
            = Raise ValueError)
         ["normal"; "minmax01"; "minmax11"]%string.
Proof.
  intros He. split.
  - unfold get_scalar. cbn [String.eqb Ascii.eqb Bool.eqb]. rewrite He.
    unfold np_std. cbn [map]. by rewrite !np_mean_nil.
  - repeat constructor; unfold get_scalar; cbn [String.eqb Ascii.eqb Bool.eqb];
      by rewrite He.
Qed.

(** Instance of [get_scalar_empty_train]: no training sample at all. *)
Lemma get_scalar_empty_train_witness :
  get_scalar "standard" 1 [] [] arr_one arr_one arr_one arr_one
    = Ok (StandardScaler NaN NaN) /\
  Forall (fun scaler_type =>
            get_scalar scaler_type 1 [] [] arr_one arr_one arr_one arr_one
            = Raise ValueError)
         ["normal"; "minmax01"; "minmax11"]%string.
Proof.
  apply (get_scalar_empty_train 1 [] [] arr_one arr_one arr_one arr_one).
  reflexivity.
Defined.

Lemma np_maximum_fold_nan (l : list fl) (a : fl) :
  NaN ∈ a :: l -> fold_left np_maximum l a = NaN.
Proof.
  revert a. induction l as [|b l IH]; intros a Hin.
  - apply elem_of_cons in Hin as [<- | Hin]; [done|].
    by apply elem_of_nil in Hin.
  - cbn [fold_left]. apply IH.
    apply elem_of_cons in Hin as [<- | Hin]; [apply list_elem_of_here|].
    apply elem_of_cons in Hin as [<- | Hin].
    + destruct a; apply list_elem_of_here.
    + by apply list_elem_of_further.
Qed.

Lemma py_max_fl_nan (rest : list fl) : py_max_fl NaN rest = NaN.
Proof. unfold py_max_fl. induction rest as [|b rest IH]; [done|]. apply IH. Qed.

Lemma py_max_fl_not_nan (rest : list fl) (a : fl) :
  fl_isnan a = false -> fl_isnan (py_max_fl a rest) = false.
Proof.
  unfold py_max_fl. revert a. induction rest as [|b rest IH]; intros a Ha; [done|].
  cbn [fold_left]. destruct (fl_ltb a b) eqn:E; apply IH; [|done].
  by destruct a, b.
Qed.

Lemma np_amax_nonempty (l : list fl) : l <> [] -> exists m, np_amax l = Ok m.
Proof. destruct l as [|a l]; [done|]. intros _. by eexists. Qed.

Lemma nan_or_not (l : list fl) :
  NaN ∈ l \/ Forall (fun v => fl_isnan v = false) l.
Proof.
  induction l as [|a l [IH | IH]].
  - right. constructor.
  - left. by apply list_elem_of_further.
  - destruct a; [right; by constructor ..|left; apply list_elem_of_here].
Qed.

(** X21: with the "normal" scaler on six non-empty slices, the fitted
    maximum is NaN exactly when the slice of [x_train] holds a NaN: a NaN in
    one of the other five arrays alone never reaches the scaler, because the
    builtin [max] keeps its first argument when a comparison with NaN is
    false. *)
Theorem get_scalar_normal_nan (output_dim : Z)
    (x_train y_train x_val y_val x_test y_test : array4) :
  Forall (fun a => flat (channels_to output_dim a) <> [])
         [x_train; y_train; x_val; y_val; x_test; y_test] ->
  exists m,
    get_scalar "normal" output_dim x_train y_train x_val y_val x_test y_test
      = Ok (NormalScaler m) /\
    (fl_isnan m = true <-> NaN ∈ flat (channels_to output_dim x_train)).
Proof.
  intros H.
  repeat (apply Forall_cons in H as [? H]).
  destruct (np_amax_nonempty (flat (channels_to output_dim y_train))) as [m2 E2]; [done|].
  destruct (np_amax_nonempty (flat (channels_to output_dim x_val))) as [m3 E3]; [done|].
  destruct (np_amax_nonempty (flat (channels_to output_dim y_val))) as [m4 E4]; [done|].
  destruct (np_amax_nonempty (flat (channels_to output_dim x_test))) as [m5 E5]; [done|].
  destruct (np_amax_nonempty (flat (channels_to output_dim y_test))) as [m6 E6]; [done|].
  unfold get_scalar. cbn [String.eqb Ascii.eqb Bool.eqb].
  rewrite E2, E3, E4, E5, E6.
  destruct (nan_or_not (flat (channels_to output_dim x_train))) as [Hnan | Hfin].
  - destruct (flat (channels_to output_dim x_train)) as [|a l] eqn:El; [done|].
    cbn [np_amax bind]. rewrite np_maximum_fold_nan by done.
    exists NaN. by rewrite py_max_fl_nan.
  - destruct (np_amax_bound (flat (channels_to output_dim x_train)))
      as (m1 & E1 & N1 & _ & _); [done..|].
    rewrite E1. cbn [bind]. eexists. split; [reflexivity|].
    rewrite py_max_fl_not_nan by done. split; [done|].
    intros Hin. apply (proj1 (Forall_forall _ _) Hfin) in Hin. done.
Qed.

(** Instance of [get_scalar_normal_nan]: the NaN sits in [y_train] only. *)
Lemma get_scalar_normal_nan_witness :
  exists m,
    get_scalar "normal" 1 arr_one arr_nan arr_one arr_one arr_nine arr_one
      = Ok (NormalScaler m) /\
    (fl_isnan m = true <-> NaN ∈ flat (channels_to 1 arr_one)).
Proof.
  apply (get_scalar_normal_nan 1 arr_one arr_nan arr_one arr_one arr_nine arr_one).
  repeat constructor; done.
Defined.

